(** * EduQuest backend: scoring, points ledger, badge rules, cognitive profile

    A shallow embedding of [app/api/models.py] and [app/api/tasks.py].

    Conventions of the embedding.
    - A Django table is a list of rows in the order in which an unordered
      query returns them (the "encounter order" of every [for] loop).
    - Primary and foreign keys are integers ([Z]).  A row that the source
      reaches through a foreign key for reading only ([ua.answer],
      [ua.question]) is carried inside the referring row; a row that is
      looked up and written ([instance.student], [attempt.quest]) is fetched
      from its table, and a failed fetch is the exception Django raises.
    - [FloatField] values are exact rationals ([Q]); the rounding of IEEE
      doubles is outside the embedding.  Numeric results are therefore
      compared with [==], stored rows with [=].
    - Timestamps are integer microseconds, absent ones are [None]. *)

From Stdlib Require Import ZArith QArith Qminmax Lqa Lia String List.
From stdpp Require Import base gmap strings list.

Open Scope Z_scope.
Open Scope Q_scope.

(** ** Python helpers *)

(** [min(a, b)]: the first argument unless the second is strictly smaller. *)
Definition py_min (a b : Q) : Q := if Qlt_le_dec b a then b else a.

(** [max(a, b)]: the first argument unless the second is strictly larger. *)
Definition py_max (a b : Q) : Q := if Qlt_le_dec a b then b else a.

(** [a > b] on numbers. *)
Definition py_gt (a b : Q) : bool := if Qlt_le_dec b a then true else false.

(** [a >= b] on numbers. *)
Definition py_ge (a b : Q) : bool := if Qlt_le_dec a b then false else true.

(** [a == b] on numbers. *)
Definition py_eq (a b : Q) : bool := Qeq_bool a b.

(** [n or d] for a count [n]: [d] when [n] is zero. *)
Definition py_or (n : nat) (d : nat) : nat :=
  match n with
  | O => d
  | S _ => n
  end.

(** A count as a number. *)
Definition of_nat (n : nat) : Q := inject_Z (Z.of_nat n).

(** [sum(xs)]. *)
Definition Qsum (xs : list Q) : Q := fold_right Qplus 0 xs.

(** ** Models ([models.py])

    One record per model, with the model's field names; fields that the
    embedded jobs neither read nor write (images, descriptions, dates of a
    quest, [auto_now] timestamps, ...) are left out. *)

Module Question.
Record t := mk {
  id : Z;
  quest : Z;
  text : string;
  max_score : Q;
  cognitive_level : option string;
  topic : option string
}.
End Question.

Module Answer.
Record t := mk {
  id : Z;
  question : Z;
  text : string;
  is_correct : bool;
  reason : option string
}.
End Answer.

Module UserAnswerAttempt.
Record t := mk {
  id : Z;
  user_quest_attempt : Z;
  question : Question.t;
  answer : Answer.t;
  is_selected : bool;
  is_correct : bool;
  hint_used : bool;
  score_achieved : Q
}.

(** [ua.score_achieved = s] *)
Definition set_score_achieved (s : Q) (ua : t) : t :=
  mk (id ua) (user_quest_attempt ua) (question ua) (answer ua)
     (is_selected ua) (is_correct ua) (hint_used ua) s.
End UserAnswerAttempt.

Module UserQuestAttempt.
Record t := mk {
  id : Z;
  student : Z;
  quest : Z;
  submitted : bool;
  first_attempted_date : option Z;
  last_attempted_date : option Z;
  total_score_achieved : Q
}.

Definition set_total_score_achieved (s : Q) (a : t) : t :=
  mk (id a) (student a) (quest a) (submitted a)
     (first_attempted_date a) (last_attempted_date a) s.


(** The [time_taken] property: whole milliseconds between the two
    timestamps, 0 when one is missing or the difference is negative. *)
Definition time_taken (a : t) : Z :=
  match first_attempted_date a, last_attempted_date a with
  | Some first, Some last =>
      let time_difference := (last - first)%Z in
      if (time_difference <? 0)%Z then 0%Z
      else (time_difference / 1000)%Z
  | _, _ => 0%Z
  end.
End UserQuestAttempt.

Module Quest.
Record t := mk {
  id : Z;
  course_group : Z;
  name : string;
  type : string;
  status : string
}.

Definition set_status (s : string) (q : t) : t :=
  mk (id q) (course_group q) (name q) (type q) s.
End Quest.

Module EduquestUser.
Record t := mk {
  id : Z;
  username : string;
  total_points : Q
}.

Definition set_total_points (p : Q) (u : t) : t :=
  mk (id u) (username u) p.
End EduquestUser.

Module CourseGroup.
Record t := mk {
  id : Z;
  course : Z;
  name : string
}.
End CourseGroup.

Module Course.
Record t := mk {
  id : Z;
  status : string
}.

Definition set_status (s : string) (c : t) : t := mk (id c) s.
End Course.

Module UserCourseGroupEnrollment.
Record t := mk {
  id : Z;
  student : Z;
  course_group : Z;
  completed_on : option Z
}.

Definition set_completed_on (d : option Z) (e : t) : t :=
  mk (id e) (student e) (course_group e) d.
End UserCourseGroupEnrollment.

Module Badge.
Record t := mk {
  id : Z;
  name : string
}.
End Badge.

Module UserQuestBadge.
Record t := mk {
  badge : Z;
  user_quest_attempt : Z
}.
End UserQuestBadge.

Module UserCourseBadge.
Record t := mk {
  badge : Z;
  user_course_group_enrollment : Z
}.
End UserCourseBadge.

(** Values of a [JSONField] and of a decoded response body. *)
#[warnings="-register-all"]
Inductive json : Type :=
| JNull
| JBool (b : bool)
| JNumber (q : Q)
| JString (s : string)
| JArray (items : list json)
| JObject (members : list (string * json)).

Module StudentCognitiveProfile.
Record t := mk {
  student : Z;
  remember_accuracy : Q;
  understand_accuracy : Q;
  apply_accuracy : Q;
  analyse_accuracy : Q;
  evaluate_accuracy : Q;
  create_accuracy : Q;
  weak_topics : gmap (option string) Q;
  competency_level : string;
  recommend_difficulty : Q
}.

(** Field defaults of the model, used by [get_or_create]. *)
Definition default (student : Z) : t :=
  mk student 0 0 0 0 0 0 ∅ "Beginner" 5.
End StudentCognitiveProfile.

Module StudentFeedback.
Record t := mk {
  user_quest_attempt : Z;
  strengths : json;
  weaknesses : json;
  recommendations : json;
  question_feedback : json;
  quest_summary : json;
  subtopic_feedback : json;
  study_tips : json
}.
End StudentFeedback.

(** ** The store *)

Record DB := mkDB {
  questions : list Question.t;
  answers : list Answer.t;
  user_answer_attempts : list UserAnswerAttempt.t;
  user_quest_attempts : list UserQuestAttempt.t;
  quests : list Quest.t;
  users : list EduquestUser.t;
  course_groups : list CourseGroup.t;
  courses : list Course.t;
  enrollments : list UserCourseGroupEnrollment.t;
  badges : list Badge.t;
  user_quest_badges : list UserQuestBadge.t;
  user_course_badges : list UserCourseBadge.t;
  cognitive_profiles : list StudentCognitiveProfile.t;
  student_feedbacks : list StudentFeedback.t
}.

Definition empty_db : DB :=
  mkDB [] [] [] [] [] [] [] [] [] [] [] [] [] [].

Definition set_user_answer_attempts (v : list UserAnswerAttempt.t) (db : DB) : DB :=
  mkDB (questions db) (answers db) v (user_quest_attempts db) (quests db)
       (users db) (course_groups db) (courses db) (enrollments db) (badges db)
       (user_quest_badges db) (user_course_badges db) (cognitive_profiles db)
       (student_feedbacks db).

Definition set_user_quest_attempts (v : list UserQuestAttempt.t) (db : DB) : DB :=
  mkDB (questions db) (answers db) (user_answer_attempts db) v (quests db)
       (users db) (course_groups db) (courses db) (enrollments db) (badges db)
       (user_quest_badges db) (user_course_badges db) (cognitive_profiles db)
       (student_feedbacks db).

Definition set_quests (v : list Quest.t) (db : DB) : DB :=
  mkDB (questions db) (answers db) (user_answer_attempts db)
       (user_quest_attempts db) v
       (users db) (course_groups db) (courses db) (enrollments db) (badges db)
       (user_quest_badges db) (user_course_badges db) (cognitive_profiles db)
       (student_feedbacks db).

Definition set_users (v : list EduquestUser.t) (db : DB) : DB :=
  mkDB (questions db) (answers db) (user_answer_attempts db)
       (user_quest_attempts db) (quests db)
       v (course_groups db) (courses db) (enrollments db) (badges db)
       (user_quest_badges db) (user_course_badges db) (cognitive_profiles db)
       (student_feedbacks db).


Definition set_enrollments (v : list UserCourseGroupEnrollment.t) (db : DB) : DB :=
  mkDB (questions db) (answers db) (user_answer_attempts db)
       (user_quest_attempts db) (quests db)
       (users db) (course_groups db) (courses db) v (badges db)
       (user_quest_badges db) (user_course_badges db) (cognitive_profiles db)
       (student_feedbacks db).

Definition set_user_quest_badges (v : list UserQuestBadge.t) (db : DB) : DB :=
  mkDB (questions db) (answers db) (user_answer_attempts db)
       (user_quest_attempts db) (quests db)
       (users db) (course_groups db) (courses db) (enrollments db) (badges db)
       v (user_course_badges db) (cognitive_profiles db)
       (student_feedbacks db).

Definition set_user_course_badges (v : list UserCourseBadge.t) (db : DB) : DB :=
  mkDB (questions db) (answers db) (user_answer_attempts db)
       (user_quest_attempts db) (quests db)
       (users db) (course_groups db) (courses db) (enrollments db) (badges db)
       (user_quest_badges db) v (cognitive_profiles db)
       (student_feedbacks db).

Definition set_cognitive_profiles (v : list StudentCognitiveProfile.t) (db : DB) : DB :=
  mkDB (questions db) (answers db) (user_answer_attempts db)
       (user_quest_attempts db) (quests db)
       (users db) (course_groups db) (courses db) (enrollments db) (badges db)
       (user_quest_badges db) (user_course_badges db) v
       (student_feedbacks db).

Definition set_student_feedbacks (v : list StudentFeedback.t) (db : DB) : DB :=
  mkDB (questions db) (answers db) (user_answer_attempts db)
       (user_quest_attempts db) (quests db)
       (users db) (course_groups db) (courses db) (enrollments db) (badges db)
       (user_quest_badges db) (user_course_badges db) (cognitive_profiles db)
       v.

(** ** Query helpers *)

(** The outcome of [Model.objects.get(...)]. *)
Inductive get_result (A : Type) : Type :=
| Got (row : A)
| DoesNotExist
| MultipleObjectsReturned.
Arguments Got {A} row.
Arguments DoesNotExist {A}.
Arguments MultipleObjectsReturned {A}.

Definition objects_get {A : Type} (p : A -> bool) (table : list A) : get_result A :=
  match List.filter p table with
  | [] => DoesNotExist
  | [row] => Got row
  | _ :: _ :: _ => MultipleObjectsReturned
  end.

(** [queryset.exists()] *)
Definition exists_ {A : Type} (rows : list A) : bool :=
  match rows with
  | [] => false
  | _ :: _ => true
  end.

(** [aggregate(Max(field))]: [None] on an empty queryset. *)
Fixpoint aggregate_max (xs : list Q) : option Q :=
  match xs with
  | [] => None
  | x :: rest =>
      match aggregate_max rest with
      | None => Some x
      | Some m => Some (py_max x m)
      end
  end.

(** [value or 0] for an optional number: 0 for [None] and for zero. *)
Definition or_zero (v : option Q) : Q :=
  match v with
  | None => 0
  | Some x => if Qeq_bool x 0 then 0 else x
  end.

(** ** Score Calculator ([UserQuestAttempt.calculate_total_score_achieved]) *)

(** [self.quest.questions.all()] *)
Definition quest_questions (db : DB) (quest_id : Z) : list Question.t :=
  List.filter (fun q => Z.eqb (Question.quest q) quest_id) (questions db).

(** [question.answers.all()] *)
Definition question_answers (db : DB) (question : Question.t) : list Answer.t :=
  List.filter (fun a => Z.eqb (Answer.question a) (Question.id question)) (answers db).

(** [self.answer_attempts] *)
Definition answer_attempts (db : DB) (attempt_id : Z) : list UserAnswerAttempt.t :=
  List.filter (fun ua => Z.eqb (UserAnswerAttempt.user_quest_attempt ua) attempt_id)
              (user_answer_attempts db).

(** [self.answer_attempts.filter(question=question)] *)
Definition question_answer_attempts (db : DB) (attempt_id : Z) (question : Question.t)
  : list UserAnswerAttempt.t :=
  List.filter
    (fun ua => Z.eqb (Question.id (UserAnswerAttempt.question ua)) (Question.id question))
    (answer_attempts db attempt_id).

(** The test [ua.is_selected and ua.answer.is_correct]. *)
Definition selected_and_correct (ua : UserAnswerAttempt.t) : bool :=
  UserAnswerAttempt.is_selected ua && Answer.is_correct (UserAnswerAttempt.answer ua).

(** Body of the first [for ua in user_answers] loop, effect on [ua]. *)
Definition award (weight_per_option : Q) (ua : UserAnswerAttempt.t) : UserAnswerAttempt.t :=
  if selected_and_correct ua
  then UserAnswerAttempt.set_score_achieved weight_per_option ua
  else UserAnswerAttempt.set_score_achieved 0 ua.

(** Body of the first loop, effect on [question_score]. *)
Definition add_award (weight_per_option : Q) (question_score : Q) (ua : UserAnswerAttempt.t) : Q :=
  if selected_and_correct ua then question_score + weight_per_option else question_score.

(** The second [for ua in user_answers] loop.  The queryset caches its rows,
    so this loop walks the very objects the first loop wrote to and that sit
    in [user_answer_attempts_to_update]. *)
Fixpoint penalty_loop (remaining_penalty : Q) (user_answers : list UserAnswerAttempt.t)
  : list UserAnswerAttempt.t :=
  match user_answers with
  | [] => []
  | ua :: rest =>
      if py_gt (UserAnswerAttempt.score_achieved ua) 0 && py_gt remaining_penalty 0 then
        let deduction := py_min (UserAnswerAttempt.score_achieved ua) remaining_penalty in
        UserAnswerAttempt.set_score_achieved (UserAnswerAttempt.score_achieved ua - deduction) ua
          :: penalty_loop (remaining_penalty - deduction) rest
      else ua :: penalty_loop remaining_penalty rest
  end.

(** [question.max_score / (num_correct or 1)] *)
Definition weight_per_option (db : DB) (question : Question.t) : Q :=
  let num_correct := length (List.filter Answer.is_correct (question_answers db question)) in
  Question.max_score question / of_nat (py_or num_correct 1).

(** One iteration of [for question in questions]: [None] is the [continue]
    taken when the question has no answer option, otherwise the question's
    contribution to the total and the objects appended to the update list. *)
Definition score_question (db : DB) (attempt_id : Z) (question : Question.t)
  : option (Q * list UserAnswerAttempt.t) :=
  let num_options := length (question_answers db question) in
  if Nat.eqb num_options 0 then None
  else
    let w := weight_per_option db question in
    let user_answers := question_answer_attempts db attempt_id question in
    let question_score := fold_left (add_award w) user_answers 0 in
    let scored := List.map (award w) user_answers in
    let hint_used := exists_ (List.filter UserAnswerAttempt.hint_used user_answers) in
    if hint_used
    then Some (py_max 0 (question_score - 5), penalty_loop 5 scored)
    else Some (question_score, scored).

(** The loop over the questions: running total and update list. *)
Definition score_step (db : DB) (attempt_id : Z)
    (acc : Q * list UserAnswerAttempt.t) (question : Question.t)
  : Q * list UserAnswerAttempt.t :=
  match score_question db attempt_id question with
  | None => acc
  | Some (question_score, objs) => (fst acc + question_score, snd acc ++ objs)
  end.

(** [UserAnswerAttempt.objects.bulk_update(objs, ['score_achieved'])]: every
    row whose primary key is that of an object takes the object's score. *)
Definition bulk_update_score_achieved (objs table : list UserAnswerAttempt.t)
  : list UserAnswerAttempt.t :=
  List.map
    (fun row =>
       match List.find (fun o => Z.eqb (UserAnswerAttempt.id o) (UserAnswerAttempt.id row)) objs with
       | Some o => UserAnswerAttempt.set_score_achieved (UserAnswerAttempt.score_achieved o) row
       | None => row
       end)
    table.

(** The method: the returned total and the store after the bulk update. *)
Definition calculate_total_score_achieved (db : DB) (self : UserQuestAttempt.t) : Q * DB :=
  let questions := quest_questions db (UserQuestAttempt.quest self) in
  let '(total_score, user_answer_attempts_to_update) :=
    fold_left (score_step db (UserQuestAttempt.id self)) questions (0, []) in
  (total_score,
   set_user_answer_attempts
     (bulk_update_score_achieved user_answer_attempts_to_update (user_answer_attempts db)) db).

(** ** Jobs and their dispatch

    [job.delay(id)] puts a job on the queue; the embedding returns the jobs a
    function has enqueued next to the store it leaves. *)

Inductive Task : Type :=
| calculate_score_and_issue_points_job (user_quest_attempt_id : Z)
| award_first_attempt_badge_job (user_quest_attempt_id : Z)
| award_perfectionist_badge_job (user_quest_attempt_id : Z)
| generate_personalised_feedback_job (user_quest_attempt_id : Z)
| update_cognitive_profile_job (student_id : Z)
| award_speedster_badge_job (quest_id : Z)
| award_expert_badge_job (quest_id : Z)
| check_course_completion_and_award_completionist_badge_job (course_id : Z)
| award_tutorial_attendance_badges_for_course_job (course_id : Z).

(** ** Points Ledger Updater ([calculate_score_and_issue_points]) *)

Inductive points_outcome : Type :=
| PointsEarned (points_to_add : Q)
| NoPointsEarned
| AttemptDoesNotExist
| PointsError.

(** [instance.save(update_fields=['total_score_achieved'])] *)
Definition save_total_score_achieved (attempt_id : Z) (total : Q) (db : DB) : DB :=
  set_user_quest_attempts
    (List.map
       (fun row =>
          if Z.eqb (UserQuestAttempt.id row) attempt_id
          then UserQuestAttempt.set_total_score_achieved total row
          else row)
       (user_quest_attempts db))
    db.

(** [instance.student.save(update_fields=['total_points'])] *)
Definition save_total_points (student_id : Z) (points : Q) (db : DB) : DB :=
  set_users
    (List.map
       (fun row =>
          if Z.eqb (EduquestUser.id row) student_id
          then EduquestUser.set_total_points points row
          else row)
       (users db))
    db.

(** The jobs [UserQuestAttempt.save] enqueues once the row is written, for an
    instance loaded from the store whose stored [submitted] was
    [old_submitted_value]: the four submission jobs on the False -> True
    transition (the profile job is handed the attempt's id), else the
    feedback job when the attempt is submitted and has no feedback record
    ([hasattr(self, 'personalised_feedback')] is false). *)
Definition UserQuestAttempt_save_jobs (old_submitted_value : bool)
    (self : UserQuestAttempt.t) (db : DB) : list Task :=
  if negb old_submitted_value && UserQuestAttempt.submitted self then
    [calculate_score_and_issue_points_job (UserQuestAttempt.id self);
     award_first_attempt_badge_job (UserQuestAttempt.id self);
     generate_personalised_feedback_job (UserQuestAttempt.id self);
     update_cognitive_profile_job (UserQuestAttempt.id self)]
  else if UserQuestAttempt.submitted self
          && negb (exists_ (List.filter
                              (fun r => Z.eqb (StudentFeedback.user_quest_attempt r)
                                              (UserQuestAttempt.id self))
                              (student_feedbacks db)))
  then [generate_personalised_feedback_job (UserQuestAttempt.id self)]
  else [].

(** The student's other submitted attempts at the same quest:
    [filter(student=..., quest=..., submitted=True).exclude(pk=instance.pk)]. *)
Definition other_submitted_attempts (db : DB) (instance : UserQuestAttempt.t)
  : list UserQuestAttempt.t :=
  List.filter
    (fun a =>
       Z.eqb (UserQuestAttempt.student a) (UserQuestAttempt.student instance)
       && Z.eqb (UserQuestAttempt.quest a) (UserQuestAttempt.quest instance)
       && UserQuestAttempt.submitted a
       && negb (Z.eqb (UserQuestAttempt.id a) (UserQuestAttempt.id instance)))
    (user_quest_attempts db).

(** [aggregate(max_score=Max('total_score_achieved'))['max_score'] or 0] *)
Definition highest_score_achieved (db : DB) (instance : UserQuestAttempt.t) : Q :=
  or_zero (aggregate_max
             (List.map UserQuestAttempt.total_score_achieved
                       (other_submitted_attempts db instance))).

(** The job.  Everything after the fetch of the attempt runs inside
    [transaction.atomic()]: an exception there rolls the writes back, and the
    [except Exception] clause turns it into an error message.  [self.quest]
    is fetched by the score calculator, [instance.student] by the
    historical-best query.  [instance.save] goes through the overridden
    [UserQuestAttempt.save], which may enqueue the feedback job again. *)
Definition calculate_score_and_issue_points (db : DB) (user_quest_attempt_id : Z)
  : DB * points_outcome * list Task :=
  match objects_get (fun a => Z.eqb (UserQuestAttempt.id a) user_quest_attempt_id)
                    (user_quest_attempts db) with
  | DoesNotExist => (db, AttemptDoesNotExist, [])
  | MultipleObjectsReturned => (db, PointsError, [])
  | Got instance =>
      match objects_get (fun q => Z.eqb (Quest.id q) (UserQuestAttempt.quest instance))
                        (quests db) with
      | Got quest =>
          let '(total_score_achieved, db1) := calculate_total_score_achieved db instance in
          let db2 := save_total_score_achieved (UserQuestAttempt.id instance)
                                               total_score_achieved db1 in
          let enqueued :=
            UserQuestAttempt_save_jobs (UserQuestAttempt.submitted instance) instance db1
            ++ [award_perfectionist_badge_job user_quest_attempt_id] in
          match objects_get (fun u => Z.eqb (EduquestUser.id u) (UserQuestAttempt.student instance))
                            (users db2) with
          | Got student =>
              let highest := highest_score_achieved db2 instance in
              if py_gt total_score_achieved highest
                 && negb (String.eqb (Quest.type quest) "Private")
              then
                let points_to_add := total_score_achieved - highest in
                (save_total_points (EduquestUser.id student)
                                   (EduquestUser.total_points student + points_to_add) db2,
                 PointsEarned points_to_add, enqueued)
              else (db2, NoPointsEarned, enqueued)
          | _ => (db, PointsError, enqueued)
          end
      | _ => (db, PointsError, [])
      end
  end.



(** The lifetime total of a student ([None] when the row cannot be fetched). *)
Definition total_points_of (db : DB) (student_id : Z) : option Q :=
  match objects_get (fun u => Z.eqb (EduquestUser.id u) student_id) (users db) with
  | Got u => Some (EduquestUser.total_points u)
  | _ => None
  end.

(** ** Badge Rules Engine *)

(** [quest.total_max_score()]: [Sum('max_score')] over the quest's questions,
    [or 0]. *)
Definition total_max_score (db : DB) (quest : Quest.t) : Q :=
  Qsum (List.map Question.max_score (quest_questions db (Quest.id quest))).

(** [Model.objects.get_or_create(badge=..., subject=...)] on a two-column
    award table: [None] is the [MultipleObjectsReturned] the lookup raises. *)
Definition get_or_create {A : Type} (same : A -> bool) (new_row : A) (table : list A)
  : option (list A * bool) :=
  match objects_get same table with
  | Got _ => Some (table, false)
  | DoesNotExist => Some (table ++ [new_row], true)
  | MultipleObjectsReturned => None
  end.

Definition same_quest_badge (badge_id attempt_id : Z) (r : UserQuestBadge.t) : bool :=
  Z.eqb (UserQuestBadge.badge r) badge_id
  && Z.eqb (UserQuestBadge.user_quest_attempt r) attempt_id.

Definition same_course_badge (badge_id enrollment_id : Z) (r : UserCourseBadge.t) : bool :=
  Z.eqb (UserCourseBadge.badge r) badge_id
  && Z.eqb (UserCourseBadge.user_course_group_enrollment r) enrollment_id.

(** [Badge.objects.get(name=...)] *)
Definition get_badge (db : DB) (name : string) : get_result Badge.t :=
  objects_get (fun b => String.eqb (Badge.name b) name) (badges db).

(** [Quest.objects.get(id=quest_id)] *)
Definition get_quest (db : DB) (quest_id : Z) : get_result Quest.t :=
  objects_get (fun q => Z.eqb (Quest.id q) quest_id) (quests db).

(** *** Speedster ([award_speedster_badge]) *)

Inductive speedster_outcome : Type :=
| SpeedsterPrivateQuest
| SpeedsterNoMaxScore
| SpeedsterNoEligibleAttempts
| SpeedsterNoValidTimeTaken
| SpeedsterAwarded (fastest_attempt : UserQuestAttempt.t) (created : bool)
| SpeedsterNotTopThree
| SpeedsterQuestDoesNotExist
| SpeedsterRaised.

(** [filter(quest=quest, total_score_achieved__gt=0)
      .exclude(first_attempted_date=None, last_attempted_date=None)]:
    [exclude] with two conditions drops the rows that meet both. *)
Definition speedster_attempts (db : DB) (quest : Quest.t) : list UserQuestAttempt.t :=
  List.filter
    (fun a =>
       Z.eqb (UserQuestAttempt.quest a) (Quest.id quest)
       && py_gt (UserQuestAttempt.total_score_achieved a) 0
       && negb (match UserQuestAttempt.first_attempted_date a,
                      UserQuestAttempt.last_attempted_date a with
                | None, None => true
                | _, _ => false
                end))
    (user_quest_attempts db).

(** [[attempt for attempt in user_quest_attempts if attempt.time_taken > 0]] *)
Definition filtered_attempts (db : DB) (quest : Quest.t) : list UserQuestAttempt.t :=
  List.filter (fun a => (0 <? UserQuestAttempt.time_taken a)%Z) (speedster_attempts db quest).

(** [min(rows, key=lambda x: x.time_taken)] on a non-empty list: the first
    row of least [time_taken]. *)
Fixpoint min_by_time_taken (best : UserQuestAttempt.t) (rest : list UserQuestAttempt.t)
  : UserQuestAttempt.t :=
  match rest with
  | [] => best
  | a :: rest' =>
      if (UserQuestAttempt.time_taken a <? UserQuestAttempt.time_taken best)%Z
      then min_by_time_taken a rest'
      else min_by_time_taken best rest'
  end.

(** [.distinct()] on a column of numbers. *)
Definition distinct (xs : list Q) : list Q :=
  fold_right (fun x acc => if existsb (py_eq x) acc then acc else x :: acc) [] xs.

(** [.order_by('-total_score_achieved')] on a column of numbers. *)
Fixpoint insert_desc (x : Q) (sorted : list Q) : list Q :=
  match sorted with
  | [] => [x]
  | y :: rest => if Qle_bool y x then x :: sorted else y :: insert_desc x rest
  end.

Definition order_by_desc (xs : list Q) : list Q := fold_right insert_desc [] xs.

(** [values_list('total_score_achieved', flat=True).distinct()
      .order_by('-total_score_achieved')[:3]] *)
Definition top_three_scores (rows : list UserQuestAttempt.t) : list Q :=
  firstn 3 (order_by_desc (distinct (List.map UserQuestAttempt.total_score_achieved rows))).

(** [x in xs] on numbers. *)
Definition py_in (x : Q) (xs : list Q) : bool := existsb (py_eq x) xs.

Definition award_speedster_badge (db : DB) (quest_id : Z) : DB * speedster_outcome :=
  match get_quest db quest_id with
  | DoesNotExist => (db, SpeedsterQuestDoesNotExist)
  | MultipleObjectsReturned => (db, SpeedsterRaised)
  | Got quest =>
      if String.eqb (Quest.type quest) "Private" then (db, SpeedsterPrivateQuest)
      else if py_eq (total_max_score db quest) 0 then (db, SpeedsterNoMaxScore)
      else
        let user_quest_attempts := speedster_attempts db quest in
        if negb (exists_ user_quest_attempts) then (db, SpeedsterNoEligibleAttempts)
        else
          match filtered_attempts db quest with
          | [] => (db, SpeedsterNoValidTimeTaken)
          | first :: rest =>
              let fastest_attempt := min_by_time_taken first rest in
              let fastest_attempt_score := UserQuestAttempt.total_score_achieved fastest_attempt in
              if py_in fastest_attempt_score (top_three_scores user_quest_attempts) then
                match get_badge db "Speedster" with
                | Got badge =>
                    match get_or_create
                            (same_quest_badge (Badge.id badge) (UserQuestAttempt.id fastest_attempt))
                            (UserQuestBadge.mk (Badge.id badge) (UserQuestAttempt.id fastest_attempt))
                            (user_quest_badges db) with
                    | Some (table, created) =>
                        (set_user_quest_badges table db, SpeedsterAwarded fastest_attempt created)
                    | None => (db, SpeedsterRaised)
                    end
                | _ => (db, SpeedsterRaised)
                end
              else (db, SpeedsterNotTopThree)
          end
  end.

(** *** Expert ([award_expert_badge]) *)

Inductive expert_outcome : Type :=
| ExpertPrivateQuest
| ExpertNoMaxScore
| ExpertNotExpired
| ExpertNoAttempts
| ExpertNobodyAboveZero
| ExpertNoTopAttempts
| ExpertAwarded (top_attempts : list UserQuestAttempt.t) (highest_score : Q)
| ExpertQuestDoesNotExist
| ExpertBadgeDoesNotExist
| ExpertRaised.

(** [UserQuestAttempt.objects.filter(quest=quest)] *)
Definition quest_attempts (db : DB) (quest : Quest.t) : list UserQuestAttempt.t :=
  List.filter (fun a => Z.eqb (UserQuestAttempt.quest a) (Quest.id quest))
              (user_quest_attempts db).

(** The [for attempt in top_attempts] loop: one [get_or_create] per attempt;
    the flag is [false] when one of them raises, the records written before
    it stay. *)
Fixpoint award_each (badge_id : Z) (attempts : list UserQuestAttempt.t)
    (table : list UserQuestBadge.t) : list UserQuestBadge.t * bool :=
  match attempts with
  | [] => (table, true)
  | attempt :: rest =>
      match get_or_create (same_quest_badge badge_id (UserQuestAttempt.id attempt))
                          (UserQuestBadge.mk badge_id (UserQuestAttempt.id attempt))
                          table with
      | Some (table', _) => award_each badge_id rest table'
      | None => (table, false)
      end
  end.

Definition award_expert_badge (db : DB) (quest_id : Z) : DB * expert_outcome :=
  match get_quest db quest_id with
  | DoesNotExist => (db, ExpertQuestDoesNotExist)
  | MultipleObjectsReturned => (db, ExpertRaised)
  | Got quest =>
      if String.eqb (Quest.type quest) "Private" then (db, ExpertPrivateQuest)
      else if py_eq (total_max_score db quest) 0 then (db, ExpertNoMaxScore)
      else if negb (String.eqb (Quest.status quest) "Expired") then (db, ExpertNotExpired)
      else
        let user_quest_attempts := quest_attempts db quest in
        if negb (exists_ user_quest_attempts) then (db, ExpertNoAttempts)
        else
          let highest_score :=
            or_zero (aggregate_max
                       (List.map UserQuestAttempt.total_score_achieved user_quest_attempts)) in
          if negb (py_gt highest_score 0) then (db, ExpertNobodyAboveZero)
          else
            let top_attempts :=
              List.filter
                (fun a => py_eq (UserQuestAttempt.total_score_achieved a) highest_score)
                user_quest_attempts in
            match get_badge db "Expert" with
            | Got badge =>
                if Nat.eqb (length top_attempts) 0 then (db, ExpertNoTopAttempts)
                else
                  let '(table, ok) :=
                    award_each (Badge.id badge) top_attempts (user_quest_badges db) in
                  (set_user_quest_badges table db,
                   if ok then ExpertAwarded top_attempts highest_score else ExpertRaised)
            | DoesNotExist => (db, ExpertBadgeDoesNotExist)
            | MultipleObjectsReturned => (db, ExpertRaised)
            end
  end.

(** *** Completionist ([check_course_completion_and_award_completionist_badge]) *)

Inductive completion_outcome : Type :=
| CompletionNoEnrollments
| CompletionChecked (awarded : list UserCourseGroupEnrollment.t)
| CompletionRaised.

(** [UserCourseGroupEnrollment.objects.filter(course_group__course_id=course_id)] *)
Definition course_enrollments (db : DB) (course_id : Z) : list UserCourseGroupEnrollment.t :=
  List.filter
    (fun e =>
       existsb (fun g => Z.eqb (CourseGroup.id g) (UserCourseGroupEnrollment.course_group e)
                         && Z.eqb (CourseGroup.course g) course_id)
               (course_groups db))
    (enrollments db).

(** [Quest.objects.filter(course_group=course_group).exclude(type="Private")] *)
Definition quests_in_group (db : DB) (course_group_id : Z) : list Quest.t :=
  List.filter
    (fun q => Z.eqb (Quest.course_group q) course_group_id
              && negb (String.eqb (Quest.type q) "Private"))
    (quests db).

(** [set(quests_in_group.values_list('id', flat=True))] *)
Definition quests_in_group_ids (db : DB) (course_group_id : Z) : gset Z :=
  list_to_set (List.map Quest.id (quests_in_group db course_group_id)).

(** [set(UserQuestAttempt.objects.filter(student=user, quest__in=quests_in_group,
         submitted=True).values_list('quest_id', flat=True))] *)
Definition user_attempts_in_group (db : DB) (student_id course_group_id : Z) : gset Z :=
  list_to_set
    (List.map UserQuestAttempt.quest
       (List.filter
          (fun a =>
             Z.eqb (UserQuestAttempt.student a) student_id
             && existsb (fun q => Z.eqb (Quest.id q) (UserQuestAttempt.quest a))
                        (quests_in_group db course_group_id)
             && UserQuestAttempt.submitted a)
          (user_quest_attempts db))).

(** [user_course_group_enrollment.save()] after [completed_on = timezone.now()] *)
Definition save_completed_on (enrollment_id : Z) (now : Z) (db : DB) : DB :=
  set_enrollments
    (List.map
       (fun row =>
          if Z.eqb (UserCourseGroupEnrollment.id row) enrollment_id
          then UserCourseGroupEnrollment.set_completed_on (Some now) row
          else row)
       (enrollments db))
    db.

(** The test of the loop body: the group has a non-private quest (otherwise
    [continue]) and the two sets of ids are equal. *)
Definition completed_all_quests (db : DB) (e : UserCourseGroupEnrollment.t) : bool :=
  let course_group := UserCourseGroupEnrollment.course_group e in
  exists_ (quests_in_group db course_group)
  && bool_decide (quests_in_group_ids db course_group
                  = user_attempts_in_group db (UserCourseGroupEnrollment.student e) course_group).

(** The [for user_course_group_enrollment in ...] loop; the writes accumulate
    in [db].  Only [UserCourseGroupEnrollment.DoesNotExist] is caught: a
    failing badge lookup or [get_or_create] leaves the job with the writes
    made so far. *)
Fixpoint completion_loop (now : Z) (todo : list UserCourseGroupEnrollment.t)
    (db : DB) (awarded_users : list UserCourseGroupEnrollment.t)
  : DB * completion_outcome :=
  match todo with
  | [] => (db, CompletionChecked awarded_users)
  | e :: rest =>
      if completed_all_quests db e then
        let db1 := save_completed_on (UserCourseGroupEnrollment.id e) now db in
        match get_badge db1 "Completionist" with
        | Got badge =>
            match get_or_create
                    (same_course_badge (Badge.id badge) (UserCourseGroupEnrollment.id e))
                    (UserCourseBadge.mk (Badge.id badge) (UserCourseGroupEnrollment.id e))
                    (user_course_badges db1) with
            | Some (table, _) =>
                completion_loop now rest (set_user_course_badges table db1)
                                (awarded_users ++ [e])
            | None => (db1, CompletionRaised)
            end
        | _ => (db1, CompletionRaised)
        end
      else completion_loop now rest db awarded_users
  end.

Definition check_course_completion_and_award_completionist_badge
    (db : DB) (now : Z) (course_id : Z) : DB * completion_outcome :=
  let user_course_group_enrollments := course_enrollments db course_id in
  if negb (exists_ user_course_group_enrollments) then (db, CompletionNoEnrollments)
  else completion_loop now user_course_group_enrollments db [].

(** ** Cognitive Profile Aggregator ([update_cognitive_profile]) *)

(** One entry of [level_stats] / [topic_stats]: [{'total': _, 'correct': _}]. *)
Record stats := mk_stats {
  total : nat;
  correct : nat
}.

(** The bucket update of the loop body:
    [if key not in d: d[key] = {'total': 0, 'correct': 0}],
    [d[key]['total'] += 1], and [d[key]['correct'] += 1] when the answer
    attempt is correct. *)
Definition bump (key : option string) (is_correct : bool) (d : gmap (option string) stats)
  : gmap (option string) stats :=
  let entry := default (mk_stats 0 0) (d !! key) in
  <[key := mk_stats (S (total entry))
                    (if is_correct then S (correct entry) else correct entry)]> d.

(** [getattr(question, 'cognitive_level', 'Understand')]: the model declares
    the field, so the attribute is always there and the default is never
    taken; an unset level reads as [None]. *)
Definition level_of (question : Question.t) : option string :=
  Question.cognitive_level question.

(** [getattr(question, 'topic', 'General')]: likewise, an unset topic reads
    as [None]. *)
Definition topic_of (question : Question.t) : option string :=
  Question.topic question.

(** The student's submitted attempts and, attempt by attempt, their answer
    attempts, in the order the two nested loops meet them. *)
Definition observed_answer_attempts (db : DB) (student_id : Z) : list UserAnswerAttempt.t :=
  List.concat
    (List.map (fun attempt => answer_attempts db (UserQuestAttempt.id attempt))
       (List.filter
          (fun a => Z.eqb (UserQuestAttempt.student a) student_id
                    && UserQuestAttempt.submitted a)
          (user_quest_attempts db))).

Definition level_stats_of (uas : list UserAnswerAttempt.t) : gmap (option string) stats :=
  fold_left
    (fun d ua => bump (level_of (UserAnswerAttempt.question ua))
                      (UserAnswerAttempt.is_correct ua) d)
    uas ∅.

Definition topic_stats_of (uas : list UserAnswerAttempt.t) : gmap (option string) stats :=
  fold_left
    (fun d ua => bump (topic_of (UserAnswerAttempt.question ua))
                      (UserAnswerAttempt.is_correct ua) d)
    uas ∅.

(** [(d.get(level, {}).get('correct', 0) / max(d.get(level, {}).get('total', 1), 1)) * 100] *)
Definition level_accuracy (d : gmap (option string) stats) (level : string) : Q :=
  let correct_count := match d !! Some level with Some s => correct s | None => O end in
  let total_count := match d !! Some level with Some s => total s | None => 1%nat end in
  (of_nat correct_count / of_nat (Nat.max total_count 1)) * 100.

(** The body of [for topic, stats in topic_stats.items()]. *)
Definition weak_entry (s : stats) : option Q :=
  if Nat.ltb 0 (total s) then
    let accuracy := (of_nat (correct s) / of_nat (total s)) * 100 in
    if py_gt 60 accuracy then Some accuracy else None
  else None.

Definition weak_topics_of (topic_stats : gmap (option string) stats) : gmap (option string) Q :=
  omap weak_entry topic_stats.

Inductive profile_outcome : Type :=
| ProfileUpdated (competency_level : string)
| ProfileError.

(** [StudentCognitiveProfile.objects.get_or_create(student=student)] followed,
    at the end of the job, by [profile.save()]. *)
Definition save_profile (profile : StudentCognitiveProfile.t)
    (table : list StudentCognitiveProfile.t) : list StudentCognitiveProfile.t :=
  List.map
    (fun row =>
       if Z.eqb (StudentCognitiveProfile.student row) (StudentCognitiveProfile.student profile)
       then profile else row)
    table.

Definition update_cognitive_profile (db : DB) (student_id : Z) : DB * profile_outcome :=
  match objects_get (fun u => Z.eqb (EduquestUser.id u) student_id) (users db) with
  | Got student =>
      let same := fun p => Z.eqb (StudentCognitiveProfile.student p) (EduquestUser.id student) in
      match get_or_create same (StudentCognitiveProfile.default (EduquestUser.id student))
                          (cognitive_profiles db) with
      | Some (table, _) =>
          let observed := observed_answer_attempts db (EduquestUser.id student) in
          let level_stats := level_stats_of observed in
          let topic_stats := topic_stats_of observed in
          let remember := level_accuracy level_stats "Remember" in
          let understand := level_accuracy level_stats "Understand" in
          let apply := level_accuracy level_stats "Apply" in
          let analyse := level_accuracy level_stats "Analyze" in
          let evaluate := level_accuracy level_stats "Evaluate" in
          let create := level_accuracy level_stats "Create" in
          let weak_topics := weak_topics_of topic_stats in
          let avg_accuracy :=
            Qsum [remember; understand; apply; analyse; evaluate; create] / 6 in
          let '(competency_level, recommend_difficulty) :=
            if py_ge avg_accuracy 80 then ("Advanced"%string, 8)
            else if py_ge avg_accuracy 60 then ("Intermediate"%string, 5)
            else ("Beginner"%string, 3) in
          let profile :=
            StudentCognitiveProfile.mk (EduquestUser.id student)
              remember understand apply analyse evaluate create
              weak_topics competency_level recommend_difficulty in
          (set_cognitive_profiles (save_profile profile table) db,
           ProfileUpdated competency_level)
      | None => (db, ProfileError)
      end
  | _ => (db, ProfileError)
  end.

(** ** Feedback Payload Builder ([generate_personalised_feedback]) *)

(** One element of [attempt_data['answers']]. *)
Record answer_entry := mk_answer_entry {
  entry_question_id : Z;
  entry_question_text : string;
  entry_cognitive_level : option string;
  entry_topic : option string;
  entry_selected_answer : string;
  entry_is_selected : bool;
  entry_answer_is_correct : bool;
  entry_is_correct : bool;
  entry_correct_answer : string;
  entry_explanation : option string
}.

Record attempt_data := mk_attempt_data {
  data_student_id : Z;
  data_quest_id : Z;
  data_answers : list answer_entry
}.

(** What [requests.post(..., timeout=30)] gives back: an exception (timeout,
    connection error) or a response with a status code and a body;
    [response.json()] decodes the body or raises, [None] being the body that
    does not decode. *)
Inductive http_result : Type :=
| RequestException
| Response (status_code : Z) (decoded : option json).

Inductive feedback_outcome : Type :=
| FeedbackGenerated
| FeedbackStatusError (status_code : Z)
| FeedbackException.

(** [queryset.first()] on an unordered queryset: the row of least primary key. *)
Fixpoint first_answer (rows : list Answer.t) : option Answer.t :=
  match rows with
  | [] => None
  | a :: rest =>
      match first_answer rest with
      | Some b => if (Answer.id b <? Answer.id a)%Z then Some b else Some a
      | None => Some a
      end
  end.

Definition build_entry (db : DB) (answer_attempt : UserAnswerAttempt.t) : answer_entry :=
  let question := UserAnswerAttempt.question answer_attempt in
  let correct_answer :=
    first_answer (List.filter Answer.is_correct (question_answers db question)) in
  mk_answer_entry
    (Question.id question)
    (Question.text question)
    (level_of question)
    (topic_of question)
    (Answer.text (UserAnswerAttempt.answer answer_attempt))
    (UserAnswerAttempt.is_selected answer_attempt)
    (Answer.is_correct (UserAnswerAttempt.answer answer_attempt))
    (selected_and_correct answer_attempt)
    (match correct_answer with Some a => Answer.text a | None => ""%string end)
    (Answer.reason (UserAnswerAttempt.answer answer_attempt)).

(** [feedback_data.get(key, default)] on a decoded object. *)
Definition dict_get (members : list (string * json)) (key : string) (default : json) : json :=
  match List.find (fun kv => String.eqb (fst kv) key) members with
  | Some kv => snd kv
  | None => default
  end.

(** The [defaults=...] of the upsert, read off the decoded body. *)
Definition feedback_of (attempt_id : Z) (feedback_data : list (string * json))
  : StudentFeedback.t :=
  StudentFeedback.mk attempt_id
    (dict_get feedback_data "strengths" (JArray []))
    (dict_get feedback_data "weaknesses" (JArray []))
    (dict_get feedback_data "recommendations" (JString ""))
    (dict_get feedback_data "question_feedback" (JObject []))
    (dict_get feedback_data "quest_summary" (JObject []))
    (dict_get feedback_data "subtopic_feedback" (JArray []))
    (dict_get feedback_data "study_tips" (JArray [])).

(** [StudentFeedback.objects.update_or_create(user_quest_attempt=..., defaults=...)]:
    [None] is the [MultipleObjectsReturned] of the lookup. *)
Definition update_or_create (record : StudentFeedback.t) (table : list StudentFeedback.t)
  : option (list StudentFeedback.t) :=
  let same := fun r => Z.eqb (StudentFeedback.user_quest_attempt r)
                             (StudentFeedback.user_quest_attempt record) in
  match objects_get same table with
  | Got _ => Some (List.map (fun r => if same r then record else r) table)
  | DoesNotExist => Some (table ++ [record])
  | MultipleObjectsReturned => None
  end.

(** [attempt_data]: student id, quest id and one entry per answer attempt. *)
Definition build_attempt_data (db : DB) (user_quest_attempt : UserQuestAttempt.t)
    (student : EduquestUser.t) (quest : Quest.t) : attempt_data :=
  mk_attempt_data (EduquestUser.id student) (Quest.id quest)
    (List.map (build_entry db)
              (answer_attempts db (UserQuestAttempt.id user_quest_attempt))).

(** The job; [post] stands for the feedback service behind [requests.post].
    The whole body sits in [try: ... except Exception], which prints and
    returns. *)
Definition generate_personalised_feedback (post : attempt_data -> http_result)
    (db : DB) (user_quest_attempt_id : Z) : DB * feedback_outcome :=
  match objects_get (fun a => Z.eqb (UserQuestAttempt.id a) user_quest_attempt_id)
                    (user_quest_attempts db) with
  | Got user_quest_attempt =>
      match objects_get (fun u => Z.eqb (EduquestUser.id u)
                                        (UserQuestAttempt.student user_quest_attempt))
                        (users db),
            get_quest db (UserQuestAttempt.quest user_quest_attempt) with
      | Got student, Got quest =>
          match post (build_attempt_data db user_quest_attempt student quest) with
          | RequestException => (db, FeedbackException)
          | Response status_code decoded =>
              if Z.eqb status_code 200 then
                match decoded with
                | Some (JObject feedback_data) =>
                    match update_or_create
                            (feedback_of (UserQuestAttempt.id user_quest_attempt) feedback_data)
                            (student_feedbacks db) with
                    | Some table => (set_student_feedbacks table db, FeedbackGenerated)
                    | None => (db, FeedbackException)
                    end
                | _ => (db, FeedbackException)
                end
              else (db, FeedbackStatusError status_code)
          end
      | _, _ => (db, FeedbackException)
      end
  | _ => (db, FeedbackException)
  end.

(** ** Trigger Orchestrator ([Quest.save], [Course.save]) *)

(** [Quest.save] of an instance loaded from the store: the row is written,
    and on the Active -> Expired transition the two quest-expiry jobs are
    enqueued.  [None] is the exception of a failed [Quest.objects.get]. *)
Definition Quest_save (self : Quest.t) (db : DB) : option (DB * list Task) :=
  match get_quest db (Quest.id self) with
  | Got previous =>
      let previous_status := Quest.status previous in
      let db1 :=
        set_quests
          (List.map (fun row => if Z.eqb (Quest.id row) (Quest.id self) then self else row)
                    (quests db))
          db in
      if String.eqb previous_status "Active" && String.eqb (Quest.status self) "Expired"
      then Some (db1, [award_expert_badge_job (Quest.id self);
                       award_speedster_badge_job (Quest.id self)])
      else Some (db1, [])
  | _ => None
  end.

(** The cascade of [Course.save]: every quest of every group of the course is
    saved with status 'Expired'. *)
Fixpoint expire_quests (todo : list Quest.t) (db : DB) (enqueued : list Task)
  : option (DB * list Task) :=
  match todo with
  | [] => Some (db, enqueued)
  | quest :: rest =>
      match Quest_save (Quest.set_status "Expired" quest) db with
      | Some (db1, jobs) => expire_quests rest db1 (enqueued ++ jobs)
      | None => None
      end
  end.



(** *** Tutorial Attendance ([award_tutorial_attendance_badges_for_course]) *)







(** ** The Score Calculator in the words of the specification *)

(** "award [weightPerOption] if [isSelected && answer.isCorrect], else 0" *)
Definition award_value (weight : Q) (ua : UserAnswerAttempt.t) : Q :=
  if UserAnswerAttempt.is_selected ua && Answer.is_correct (UserAnswerAttempt.answer ua)
  then weight else 0.








(** ** Well-formed stores *)




(** ** Auxiliary notions for the statements *)

(** [o] is the row [ua] with (possibly) another score. *)
Definition same_but_score (ua o : UserAnswerAttempt.t) : Prop :=
  o = UserAnswerAttempt.set_score_achieved (UserAnswerAttempt.score_achieved o) ua.

(** Two tables with the same rows up to the scores. *)
Definition same_rows_but_scores (l l' : list UserAnswerAttempt.t) : Prop :=
  Forall2 same_but_score l l'.



(** The greatest of a list of numbers, 0 for the empty list. *)
Definition max_list (xs : list Q) : Q :=
  match xs with
  | [] => 0
  | x :: rest => fold_left Qmax rest x
  end.


(** [UserQuestAttempt.objects.get(id=...)] *)
Definition get_attempt (db : DB) (attempt_id : Z) : get_result UserQuestAttempt.t :=
  objects_get (fun a => Z.eqb (UserQuestAttempt.id a) attempt_id) (user_quest_attempts db).






(** ** Notions for the badge rules *)



(** The enrollments a run of the completion check reports as awarded. *)
Definition awarded_enrollments (outcome : completion_outcome)
  : list UserCourseGroupEnrollment.t :=
  match outcome with
  | CompletionChecked awarded => awarded
  | _ => []
  end.

(** The weak-topics map of a student's stored profile. *)
Definition stored_weak_topics (db : DB) (student_id : Z) : option (gmap (option string) Q) :=
  match objects_get (fun p => Z.eqb (StudentCognitiveProfile.student p) student_id)
                    (cognitive_profiles db) with
  | Got p => Some (StudentCognitiveProfile.weak_topics p)
  | _ => None
  end.

(** Observations and correct observations in the bucket of a topic. *)
Definition topic_observations (topic : option string) (uas : list UserAnswerAttempt.t) : nat :=
  length (List.filter
            (fun ua => bool_decide (topic_of (UserAnswerAttempt.question ua) = topic)) uas).

Definition topic_correct (topic : option string) (uas : list UserAnswerAttempt.t) : nat :=
  length (List.filter
            (fun ua => bool_decide (topic_of (UserAnswerAttempt.question ua) = topic)
                       && UserAnswerAttempt.is_correct ua) uas).






(** [a] is what [min(rows, key=time_taken)] returns: the first row of least
    [time_taken]. *)
Definition first_fastest (a : UserQuestAttempt.t) (rows : list UserQuestAttempt.t) : Prop :=
  exists before after,
    rows = before ++ a :: after
    /\ (forall b, In b before ->
          (UserQuestAttempt.time_taken a < UserQuestAttempt.time_taken b)%Z)
    /\ (forall b, In b after ->
          (UserQuestAttempt.time_taken a <= UserQuestAttempt.time_taken b)%Z).

(** ** Example stores *)

Module Examples.

(** One quest of one question worth 10 points, one correct option. *)
Definition quest_1 : Quest.t := Quest.mk 1 1 "Quiz 1" "EduQuest MCQ" "Expired".
Definition question_1 : Question.t := Question.mk 1 1 "2 + 2 = ?" 10 None None.
Definition option_right : Answer.t := Answer.mk 1 1 "4" true None.
Definition option_wrong : Answer.t := Answer.mk 2 1 "5" false None.

Definition base_db : DB :=
  mkDB [question_1] [option_right; option_wrong] [] [] [quest_1]
       [] [] [] [] [] [] [] [] [].

(** An attempt with a score and two timestamps [elapsed] milliseconds apart. *)
Definition timed_attempt (id student : Z) (score : Q) (elapsed_ms : Z) : UserQuestAttempt.t :=
  UserQuestAttempt.mk id student 1 true (Some 0%Z) (Some (elapsed_ms * 1000)%Z) score.


Definition with_attempts (rows : list UserQuestAttempt.t) (badge_names : list string) : DB :=
  mkDB [question_1] [option_right; option_wrong] [] rows [quest_1]
       [] [] [] []
       (List.map (fun p => Badge.mk (Z.of_nat (fst p)) (snd p))
                 (List.combine (List.seq 1 (length badge_names)) badge_names))
       [] [] [] [].




(** Nobody scored: two attempts with score 0. *)
Definition nobody_scored_db : DB :=
  with_attempts [timed_attempt 1 1 0 50; timed_attempt 2 2 0 30] ["Expert"%string].

(** Two attempts tie at the top. *)
Definition tie_at_top_db : DB :=
  with_attempts [timed_attempt 1 1 8 50; timed_attempt 2 2 8 30; timed_attempt 3 3 5 10]
                ["Expert"%string].

(** A second question worth 12 points with three correct options. *)
Definition question_2 : Question.t := Question.mk 2 1 "Which are primes?" 12 None None.
Definition prime_2 : Answer.t := Answer.mk 3 2 "2" true None.
Definition prime_3 : Answer.t := Answer.mk 4 2 "3" true None.
Definition prime_5 : Answer.t := Answer.mk 5 2 "5" true None.
Definition not_prime : Answer.t := Answer.mk 6 2 "9" false None.

Definition answer_attempt (id attempt : Z) (question : Question.t) (answer : Answer.t)
    (selected hint : bool) : UserAnswerAttempt.t :=
  UserAnswerAttempt.mk id attempt question answer selected
                       (selected && Answer.is_correct answer) hint 0.

Definition attempt_7 : UserQuestAttempt.t :=
  UserQuestAttempt.mk 7 1 1 true None None 0.

(** Attempt 7: the right option of question 1, and two of the three
    primes of question 2 after looking at the hint. *)
Definition scoring_db : DB :=
  mkDB [question_1; question_2]
       [option_right; option_wrong; prime_2; prime_3; prime_5; not_prime]
       [answer_attempt 1 7 question_1 option_right true false;
        answer_attempt 2 7 question_1 option_wrong false false;
        answer_attempt 3 7 question_2 prime_2 true true;
        answer_attempt 4 7 question_2 prime_3 true false;
        answer_attempt 5 7 question_2 prime_5 false false;
        answer_attempt 6 7 question_2 not_prime false false]
       [attempt_7] [quest_1]
       [EduquestUser.mk 1 "student" 0] [] [] [] [] [] [] [] [].


(** A course with one group, its enrollments, the quests of the group (id,
    type) and the (student, quest) pairs with a submitted attempt. *)
Definition course_db (enrolled : list Z) (group_quests : list (Z * string))
    (submitted : list (Z * Z)) (badge_names : list string) : DB :=
  mkDB [] [] []
       (List.map (fun p => UserQuestAttempt.mk (Z.of_nat (fst p)) (fst (snd p)) (snd (snd p))
                                               true None None 0)
                 (List.combine (List.seq 1 (length submitted)) submitted))
       (List.map (fun q => Quest.mk (fst q) 1 "Quest" (snd q) "Active") group_quests)
       (List.map (fun s => EduquestUser.mk s "student" 0) enrolled)
       [CourseGroup.mk 1 1 "Group"]
       [Course.mk 1 "Expired"]
       (List.map (fun s => UserCourseGroupEnrollment.mk s s 1 None) enrolled)
       (List.map (fun p => Badge.mk (Z.of_nat (fst p)) (snd p))
                 (List.combine (List.seq 1 (length badge_names)) badge_names))
       [] [] [] [].

(** Three non-private quests; student 1 submitted two of them, student 2
    all three. *)
Definition three_quests_db : DB :=
  course_db [1; 2]%Z
            [(1, "EduQuest MCQ"); (2, "Kahoot!"); (3, "WooClap")]%Z%string
            [(1, 1); (1, 2); (2, 1); (2, 2); (2, 3)]%Z
            ["Completionist"; "Full Attendance"; "Half Attendance"]%string.

(** A group whose only quest is private, and a student without attempts. *)
Definition private_only_db : DB :=
  course_db [1]%Z [(1, "Private")]%Z%string [] ["Completionist"%string].

(** Student 1 with one submitted attempt: five answer attempts on a question
    without topic, two of them correct, and five on a question tagged
    "Algebra", three of them correct. *)
Definition untagged_question : Question.t :=
  Question.mk 1 1 "Untagged" 10 (Some "Remember"%string) None.
Definition algebra_question : Question.t :=
  Question.mk 2 1 "Tagged" 10 (Some "Apply"%string) (Some "Algebra"%string).

Definition observed (id : Z) (question : Question.t) (is_correct : bool)
  : UserAnswerAttempt.t :=
  UserAnswerAttempt.mk id 1 question option_right true is_correct false 0.

Definition profile_db : DB :=
  mkDB [untagged_question; algebra_question] [option_right]
       [observed 1 untagged_question true; observed 2 untagged_question true;
        observed 3 untagged_question false; observed 4 untagged_question false;
        observed 5 untagged_question false;
        observed 6 algebra_question true; observed 7 algebra_question true;
        observed 8 algebra_question true; observed 9 algebra_question false;
        observed 10 algebra_question false]
       [UserQuestAttempt.mk 1 1 1 true None None 0]
       [quest_1] [EduquestUser.mk 1 "student" 0]
       [] [] [] [] [] [] [] [].

End Examples.

(** * Further jobs and model methods *)

(** ** Perfectionist ([award_perfectionist_badge]) *)

Inductive perfectionist_outcome : Type :=
| PerfectionistPrivateQuest
| PerfectionistNoMaxScore
| PerfectionistNotSubmitted
| PerfectionistAwarded (created : bool)
| PerfectionistNotFullMarks
| PerfectionistAttemptDoesNotExist
| PerfectionistBadgeDoesNotExist
| PerfectionistQuestDoesNotExist
| PerfectionistRaised.

(** The job.  [attempt.quest] is a fetch through the foreign key; the three
    [DoesNotExist] exceptions are caught, [MultipleObjectsReturned] is not. *)
Definition award_perfectionist_badge (db : DB) (user_quest_attempt_id : Z)
  : DB * perfectionist_outcome :=
  match get_attempt db user_quest_attempt_id with
  | DoesNotExist => (db, PerfectionistAttemptDoesNotExist)
  | MultipleObjectsReturned => (db, PerfectionistRaised)
  | Got attempt =>
      match get_quest db (UserQuestAttempt.quest attempt) with
      | DoesNotExist => (db, PerfectionistQuestDoesNotExist)
      | MultipleObjectsReturned => (db, PerfectionistRaised)
      | Got quest =>
          if String.eqb (Quest.type quest) "Private" then (db, PerfectionistPrivateQuest)
          else if py_eq (total_max_score db quest) 0 then (db, PerfectionistNoMaxScore)
          else if negb (UserQuestAttempt.submitted attempt) then (db, PerfectionistNotSubmitted)
          else
            let quest_max_score := total_max_score db quest in
            let total_score_achieved := UserQuestAttempt.total_score_achieved attempt in
            if py_eq total_score_achieved quest_max_score then
              match get_badge db "Perfectionist" with
              | Got badge =>
                  match get_or_create
                          (same_quest_badge (Badge.id badge) (UserQuestAttempt.id attempt))
                          (UserQuestBadge.mk (Badge.id badge) (UserQuestAttempt.id attempt))
                          (user_quest_badges db) with
                  | Some (table, created) =>
                      (set_user_quest_badges table db, PerfectionistAwarded created)
                  | None => (db, PerfectionistRaised)
                  end
              | DoesNotExist => (db, PerfectionistBadgeDoesNotExist)
              | MultipleObjectsReturned => (db, PerfectionistRaised)
              end
            else (db, PerfectionistNotFullMarks)
      end
  end.

(** ** First Attempt ([award_first_attempt_badge]) *)

Inductive first_attempt_outcome : Type :=
| FirstAttemptPrivateQuest
| FirstAttemptNotSubmitted
| FirstAttemptAwarded
| FirstAttemptAlreadyHasBadge
| FirstAttemptAttemptDoesNotExist
| FirstAttemptBadgeDoesNotExist
| FirstAttemptRaised.

(** [UserQuestBadge.objects.filter(user_quest_attempt__student=user,
      badge__name=name).exists()]: the award records joined with their
    attempt and their badge. *)
Definition student_has_badge (db : DB) (student_id : Z) (name : string) : bool :=
  exists_
    (List.filter
       (fun r =>
          existsb (fun a => Z.eqb (UserQuestAttempt.id a) (UserQuestBadge.user_quest_attempt r)
                            && Z.eqb (UserQuestAttempt.student a) student_id)
                  (user_quest_attempts db)
          && existsb (fun b => Z.eqb (Badge.id b) (UserQuestBadge.badge r)
                               && String.eqb (Badge.name b) name)
                     (badges db))
       (user_quest_badges db)).

(** The job.  Only [UserQuestAttempt.DoesNotExist] and [Badge.DoesNotExist]
    are caught; a failing fetch of [attempt.quest] or [attempt.student]
    leaves the job with an exception. *)
Definition award_first_attempt_badge (db : DB) (user_quest_attempt_id : Z)
  : DB * first_attempt_outcome :=
  match get_attempt db user_quest_attempt_id with
  | DoesNotExist => (db, FirstAttemptAttemptDoesNotExist)
  | MultipleObjectsReturned => (db, FirstAttemptRaised)
  | Got attempt =>
      match get_quest db (UserQuestAttempt.quest attempt) with
      | Got quest =>
          if String.eqb (Quest.type quest) "Private" then (db, FirstAttemptPrivateQuest)
          else if negb (UserQuestAttempt.submitted attempt) then (db, FirstAttemptNotSubmitted)
          else
            match objects_get (fun u => Z.eqb (EduquestUser.id u)
                                              (UserQuestAttempt.student attempt))
                              (users db) with
            | Got user =>
                let has_badge := student_has_badge db (EduquestUser.id user) "First Attempt" in
                if negb has_badge then
                  match get_badge db "First Attempt" with
                  | Got badge =>
                      match get_or_create
                              (same_quest_badge (Badge.id badge) (UserQuestAttempt.id attempt))
                              (UserQuestBadge.mk (Badge.id badge) (UserQuestAttempt.id attempt))
                              (user_quest_badges db) with
                      | Some (table, created) =>
                          (set_user_quest_badges table db,
                           if created then FirstAttemptAwarded else FirstAttemptAlreadyHasBadge)
                      | None => (db, FirstAttemptRaised)
                      end
                  | DoesNotExist => (db, FirstAttemptBadgeDoesNotExist)
                  | MultipleObjectsReturned => (db, FirstAttemptRaised)
                  end
                else (db, FirstAttemptAlreadyHasBadge)
            | _ => (db, FirstAttemptRaised)
            end
      | _ => (db, FirstAttemptRaised)
      end
  end.

(** ** Expiry check ([check_expired_quest]) *)

(** [Quest.objects.filter(expiration_date__lt=now, status='Active')].  The
    [expiration_date] column is not part of [Quest.t]; it is read through
    [expiration_date], from a quest's id to its date ([None] for NULL, which
    no [__lt] matches). *)
Definition expired_quests (expiration_date : Z -> option Z) (now : Z) (db : DB)
  : list Quest.t :=
  List.filter
    (fun q =>
       match expiration_date (Quest.id q) with
       | Some d => (d <? now)%Z
       | None => false
       end
       && String.eqb (Quest.status q) "Active")
    (quests db).

(** The job: every quest found is saved with status 'Expired' ([Quest.save]
    enqueues the quest-expiry jobs); [None] is an exception of a save. *)
Definition check_expired_quest (expiration_date : Z -> option Z) (now : Z) (db : DB)
  : option (DB * list Task) :=
  expire_quests (expired_quests expiration_date now db) db [].

(** ** Counting methods *)

(** [Course.total_students_enrolled] *)
Definition Course_total_students_enrolled (db : DB) (course : Course.t) : nat :=
  length (course_enrollments db (Course.id course)).

(** [CourseGroup.total_students_enrolled] *)
Definition CourseGroup_total_students_enrolled (db : DB) (group : CourseGroup.t) : nat :=
  length (List.filter
            (fun e => Z.eqb (UserCourseGroupEnrollment.course_group e) (CourseGroup.id group))
            (enrollments db)).

(** [self.groups.all()] of a course. *)
Definition course_groups_of (db : DB) (course : Course.t) : list CourseGroup.t :=
  List.filter (fun g => Z.eqb (CourseGroup.course g) (Course.id course)) (course_groups db).

(** [Quest.total_questions] *)
Definition total_questions (db : DB) (quest : Quest.t) : nat :=
  length (quest_questions db (Quest.id quest)).

(** ** Notions for the further statements *)


(** Observations and correct observations at a Bloom level. *)
Definition level_observations (level : option string) (uas : list UserAnswerAttempt.t) : nat :=
  length (List.filter
            (fun ua => bool_decide (level_of (UserAnswerAttempt.question ua) = level)) uas).

Definition level_correct (level : option string) (uas : list UserAnswerAttempt.t) : nat :=
  length (List.filter
            (fun ua => bool_decide (level_of (UserAnswerAttempt.question ua) = level)
                       && UserAnswerAttempt.is_correct ua) uas).



(** What a job may do to the store: add award records to quest attempts,
    nothing else. *)
Definition only_adds_quest_badges (db db' : DB) : Prop :=
  db' = set_user_quest_badges (user_quest_badges db') db
  /\ forall r, In r (user_quest_badges db) -> In r (user_quest_badges db').

(** The award table is the only thing the three jobs read from it through
    [get_or_create]: what they decide depends on the other tables. *)
Definition awards_through (job : DB -> Z -> DB) (db : DB) (id : Z) : Prop :=
  exists badge_id attempts,
    forall table,
      job (set_user_quest_badges table db) id
      = set_user_quest_badges (fst (award_each badge_id attempts table)) db.


(** ** Notions for the expiry cascade *)


(** A quest row with its status set to 'Expired' where [due] holds. *)
Definition expire_where (due : Quest.t -> bool) (row : Quest.t) : Quest.t :=
  if due row then Quest.set_status "Expired" row else row.

(** The two jobs of a quest's expiry. *)
Definition quest_expiry_job (quest_id : Z) (job : Task) : Prop :=
  job = award_expert_badge_job quest_id \/ job = award_speedster_badge_job quest_id.

(** [expiration_date < now and status == 'Active'] *)
Definition due_for_expiry (expiration_date : Z -> option Z) (now : Z) (q : Quest.t) : bool :=
  match expiration_date (Quest.id q) with
  | Some d => (d <? now)%Z
  | None => false
  end
  && String.eqb (Quest.status q) "Active".

(** ** Notions for the completion check *)

(** An enrollment row stamped with [completed_on = now] where its id is the
    id of one of [awarded]. *)
Definition stamp_completed (now : Z) (awarded : list UserCourseGroupEnrollment.t)
    (row : UserCourseGroupEnrollment.t) : UserCourseGroupEnrollment.t :=
  if existsb (fun e => Z.eqb (UserCourseGroupEnrollment.id e) (UserCourseGroupEnrollment.id row))
             awarded
  then UserCourseGroupEnrollment.set_completed_on (Some now) row
  else row.

(** ** Notions for the cognitive profile *)

(** The six keys the aggregator looks up in [level_stats]. *)
Definition cognitive_levels : list string :=
  ["Remember"; "Understand"; "Apply"; "Analyze"; "Evaluate"; "Create"]%string.

(** How many of the six levels have a correct observation. *)
Definition levels_with_correct_answer (uas : list UserAnswerAttempt.t) : nat :=
  length (List.filter (fun level => Nat.ltb 0 (level_correct (Some level) uas))
                      cognitive_levels).

(** ** Further example stores *)

Module Scenarios.

(** Student 1 with two submitted attempts at quest 1 (one question worth 10
    points): full marks, then 5 points; the two attempt-scoped badges of a
    submission are on record. *)
Definition full_marks_db : DB :=
  set_users [EduquestUser.mk 1 "student" 0]
    (Examples.with_attempts
       [Examples.timed_attempt 1 1 10 50; Examples.timed_attempt 2 1 5 30]
       ["Perfectionist"; "First Attempt"]%string).


(** One group with one quest, student 1 submitted it, student 2 did not; no
    badge is on record. *)
Definition no_badge_db : DB :=
  Examples.course_db [1; 2]%Z [(1, "EduQuest MCQ")]%Z%string [(1, 1)]%Z [].

(** Expiration dates for the quests of [Examples.three_quests_db]: quest 1
    on day 5, quest 2 on day 20, quest 3 without a date. *)
Definition expiration_dates (quest_id : Z) : option Z :=
  if Z.eqb quest_id 1 then Some 5%Z
  else if Z.eqb quest_id 2 then Some 20%Z
  else None.

(** Student 1 answered one question at each of five levels, all correctly,
    and none at the level "Create". *)
Definition level_question (id : Z) (level : string) : Question.t :=
  Question.mk id 1 "Question" 10 (Some level) None.

Definition five_levels_db : DB :=
  mkDB [] [Examples.option_right]
       [Examples.observed 1 (level_question 1 "Remember") true;
        Examples.observed 2 (level_question 2 "Understand") true;
        Examples.observed 3 (level_question 3 "Apply") true;
        Examples.observed 4 (level_question 4 "Analyze") true;
        Examples.observed 5 (level_question 5 "Evaluate") true]
       [UserQuestAttempt.mk 1 1 1 true None None 0]
       [Examples.quest_1] [EduquestUser.mk 1 "student" 0]
       [] [] [] [] [] [] [] [].


End Scenarios.
(** * Arithmetic helpers *)

Lemma py_min_spec a b : py_min a b == Qmin a b.
Proof.
  unfold py_min.
  destruct (Q.min_spec a b) as [[? ?]|[? ?]]; destruct (Qlt_le_dec b a); lra.
Qed.


Lemma py_gt_true a b : py_gt a b = true <-> b < a.
Proof. unfold py_gt. destruct (Qlt_le_dec b a); split; intros; try easy; lra. Qed.

Lemma py_gt_false a b : py_gt a b = false <-> a <= b.
Proof. unfold py_gt. destruct (Qlt_le_dec b a); split; intros; try easy; lra. Qed.

Lemma of_nat_pos n : (0 < n)%nat -> 0 < of_nat n.
Proof. intros. unfold of_nat. change 0 with (inject_Z 0). rewrite <- Zlt_Qlt. lia. Qed.


Lemma Qsum_app xs ys : Qsum (xs ++ ys) == Qsum xs + Qsum ys.
Proof. induction xs as [|x xs IH]; simpl; [|rewrite IH]; ring. Qed.


(** * The two inner loops *)

Lemma award_value_eq w ua : award_value w ua = if selected_and_correct ua then w else 0.
Proof. reflexivity. Qed.







Lemma same_but_score_refl ua : same_but_score ua ua.
Proof. destruct ua; reflexivity. Qed.

Lemma same_but_score_set s ua : same_but_score ua (UserAnswerAttempt.set_score_achieved s ua).
Proof. destruct ua; reflexivity. Qed.




(** * The per-question step and the loop over the questions *)

Lemma exists_filter {A} (p : A -> bool) l : exists_ (List.filter p l) = existsb p l.
Proof.
  induction l as [|x l IH]; simpl; [reflexivity|]. destruct (p x); simpl; auto.
Qed.









(** * The calculator reads no score: stores that differ in scores only *)

Lemma same_but_score_fields ua o :
  same_but_score ua o ->
  UserAnswerAttempt.id o = UserAnswerAttempt.id ua
  /\ UserAnswerAttempt.user_quest_attempt o = UserAnswerAttempt.user_quest_attempt ua
  /\ UserAnswerAttempt.question o = UserAnswerAttempt.question ua
  /\ UserAnswerAttempt.answer o = UserAnswerAttempt.answer ua
  /\ UserAnswerAttempt.is_selected o = UserAnswerAttempt.is_selected ua
  /\ UserAnswerAttempt.is_correct o = UserAnswerAttempt.is_correct ua
  /\ UserAnswerAttempt.hint_used o = UserAnswerAttempt.hint_used ua.
Proof. intros ->. destruct ua; simpl. repeat split. Qed.

Lemma same_but_score_sym ua o : same_but_score ua o -> same_but_score o ua.
Proof. unfold same_but_score. intros ->. destruct ua; reflexivity. Qed.


Lemma same_but_score_award w ua o : same_but_score ua o -> award w o = award w ua.
Proof.
  intros ->. unfold award, selected_and_correct. destruct ua; simpl.
  destruct (_ && _); reflexivity.
Qed.

Lemma same_but_score_add_award w acc ua o :
  same_but_score ua o -> add_award w acc o = add_award w acc ua.
Proof. intros ->. unfold add_award, selected_and_correct. destruct ua; reflexivity. Qed.



Lemma same_rows_filter (p : UserAnswerAttempt.t -> bool) l l' :
  (forall ua o, same_but_score ua o -> p o = p ua) ->
  same_rows_but_scores l l' ->
  same_rows_but_scores (List.filter p l) (List.filter p l').
Proof.
  intros Hp H. induction H as [|ua o l l' Hr H IH]; simpl; [constructor|].
  rewrite (Hp _ _ Hr). destruct (p ua); [constructor|]; assumption.
Qed.

Lemma same_rows_map_award w l l' :
  same_rows_but_scores l l' -> List.map (award w) l' = List.map (award w) l.
Proof.
  induction 1 as [|ua o l l' Hr H IH]; simpl; [reflexivity|].
  now rewrite IH, (same_but_score_award w _ _ Hr).
Qed.

Lemma same_rows_fold_add_award w l l' acc :
  same_rows_but_scores l l' ->
  fold_left (add_award w) l' acc = fold_left (add_award w) l acc.
Proof.
  intros H. revert acc. induction H as [|ua o l l' Hr H IH]; intros acc; simpl; [reflexivity|].
  now rewrite IH, (same_but_score_add_award w _ _ _ Hr).
Qed.

Lemma same_rows_question_answer_attempts db db' attempt_id q :
  same_rows_but_scores (user_answer_attempts db) (user_answer_attempts db') ->
  same_rows_but_scores (question_answer_attempts db attempt_id q)
                       (question_answer_attempts db' attempt_id q).
Proof.
  intros H. unfold question_answer_attempts, answer_attempts.
  apply same_rows_filter.
  { intros ua o Hr. apply same_but_score_fields in Hr. now destruct Hr as (_ & _ & -> & _). }
  apply same_rows_filter; [|assumption].
  intros ua o Hr. apply same_but_score_fields in Hr. now destruct Hr as (_ & -> & _).
Qed.

Lemma same_rows_hint l l' :
  same_rows_but_scores l l' ->
  exists_ (List.filter UserAnswerAttempt.hint_used l')
  = exists_ (List.filter UserAnswerAttempt.hint_used l).
Proof.
  intros H. rewrite !exists_filter.
  induction H as [|ua o l l' Hr H IH]; simpl; [reflexivity|].
  apply same_but_score_fields in Hr. destruct Hr as (_ & _ & _ & _ & _ & _ & ->).
  now rewrite IH.
Qed.

(** Two stores with the same questions and answers, and the same answer
    attempts up to their scores, are scored alike. *)
Lemma score_question_static db db' attempt_id q :
  answers db' = answers db ->
  same_rows_but_scores (user_answer_attempts db) (user_answer_attempts db') ->
  score_question db' attempt_id q = score_question db attempt_id q.
Proof.
  intros Ha Hr.
  pose proof (same_rows_question_answer_attempts db db' attempt_id q Hr) as Hq.
  unfold score_question, weight_per_option, question_answers. rewrite Ha.
  rewrite (same_rows_hint _ _ Hq).
  rewrite (same_rows_map_award _ _ _ Hq).
  rewrite (same_rows_fold_add_award _ _ _ _ Hq).
  reflexivity.
Qed.

Lemma fold_score_step_static db db' attempt_id qs acc :
  answers db' = answers db ->
  same_rows_but_scores (user_answer_attempts db) (user_answer_attempts db') ->
  fold_left (score_step db' attempt_id) qs acc = fold_left (score_step db attempt_id) qs acc.
Proof.
  intros Ha Hr. revert acc. induction qs as [|q qs IH]; intros acc; simpl; [reflexivity|].
  rewrite IH. unfold score_step. now rewrite (score_question_static db db' _ _ Ha Hr).
Qed.

Lemma bulk_update_same_rows objs table :
  same_rows_but_scores table (bulk_update_score_achieved objs table).
Proof.
  unfold bulk_update_score_achieved.
  induction table as [|row table IH]; simpl; constructor; auto.
  destruct (List.find _ objs); [apply same_but_score_set | apply same_but_score_refl].
Qed.

Lemma bulk_update_idem objs table :
  bulk_update_score_achieved objs (bulk_update_score_achieved objs table)
  = bulk_update_score_achieved objs table.
Proof.
  unfold bulk_update_score_achieved. rewrite List.map_map. apply List.map_ext.
  intros row.
  destruct (List.find (fun o => UserAnswerAttempt.id o =? UserAnswerAttempt.id row)%Z objs)
    as [o|] eqn:E.
  - destruct row; simpl in *. rewrite E. reflexivity.
  - rewrite E. reflexivity.
Qed.


(** C2.  The Score Calculator is idempotent: run again on the store the
    first run left behind (the scores it wrote included), it returns the
    same total and leaves the same store, so every answer attempt keeps the
    [score_achieved] it had after one run.  The rows are met in the same
    order in both runs. *)
Theorem score_calculator_idempotent db self :
  let first_run := calculate_total_score_achieved db self in
  let second_run := calculate_total_score_achieved (snd first_run) self in
  fst second_run = fst first_run /\ snd second_run = snd first_run.
Proof.
  cbv zeta. unfold calculate_total_score_achieved.
  destruct (fold_left (score_step db (UserQuestAttempt.id self))
              (quest_questions db (UserQuestAttempt.quest self)) (0, [])) as [t u] eqn:E.
  cbn [snd fst].
  set (db' := set_user_answer_attempts _ db).
  assert (Hfold : fold_left (score_step db' (UserQuestAttempt.id self))
                    (quest_questions db' (UserQuestAttempt.quest self)) (0, []) = (t, u)).
  { change (quest_questions db' (UserQuestAttempt.quest self))
      with (quest_questions db (UserQuestAttempt.quest self)).
    rewrite (fold_score_step_static db db'); [exact E | reflexivity |].
    apply bulk_update_same_rows. }
  rewrite Hfold. cbn [snd fst]. split; [reflexivity|].
  change (user_answer_attempts db')
    with (bulk_update_score_achieved u (user_answer_attempts db)).
  rewrite bulk_update_idem. reflexivity.
Qed.

(** * The bulk update, row by row *)

Lemma NoDup_map_inj {A B} (f : A -> B) (l : list A) x y :
  NoDup (List.map f l) -> In x l -> In y l -> f x = f y -> x = y.
Proof.
  induction l as [|a l IH]; simpl; [tauto|].
  intros Hnd Hx Hy Hf. apply NoDup_cons in Hnd as [Hna Hnd].
  destruct Hx as [->|Hx], Hy as [->|Hy]; auto.
  - exfalso. apply Hna. rewrite Hf. apply list_elem_of_In. now apply List.in_map.
  - exfalso. apply Hna. rewrite <- Hf. apply list_elem_of_In. now apply List.in_map.
Qed.




Lemma filter_map_commute {A} (p : A -> bool) (f : A -> A) l :
  (forall a, p (f a) = p a) -> List.filter p (List.map f l) = List.map f (List.filter p l).
Proof.
  intros Hp. induction l as [|a l IH]; simpl; [reflexivity|].
  rewrite Hp. destruct (p a); simpl; now rewrite IH.
Qed.





Lemma NoDup_map_filter {A B} (f : A -> B) (p : A -> bool) l :
  NoDup (List.map f l) -> NoDup (List.map f (List.filter p l)).
Proof.
  induction l as [|a l IH]; simpl; [auto|].
  intros Hnd. apply NoDup_cons in Hnd as [Hna Hnd].
  destruct (p a); simpl; [|auto].
  apply NoDup_cons. split; [|auto].
  intros Hin. apply Hna. apply list_elem_of_In in Hin. apply list_elem_of_In.
  apply List.in_map_iff in Hin as (x & Hx & Hin). apply List.filter_In in Hin as [Hin _].
  rewrite <- Hx. now apply List.in_map.
Qed.




(** * The Score Calculator against the specification *)










(** * Points Ledger Updater *)

Lemma objects_get_map {A} (p : A -> bool) (f : A -> A) l :
  (forall a, p (f a) = p a) ->
  objects_get p (List.map f l)
  = match objects_get p l with
    | Got a => Got (f a)
    | DoesNotExist => DoesNotExist
    | MultipleObjectsReturned => MultipleObjectsReturned
    end.
Proof.
  intros Hp. unfold objects_get. rewrite filter_map_commute by assumption.
  destruct (List.filter p l) as [|a [|b rest]]; reflexivity.
Qed.

Lemma objects_get_Got {A} (p : A -> bool) l a :
  objects_get p l = Got a -> List.filter p l = [a].
Proof.
  unfold objects_get. destruct (List.filter p l) as [|x [|y rest]]; congruence.
Qed.

Lemma objects_get_Got_In {A} (p : A -> bool) l a :
  objects_get p l = Got a -> In a l /\ p a = true.
Proof.
  intros H. apply objects_get_Got in H.
  apply List.filter_In. rewrite H. now left.
Qed.


Lemma aggregate_max_spec xs :
  match aggregate_max xs with
  | None => xs = []
  | Some m => (forall x, In x xs -> x <= m) /\ (exists x, In x xs /\ x == m)
  end.
Proof.
  induction xs as [|x xs IH]; simpl; [reflexivity|].
  destruct (aggregate_max xs) as [m|].
  - destruct IH as [Hub (y & Hy & Hym)]. unfold py_max.
    destruct (Qlt_le_dec x m); split.
    + intros z [<-|Hz]; [lra | auto].
    + exists y. auto.
    + intros z [<-|Hz]; [lra | specialize (Hub z Hz); lra].
    + exists x. split; [now left | reflexivity].
  - subst xs. split.
    + intros z [<-|[]]. lra.
    + exists x. split; [now left | reflexivity].
Qed.

Lemma or_zero_eq m : or_zero (Some m) == m.
Proof.
  unfold or_zero. destruct (Qeq_bool m 0) eqn:E; [|reflexivity].
  apply Qeq_bool_iff in E. lra.
Qed.

Lemma fold_left_Qmax_spec xs x0 :
  let m := fold_left Qmax xs x0 in
  x0 <= m /\ (forall x, In x xs -> x <= m) /\ (m == x0 \/ exists x, In x xs /\ x == m).
Proof.
  revert x0. induction xs as [|x xs IH]; intros x0; simpl.
  - split; [lra|]. split; [tauto|]. left; reflexivity.
  - destruct (IH (Qmax x0 x)) as (H0 & Hub & Hex).
    destruct (Q.max_spec x0 x) as [[? Em]|[? Em]].
    + split; [lra|]. split.
      * intros z [<-|Hz]; [lra | auto].
      * right. destruct Hex as [Hex|(y & Hy & Hym)].
        -- exists x. split; [now left | lra].
        -- exists y. split; [now right | assumption].
    + split; [lra|]. split.
      * intros z [<-|Hz]; [lra | auto].
      * destruct Hex as [Hex|(y & Hy & Hym)].
        -- left. lra.
        -- right. exists y. split; [now right | assumption].
Qed.

Lemma max_list_spec xs :
  xs <> [] ->
  (forall x, In x xs -> x <= max_list xs) /\ (exists x, In x xs /\ x == max_list xs).
Proof.
  destruct xs as [|x0 xs]; [congruence|]. intros _. simpl.
  destruct (fold_left_Qmax_spec xs x0) as (H0 & Hub & Hex). split.
  - intros z [<-|Hz]; auto.
  - destruct Hex as [Hex|(y & Hy & Hym)].
    + exists x0. split; [now left | lra].
    + exists y. split; [now right | assumption].
Qed.

(** [Max(...) or 0] is the specification's prior best. *)
Lemma or_zero_aggregate_max xs : or_zero (aggregate_max xs) == max_list xs.
Proof.
  pose proof (aggregate_max_spec xs) as H.
  destruct (aggregate_max xs) as [m|].
  - rewrite or_zero_eq. destruct H as [Hub (y & Hy & Hym)].
    assert (Hne : xs <> []) by (intros ->; destruct Hy).
    destruct (max_list_spec xs Hne) as [Hub' (z & Hz & Hzm)].
    specialize (Hub z Hz). specialize (Hub' y Hy). lra.
  - subst xs. reflexivity.
Qed.


Lemma filter_map_untouched {A} (p : A -> bool) (f : A -> A) l :
  (forall a, p (f a) = p a) -> (forall a, p a = true -> f a = a) ->
  List.filter p (List.map f l) = List.filter p l.
Proof.
  intros Hp Hf. induction l as [|a l IH]; simpl; [reflexivity|].
  rewrite Hp. destruct (p a) eqn:E; [rewrite (Hf a E)|]; now rewrite IH.
Qed.

(** Writing the score of the instance does not change its competitors. *)
Lemma other_submitted_after_save db instance total :
  other_submitted_attempts
    (save_total_score_achieved (UserQuestAttempt.id instance) total db) instance
  = other_submitted_attempts db instance.
Proof.
  unfold other_submitted_attempts, save_total_score_achieved.
  cbn [user_quest_attempts set_user_quest_attempts].
  apply filter_map_untouched.
  - intros a. cbv beta.
    destruct (Z.eqb (UserQuestAttempt.id a) (UserQuestAttempt.id instance)) eqn:E;
      [|now rewrite ?E].
    destruct a; simpl in *. rewrite E. now rewrite !andb_false_r.
  - intros a Ha. apply andb_prop in Ha as [_ Ha]. apply negb_true_iff in Ha.
    now rewrite Ha.
Qed.

Lemma other_submitted_after_scores db db' instance :
  user_quest_attempts db' = user_quest_attempts db ->
  other_submitted_attempts db' instance = other_submitted_attempts db instance.
Proof. intros H. unfold other_submitted_attempts. now rewrite H. Qed.

Lemma total_points_after_save db student_id student p :
  objects_get (fun u => Z.eqb (EduquestUser.id u) student_id) (users db) = Got student ->
  total_points_of (save_total_points (EduquestUser.id student) p db) student_id = Some p.
Proof.
  intros H. unfold total_points_of, save_total_points. cbn [users set_users].
  rewrite objects_get_map.
  - rewrite H. destruct (objects_get_Got_In _ _ _ H) as [_ Hid].
    rewrite Z.eqb_refl. reflexivity.
  - intros u. destruct (Z.eqb (EduquestUser.id u) (EduquestUser.id student)); destruct u; reflexivity.
Qed.

Lemma get_attempt_id db attempt_id a :
  get_attempt db attempt_id = Got a -> UserQuestAttempt.id a = attempt_id.
Proof. intros H. apply objects_get_Got_In in H as [_ H]. now apply Z.eqb_eq. Qed.

(** The job on an attempt whose quest and student can be fetched. *)
Lemma points_job_unfold db attempt_id instance quest student :
  get_attempt db attempt_id = Got instance ->
  get_quest db (UserQuestAttempt.quest instance) = Got quest ->
  objects_get (fun u => Z.eqb (EduquestUser.id u) (UserQuestAttempt.student instance))
              (users db) = Got student ->
  let new_score := fst (calculate_total_score_achieved db instance) in
  let db2 := save_total_score_achieved (UserQuestAttempt.id instance) new_score
               (snd (calculate_total_score_achieved db instance)) in
  let highest := highest_score_achieved db instance in
  fst (fst (calculate_score_and_issue_points db attempt_id))
  = if py_gt new_score highest && negb (String.eqb (Quest.type quest) "Private")
    then save_total_points (EduquestUser.id student)
                           (EduquestUser.total_points student + (new_score - highest)) db2
    else db2.
Proof.
  intros Ha Hq Hs new_score db2 highest.
  unfold calculate_score_and_issue_points.
  unfold get_attempt in Ha. rewrite Ha. unfold get_quest in Hq. rewrite Hq.
  subst new_score db2.
  destruct (calculate_total_score_achieved db instance) as [t db1] eqn:Ec.
  cbn [fst snd].
  assert (Hu : users (save_total_score_achieved (UserQuestAttempt.id instance) t db1) = users db).
  { unfold calculate_total_score_achieved in Ec.
    destruct (fold_left _ _ _) in Ec. injection Ec as _ <-. reflexivity. }
  rewrite Hu, Hs.
  assert (Hh : highest_score_achieved
                 (save_total_score_achieved (UserQuestAttempt.id instance) t db1) instance
               = highest).
  { unfold highest, highest_score_achieved.
    rewrite other_submitted_after_save.
    rewrite (other_submitted_after_scores db1 db); [reflexivity|].
    unfold calculate_total_score_achieved in Ec.
    destruct (fold_left _ _ _) in Ec. injection Ec as _ <-. reflexivity. }
  rewrite Hh.
  destruct (py_gt t highest && negb (String.eqb (Quest.type quest) "Private")); reflexivity.
Qed.


(** ** A sequence of submissions *)









Lemma calculate_snd_shape db self :
  exists objs,
    snd (calculate_total_score_achieved db self)
    = set_user_answer_attempts
        (bulk_update_score_achieved objs (user_answer_attempts db)) db.
Proof.
  unfold calculate_total_score_achieved. destruct (fold_left _ _ _) as [t u].
  exists u. reflexivity.
Qed.













(** * Speedster *)

Lemma py_eq_true a b : py_eq a b = true <-> a == b.
Proof. unfold py_eq. apply Qeq_bool_iff. Qed.














Lemma first_fastest_least a rows :
  first_fastest a rows ->
  In a rows
  /\ forall b, In b rows ->
       (UserQuestAttempt.time_taken a <= UserQuestAttempt.time_taken b)%Z.
Proof.
  intros (before & after & -> & Hb & Ha). split.
  - apply List.in_or_app. right. now left.
  - intros b Hin. apply List.in_app_or in Hin as [Hin|[<-|Hin]].
    + specialize (Hb b Hin). lia.
    + lia.
    + auto.
Qed.



Lemma get_or_create_spec {A} (same : A -> bool) (new_row : A) table :
  (forall r, same r = true <-> r = new_row) ->
  NoDup table ->
  exists table' created,
    get_or_create same new_row table = Some (table', created)
    /\ In new_row table'
    /\ NoDup table'
    /\ (forall r, In r table -> In r table')
    /\ (forall r, In r table' -> In r table \/ r = new_row).
Proof.
  intros Hsame Hnd. unfold get_or_create, objects_get.
  destruct (List.filter same table) as [|r [|r' rest]] eqn:E.
  - exists (table ++ [new_row]), true.
    split; [reflexivity|]. split; [apply List.in_or_app; right; now left|].
    split; [|split].
    + apply NoDup_app. split; [assumption|]. split; [|apply NoDup_singleton].
      intros x Hx Hx'. apply list_elem_of_In in Hx. apply list_elem_of_singleton in Hx'. subst x.
      assert (Hin : In new_row (List.filter same table)).
      { apply List.filter_In. split; [assumption | now apply Hsame]. }
      rewrite E in Hin. destruct Hin.
    + intros x Hx. apply List.in_or_app. now left.
    + intros x Hx. apply List.in_app_or in Hx as [Hx|[<-|[]]]; auto.
  - exists table, false. split; [reflexivity|].
    assert (Hin : In r (List.filter same table)) by (rewrite E; now left).
    apply List.filter_In in Hin as [Hin Hr]. apply Hsame in Hr. subst r.
    repeat split; auto.
  - exfalso.
    assert (Hndf : NoDup (List.filter same table)).
    { apply NoDup_ListNoDup. apply List.NoDup_filter. now apply NoDup_ListNoDup. }
    rewrite E in Hndf.
    assert (Hr : r = new_row).
    { apply Hsame. eapply proj2. apply List.filter_In. rewrite E. now left. }
    assert (Hr' : r' = new_row).
    { apply Hsame. eapply proj2. apply List.filter_In. rewrite E. right. now left. }
    subst r r'. apply NoDup_cons in Hndf as [Hn _]. apply Hn. left.
Qed.

Lemma get_or_create_quest_badge badge_id attempt_id table :
  NoDup table ->
  exists table' created,
    get_or_create (same_quest_badge badge_id attempt_id)
                  (UserQuestBadge.mk badge_id attempt_id) table = Some (table', created)
    /\ In (UserQuestBadge.mk badge_id attempt_id) table'
    /\ NoDup table'
    /\ (forall r, In r table -> In r table')
    /\ (forall r, In r table' -> In r table \/ r = UserQuestBadge.mk badge_id attempt_id).
Proof.
  apply get_or_create_spec.
  intros [b u]. unfold same_quest_badge. simpl.
  rewrite andb_true_iff, !Z.eqb_eq. split; [intros [-> ->]; reflexivity|].
  intros E. injection E as -> ->. auto.
Qed.

Lemma get_or_create_course_badge badge_id enrollment_id table :
  NoDup table ->
  exists table' created,
    get_or_create (same_course_badge badge_id enrollment_id)
                  (UserCourseBadge.mk badge_id enrollment_id) table = Some (table', created)
    /\ In (UserCourseBadge.mk badge_id enrollment_id) table'
    /\ NoDup table'
    /\ (forall r, In r table -> In r table')
    /\ (forall r, In r table' -> In r table \/ r = UserCourseBadge.mk badge_id enrollment_id).
Proof.
  apply get_or_create_spec.
  intros [b u]. unfold same_course_badge. simpl.
  rewrite andb_true_iff, !Z.eqb_eq. split; [intros [-> ->]; reflexivity|].
  intros E. injection E as -> ->. auto.
Qed.



(** * Expert *)

Lemma award_each_spec badge_id attempts :
  forall table,
    NoDup table ->
    exists table',
      award_each badge_id attempts table = (table', true)
      /\ NoDup table'
      /\ (forall a, In a attempts ->
            In (UserQuestBadge.mk badge_id (UserQuestAttempt.id a)) table')
      /\ (forall r, In r table -> In r table')
      /\ (forall r, In r table' ->
            In r table
            \/ exists a, In a attempts
                         /\ r = UserQuestBadge.mk badge_id (UserQuestAttempt.id a)).
Proof.
  induction attempts as [|a attempts IH]; intros table Hnd; simpl.
  - exists table. repeat split; auto. intros a [].
  - destruct (get_or_create_quest_badge badge_id (UserQuestAttempt.id a) table Hnd)
      as (t1 & created & -> & Hin & Hnd1 & Hkeep & Honly).
    destruct (IH t1 Hnd1) as (t2 & -> & Hnd2 & Hall & Hkeep2 & Honly2).
    exists t2. split; [reflexivity|]. split; [assumption|]. split; [|split].
    + intros b [<-|Hb]; auto.
    + auto.
    + intros r Hr. destruct (Honly2 r Hr) as [Hr1|(b & Hb & ->)].
      * destruct (Honly r Hr1) as [?| ->]; [now left|].
        right. exists a. split; [now left | reflexivity].
      * right. exists b. split; [now right | reflexivity].
Qed.

(** C6 (as amended).  For a quest that is not "Private", has a nonzero
    total max score and status "Expired", with the "Expert" badge on record:
    when the greatest score over the quest's attempts is above 0, every
    attempt whose score equals it holds an "Expert" record afterwards, ties
    included, and nobody else is given one; when the greatest score is 0 or
    less (or there is no attempt) nothing is written. *)
Theorem expert_all_top_scorers db quest_id quest badge :
  get_quest db quest_id = Got quest ->
  Quest.type quest <> "Private"%string ->
  ~ total_max_score db quest == 0 ->
  Quest.status quest = "Expired"%string ->
  get_badge db "Expert" = Got badge ->
  NoDup (user_quest_badges db) ->
  let attempts := quest_attempts db quest in
  let highest := max_list (List.map UserQuestAttempt.total_score_achieved attempts) in
  let db' := fst (award_expert_badge db quest_id) in
  (0 < highest ->
   (forall a, In a attempts -> UserQuestAttempt.total_score_achieved a == highest ->
      In (UserQuestBadge.mk (Badge.id badge) (UserQuestAttempt.id a)) (user_quest_badges db'))
   /\ (forall r, In r (user_quest_badges db') ->
         In r (user_quest_badges db)
         \/ exists a, In a attempts
                      /\ UserQuestAttempt.total_score_achieved a == highest
                      /\ r = UserQuestBadge.mk (Badge.id badge) (UserQuestAttempt.id a)))
  /\ (highest <= 0 -> db' = db).
Proof.
  intros Hq Hp Hm Hst Hb Hnd attempts highest db'.
  unfold db', award_expert_badge. rewrite Hq.
  apply String.eqb_neq in Hp. rewrite Hp.
  assert (Hz : py_eq (total_max_score db quest) 0 = false).
  { destruct (py_eq _ 0) eqn:E; [|reflexivity]. apply py_eq_true in E. contradiction. }
  rewrite Hz, Hst. rewrite String.eqb_refl. cbn [negb].
  fold attempts.
  pose proof (or_zero_aggregate_max (List.map UserQuestAttempt.total_score_achieved attempts))
    as Eh. fold highest in Eh.
  set (highest_score := or_zero _) in *.
  destruct attempts as [|a0 rest] eqn:Ea.
  { cbn [exists_ negb fst]. split; [|reflexivity].
    intros Hpos. unfold highest in Hpos. simpl in Hpos. lra. }
  cbn [exists_ negb].
  destruct (py_gt highest_score 0) eqn:Eg; cbn [negb].
  - apply py_gt_true in Eg. rewrite Hb.
    set (top_attempts := List.filter _ (a0 :: rest)).
    assert (Htop : forall a, In a top_attempts
                             <-> In a (a0 :: rest)
                                 /\ UserQuestAttempt.total_score_achieved a == highest).
    { intros a. unfold top_attempts. rewrite List.filter_In, py_eq_true.
      split; intros [? ?]; split; auto; lra. }
    destruct (award_each_spec (Badge.id badge) top_attempts (user_quest_badges db) Hnd)
      as (table' & Eaw & _ & Hall & _ & Honly).
    split; [|intros; lra]. intros _.
    destruct (Nat.eqb (length top_attempts) 0) eqn:El.
    + apply Nat.eqb_eq in El. destruct top_attempts as [|t ts] eqn:Et; [|discriminate].
      cbn [fst]. split.
      * intros a Ha Es. exfalso. apply (proj2 (Htop a)); auto.
      * intros r Hr. now left.
    + rewrite Eaw. cbn [fst user_quest_badges set_user_quest_badges]. split.
      * intros a Ha Es. apply Hall. apply Htop. auto.
      * intros r Hr. destruct (Honly r Hr) as [?|(a & Ha & ->)]; [now left|].
        right. exists a. apply Htop in Ha. tauto.
  - apply py_gt_false in Eg. cbn [fst]. split; [intros; lra | reflexivity].
Qed.

(** * Completionist *)

Lemma completed_all_quests_static db db1 e :
  quests db1 = quests db -> user_quest_attempts db1 = user_quest_attempts db ->
  completed_all_quests db1 e = completed_all_quests db e.
Proof.
  intros Hq Ha.
  unfold completed_all_quests, quests_in_group_ids, user_attempts_in_group, quests_in_group.
  now rewrite Hq, Ha.
Qed.

Lemma completion_loop_spec now badge db0 :
  get_badge db0 "Completionist" = Got badge ->
  forall todo db acc,
    quests db = quests db0 -> user_quest_attempts db = user_quest_attempts db0 ->
    badges db = badges db0 -> NoDup (user_course_badges db) ->
    exists db',
      completion_loop now todo db acc
      = (db', CompletionChecked (acc ++ List.filter (completed_all_quests db0) todo))
      /\ (forall e, In e (List.filter (completed_all_quests db0) todo) ->
            In (UserCourseBadge.mk (Badge.id badge) (UserCourseGroupEnrollment.id e))
               (user_course_badges db'))
      /\ (forall r, In r (user_course_badges db) -> In r (user_course_badges db')).
Proof.
  intros Hb. induction todo as [|e todo IH]; intros db acc Hq Ha Hbd Hnd; simpl.
  - exists db. rewrite List.app_nil_r. split; [reflexivity|]. split; [intros e []|auto].
  - rewrite (completed_all_quests_static db0 db e Hq Ha).
    destruct (completed_all_quests db0 e) eqn:Ec.
    + set (db1 := save_completed_on (UserCourseGroupEnrollment.id e) now db).
      assert (Hb1 : get_badge db1 "Completionist" = Got badge).
      { unfold get_badge in *. unfold db1, save_completed_on. cbn [badges set_enrollments].
        now rewrite Hbd. }
      rewrite Hb1.
      destruct (get_or_create_course_badge (Badge.id badge) (UserCourseGroupEnrollment.id e)
                  (user_course_badges db)) as (t1 & created & E1 & Hin & Hnd1 & Hkeep & _).
      { exact Hnd. }
      change (user_course_badges db1) with (user_course_badges db). rewrite E1.
      destruct (IH (set_user_course_badges t1 db1) (acc ++ [e])) as (db' & -> & Hall & Hkeep').
      * exact Hq.
      * exact Ha.
      * exact Hbd.
      * exact Hnd1.
      * exists db'. split; [now rewrite <- List.app_assoc|]. split.
        -- intros e' [<-|He']; [apply Hkeep'; exact Hin | auto].
        -- intros r Hr. apply Hkeep'. apply Hkeep. exact Hr.
    + apply IH; assumption.
Qed.

Lemma In_quests_in_group_ids db g q :
  q ∈ quests_in_group_ids db g
  <-> exists quest, In quest (quests db) /\ Quest.id quest = q
                    /\ Quest.course_group quest = g
                    /\ Quest.type quest <> "Private"%string.
Proof.
  unfold quests_in_group_ids, quests_in_group.
  rewrite elem_of_list_to_set, list_elem_of_In, List.in_map_iff. split.
  - intros (quest & <- & Hin). apply List.filter_In in Hin as [Hin Hf].
    apply andb_prop in Hf as [Hg Ht]. apply Z.eqb_eq in Hg.
    apply negb_true_iff, String.eqb_neq in Ht. eauto.
  - intros (quest & Hin & <- & Hg & Ht). exists quest. split; [reflexivity|].
    apply List.filter_In. split; [assumption|].
    apply andb_true_intro. split; [now apply Z.eqb_eq|].
    now apply negb_true_iff, String.eqb_neq.
Qed.

Lemma In_user_attempts_in_group db s g q :
  q ∈ user_attempts_in_group db s g
  <-> q ∈ quests_in_group_ids db g
      /\ exists a, In a (user_quest_attempts db)
                   /\ UserQuestAttempt.student a = s
                   /\ UserQuestAttempt.quest a = q
                   /\ UserQuestAttempt.submitted a = true.
Proof.
  unfold user_attempts_in_group, quests_in_group_ids.
  rewrite !elem_of_list_to_set, !list_elem_of_In, !List.in_map_iff. split.
  - intros (a & <- & Hin). apply List.filter_In in Hin as [Hin Hf].
    rewrite !andb_true_iff in Hf. destruct Hf as [[Hs Hex] Hsub].
    apply Z.eqb_eq in Hs. apply List.existsb_exists in Hex as (quest & Hquest & E).
    apply Z.eqb_eq in E. split; [eauto|]. exists a. auto.
  - intros [(quest & Hid & Hquest) (a & Hin & Hs & Hq & Hsub)].
    exists a. split; [assumption|]. apply List.filter_In. split; [assumption|].
    rewrite !andb_true_iff. repeat split; [now apply Z.eqb_eq | | assumption].
    apply List.existsb_exists. exists quest. split; [assumption|].
    apply Z.eqb_eq. congruence.
Qed.

Lemma completed_all_quests_spec db e :
  completed_all_quests db e = true
  <-> quests_in_group_ids db (UserCourseGroupEnrollment.course_group e) <> ∅
      /\ quests_in_group_ids db (UserCourseGroupEnrollment.course_group e)
         = user_attempts_in_group db (UserCourseGroupEnrollment.student e)
                                  (UserCourseGroupEnrollment.course_group e).
Proof.
  unfold completed_all_quests. rewrite andb_true_iff, bool_decide_eq_true.
  assert (Hne : exists_ (quests_in_group db (UserCourseGroupEnrollment.course_group e)) = true
                <-> quests_in_group_ids db (UserCourseGroupEnrollment.course_group e) <> ∅).
  { unfold quests_in_group_ids.
    destruct (quests_in_group db (UserCourseGroupEnrollment.course_group e)) as [|q l]; simpl.
    - split; [discriminate | intros H; now contradiction H].
    - split; [|reflexivity]. intros _ H.
      assert (Quest.id q ∈ (∅ : gset Z)) by (rewrite <- H; set_solver).
      set_solver. }
  rewrite Hne. reflexivity.
Qed.

(** C5 (as amended).  With the "Completionist" badge on record, the
    completion check awards an enrollment of the course if and only if its
    course group has at least one non-private quest and the set of the
    group's non-private quest ids equals the set of those quests for which
    the student has a submitted attempt; the award leaves a record for the
    enrollment.  In particular, with three non-private quests, a student
    with submitted attempts for two of them is not awarded and one with
    submitted attempts for all three is. *)
Theorem completionist_exact db now course_id badge :
  get_badge db "Completionist" = Got badge ->
  NoDup (user_course_badges db) ->
  let db' := fst (check_course_completion_and_award_completionist_badge db now course_id) in
  let awarded :=
    awarded_enrollments
      (snd (check_course_completion_and_award_completionist_badge db now course_id)) in
  forall e, In e (course_enrollments db course_id) ->
    let group := UserCourseGroupEnrollment.course_group e in
    let student := UserCourseGroupEnrollment.student e in
    let required := quests_in_group_ids db group in
    let attempted := user_attempts_in_group db student group in
    (forall q, q ∈ required
               <-> exists quest, In quest (quests db) /\ Quest.id quest = q
                                 /\ Quest.course_group quest = group
                                 /\ Quest.type quest <> "Private"%string)
    /\ (forall q, q ∈ attempted
                  <-> q ∈ required
                      /\ exists a, In a (user_quest_attempts db)
                                   /\ UserQuestAttempt.student a = student
                                   /\ UserQuestAttempt.quest a = q
                                   /\ UserQuestAttempt.submitted a = true)
    /\ (In e awarded <-> required <> ∅ /\ required = attempted)
    /\ (In e awarded ->
        In (UserCourseBadge.mk (Badge.id badge) (UserCourseGroupEnrollment.id e))
           (user_course_badges db'))
    /\ (size required = 3%nat -> size attempted = 2%nat -> ~ In e awarded)
    /\ (size required = 3%nat -> size attempted = 3%nat -> In e awarded).
Proof.
  intros Hb Hnd db' awarded e He group student required attempted.
  split; [apply In_quests_in_group_ids|].
  split; [apply In_user_attempts_in_group|].
  assert (Hsub : attempted ⊆ required).
  { intros q Hq. apply In_user_attempts_in_group in Hq. tauto. }
  assert (Hex : exists_ (course_enrollments db course_id) = true).
  { destruct (course_enrollments db course_id); [destruct He | reflexivity]. }
  destruct (completion_loop_spec now badge db Hb (course_enrollments db course_id) db [])
    as (db1 & Eloop & Hall & _); auto.
  assert (Hawarded : awarded = List.filter (completed_all_quests db)
                                           (course_enrollments db course_id)).
  { unfold awarded, check_course_completion_and_award_completionist_badge.
    rewrite Hex. cbn [negb]. rewrite Eloop. reflexivity. }
  assert (Hdb' : db' = db1).
  { unfold db', check_course_completion_and_award_completionist_badge.
    rewrite Hex. cbn [negb]. rewrite Eloop. reflexivity. }
  assert (Hiff : In e awarded <-> required <> ∅ /\ required = attempted).
  { rewrite Hawarded, List.filter_In, completed_all_quests_spec. tauto. }
  split; [exact Hiff|]. split; [|split].
  - intros Hin. rewrite Hdb'. apply Hall. now rewrite <- Hawarded.
  - intros H3 H2 Hin. apply Hiff in Hin as [_ E]. rewrite E in H3. lia.
  - intros H3 H3'. apply Hiff. split.
    + intros E. rewrite E, size_empty in H3. discriminate.
    + symmetry. apply set_subseteq_size_eq; [exact Hsub | lia].
Qed.

(** * Cognitive Profile Aggregator *)

Lemma bump_lookup (key : option string) (is_correct : bool)
    (d : gmap (option string) stats) (k : option string) :
  bump key is_correct d !! k
  = if bool_decide (key = k)
    then Some (mk_stats (S (total (default (mk_stats 0 0) (d !! k))))
                        (if is_correct
                         then S (correct (default (mk_stats 0 0) (d !! k)))
                         else correct (default (mk_stats 0 0) (d !! k))))
    else d !! k.
Proof.
  unfold bump. case_bool_decide as E.
  - subst k. now rewrite lookup_insert_eq.
  - now rewrite lookup_insert_ne.
Qed.

Lemma topic_correct_le (k : option string) (uas : list UserAnswerAttempt.t) :
  (topic_correct k uas <= topic_observations k uas)%nat.
Proof.
  unfold topic_correct, topic_observations.
  induction uas as [|ua uas IH]; simpl; [lia|].
  case_bool_decide; simpl; [|exact IH].
  destruct (UserAnswerAttempt.is_correct ua); simpl; lia.
Qed.

(** The bucket of a topic after the loop over the answer attempts. *)
Lemma topic_stats_fold (uas : list UserAnswerAttempt.t) :
  forall (d : gmap (option string) stats) (k : option string),
    fold_left
      (fun d ua => bump (topic_of (UserAnswerAttempt.question ua))
                        (UserAnswerAttempt.is_correct ua) d)
      uas d !! k
    = match topic_observations k uas with
      | O => d !! k
      | S _ =>
          Some (mk_stats (total (default (mk_stats 0 0) (d !! k)) + topic_observations k uas)
                         (correct (default (mk_stats 0 0) (d !! k)) + topic_correct k uas))
      end.
Proof.
  induction uas as [|ua uas IH]; intros d k; [reflexivity|].
  cbn [fold_left]. rewrite IH, bump_lookup.
  unfold topic_observations, topic_correct. cbn [List.filter].
  case_bool_decide as E; cbn [andb length].
  - pose proof (topic_correct_le k uas) as Hle.
    unfold topic_observations, topic_correct in Hle.
    destruct (UserAnswerAttempt.is_correct ua); simpl;
      destruct (length (List.filter
                          (fun ua0 => bool_decide (topic_of (UserAnswerAttempt.question ua0) = k))
                          uas)) eqn:En;
      f_equal; f_equal; lia.
  - reflexivity.
Qed.

Lemma topic_stats_lookup (uas : list UserAnswerAttempt.t) (k : option string) :
  topic_stats_of uas !! k
  = match topic_observations k uas with
    | O => None
    | S _ => Some (mk_stats (topic_observations k uas) (topic_correct k uas))
    end.
Proof.
  unfold topic_stats_of. rewrite topic_stats_fold, lookup_empty. reflexivity.
Qed.

(** What the aggregator retains as weak: the buckets, keyed by the topic
    field as stored, with an observation and an accuracy below 60. *)
Lemma weak_topics_lookup (uas : list UserAnswerAttempt.t) (k : option string) (acc : Q) :
  weak_topics_of (topic_stats_of uas) !! k = Some acc
  <-> (0 < topic_observations k uas)%nat
      /\ acc = (of_nat (topic_correct k uas) / of_nat (topic_observations k uas)) * 100
      /\ acc < 60.
Proof.
  unfold weak_topics_of. rewrite lookup_omap, topic_stats_lookup.
  destruct (topic_observations k uas) as [|n] eqn:En; cbn.
  - split; [discriminate | intros [H _]; lia].
  - unfold weak_entry. cbn [total correct Nat.ltb Nat.leb].
    destruct (py_gt 60 _) eqn:Eg.
    + apply py_gt_true in Eg. split.
      * intros [= <-]. split; [lia|]. split; [reflexivity | exact Eg].
      * intros (_ & -> & _). reflexivity.
    + apply py_gt_false in Eg. split; [discriminate|].
      intros (_ & -> & Hlt). lra.
Qed.

(** The map the aggregator computes replaces the stored one. *)
Lemma weak_topics_stored db student_id student :
  objects_get (fun u => Z.eqb (EduquestUser.id u) student_id) (users db) = Got student ->
  NoDup (List.map StudentCognitiveProfile.student (cognitive_profiles db)) ->
  stored_weak_topics (fst (update_cognitive_profile db student_id)) student_id
  = Some (weak_topics_of (topic_stats_of (observed_answer_attempts db student_id))).
Proof.
  intros Hu Hnd. unfold update_cognitive_profile. rewrite Hu.
  destruct (objects_get_Got_In _ _ _ Hu) as [_ Hid]. apply Z.eqb_eq in Hid. rewrite Hid.
  set (same := fun p => Z.eqb (StudentCognitiveProfile.student p) student_id).
  assert (Hget : exists table created,
             get_or_create same (StudentCognitiveProfile.default student_id)
                           (cognitive_profiles db) = Some (table, created)
             /\ exists p, objects_get same table = Got p).
  { unfold get_or_create, objects_get.
    destruct (List.filter same (cognitive_profiles db)) as [|p [|p' rest]] eqn:E.
    - eexists _, _. split; [reflexivity|]. exists (StudentCognitiveProfile.default student_id).
      rewrite List.filter_app, E. cbn. unfold same. cbn. now rewrite Z.eqb_refl.
    - eexists _, _. split; [reflexivity|]. exists p. now rewrite E.
    - exfalso.
      assert (Hp : In p (List.filter same (cognitive_profiles db))) by (rewrite E; now left).
      assert (Hp' : In p' (List.filter same (cognitive_profiles db)))
        by (rewrite E; right; now left).
      apply List.filter_In in Hp as [Hp Hs], Hp' as [Hp' Hs'].
      apply Z.eqb_eq in Hs, Hs'.
      assert (p = p').
      { apply (NoDup_map_inj StudentCognitiveProfile.student (cognitive_profiles db));
          auto; congruence. }
      subst p'.
      assert (Hndf : NoDup (List.map StudentCognitiveProfile.student
                                     (List.filter same (cognitive_profiles db))))
        by now apply NoDup_map_filter.
      rewrite E in Hndf. cbn in Hndf. apply NoDup_cons in Hndf as [Hn _]. apply Hn. left. }
  destruct Hget as (table & created & -> & p & Hp).
  destruct (if py_ge _ 80 then _ else _) as [competency_level recommend_difficulty].
  cbn [fst]. unfold stored_weak_topics, save_profile.
  cbn [cognitive_profiles set_cognitive_profiles StudentCognitiveProfile.student].
  fold same. rewrite objects_get_map.
  - rewrite Hp. destruct (objects_get_Got_In _ _ _ Hp) as [_ Hs].
    unfold same in Hs |- *. cbv beta in Hs. rewrite Hs. reflexivity.
  - intros r. unfold same.
    destruct (Z.eqb (StudentCognitiveProfile.student r) student_id) eqn:E; [|exact E].
    cbn. apply Z.eqb_refl.
Qed.

(** C8, at the failing input.  Student 1 has five observations on a question
    without topic, two of them correct, and five on a question tagged
    "Algebra", three of them correct.  After the aggregator ran, the stored
    weak-topics map holds the 40% bucket under the absent topic ([None]),
    holds nothing under "General", and does not hold the 60% bucket. *)
Theorem untagged_topic_is_not_general :
  exists weak_topics,
    stored_weak_topics (fst (update_cognitive_profile Examples.profile_db 1)) 1
    = Some weak_topics
    /\ (exists accuracy, weak_topics !! None = Some accuracy /\ accuracy == 40)
    /\ weak_topics !! Some "General"%string = None
    /\ weak_topics !! Some "Algebra"%string = None
    /\ topic_of Examples.untagged_question = None.
Proof.
  eexists. split; [vm_compute; reflexivity|].
  split; [exists (200 # 5); split; [vm_compute; reflexivity | reflexivity]|].
  repeat split; vm_compute; reflexivity.
Qed.

(** * Feedback Payload Builder *)



(** * Tutorial Attendance and the course-expiry trigger *)

Lemma py_ge_true a b : py_ge a b = true <-> b <= a.
Proof. unfold py_ge. destruct (Qlt_le_dec a b); split; intros; try easy; lra. Qed.








(** * The theorems at work on the example stores *)









Lemma quest_1_has_max_score db :
  questions db = [Examples.question_1] -> ~ total_max_score db Examples.quest_1 == 0.
Proof.
  intros H. unfold total_max_score, quest_questions. rewrite H. vm_compute. discriminate.
Defined.


Lemma expert_all_top_scorers_witness :
  get_quest Examples.tie_at_top_db 1 = Got Examples.quest_1
  /\ get_badge Examples.tie_at_top_db "Expert" = Got (Badge.mk 1 "Expert")
  /\ In (UserQuestBadge.mk 1 1)
        (user_quest_badges (fst (award_expert_badge Examples.tie_at_top_db 1)))
  /\ In (UserQuestBadge.mk 1 2)
        (user_quest_badges (fst (award_expert_badge Examples.tie_at_top_db 1))).
Proof.
  split; [reflexivity|]. split; [reflexivity|].
  destruct (expert_all_top_scorers Examples.tie_at_top_db 1 Examples.quest_1
              (Badge.mk 1 "Expert")) as [H _].
  - reflexivity.
  - discriminate.
  - apply quest_1_has_max_score. reflexivity.
  - reflexivity.
  - reflexivity.
  - apply NoDup_nil_2.
  - destruct H as [Hall _]; [vm_compute; reflexivity|].
    split.
    + apply (Hall (Examples.timed_attempt 1 1 8 50)); [simpl; tauto | vm_compute; reflexivity].
    + apply (Hall (Examples.timed_attempt 2 2 8 30)); [simpl; tauto | vm_compute; reflexivity].
Defined.

(** * Where the code departs from a statement of the specification *)


(** C6, counterexample.  A quest that is not "Private", has a max score and
    is "Expired", where the two attempts scored 0: both scores equal the
    greatest observed score, and no "Expert" record is written. *)
Lemma expert_counterexample :
  get_quest Examples.nobody_scored_db 1 = Got Examples.quest_1
  /\ Quest.type Examples.quest_1 <> "Private"%string
  /\ Quest.status Examples.quest_1 = "Expired"%string
  /\ ~ total_max_score Examples.nobody_scored_db Examples.quest_1 == 0
  /\ In (Examples.timed_attempt 1 1 0 50)
        (quest_attempts Examples.nobody_scored_db Examples.quest_1)
  /\ UserQuestAttempt.total_score_achieved (Examples.timed_attempt 1 1 0 50)
     == max_list (List.map UserQuestAttempt.total_score_achieved
                           (quest_attempts Examples.nobody_scored_db Examples.quest_1))
  /\ award_expert_badge Examples.nobody_scored_db 1
     = (Examples.nobody_scored_db, ExpertNobodyAboveZero).
Proof.
  split; [reflexivity|]. split; [discriminate|]. split; [reflexivity|].
  split; [apply quest_1_has_max_score; reflexivity|].
  split; [simpl; tauto|]. split; vm_compute; reflexivity.
Qed.

(** C5, counterexample.  A student enrolled in a group whose only quest is
    private, without any attempt: the set of non-private quest ids of the
    group and the set of quest ids the student has a submitted attempt for
    are both empty, hence equal, and the enrollment is not awarded. *)
Lemma completionist_counterexample :
  In (UserCourseGroupEnrollment.mk 1 1 1 None)
     (course_enrollments Examples.private_only_db 1)
  /\ get_badge Examples.private_only_db "Completionist" = Got (Badge.mk 1 "Completionist")
  /\ user_quest_attempts Examples.private_only_db = []
  /\ quests_in_group_ids Examples.private_only_db 1
     = user_attempts_in_group Examples.private_only_db 1 1
  /\ check_course_completion_and_award_completionist_badge Examples.private_only_db 0 1
     = (Examples.private_only_db, CompletionChecked []).
Proof.
  split; [simpl; tauto|]. split; [reflexivity|]. split; [reflexivity|].
  split; reflexivity.
Qed.

Lemma completionist_exact_witness :
  get_badge Examples.three_quests_db "Completionist" = Got (Badge.mk 1 "Completionist")
  /\ NoDup (user_course_badges Examples.three_quests_db)
  /\ ~ In (UserCourseGroupEnrollment.mk 1 1 1 None)
          (awarded_enrollments
             (snd (check_course_completion_and_award_completionist_badge
                     Examples.three_quests_db 0 1)))
  /\ In (UserCourseBadge.mk 1 2)
        (user_course_badges
           (fst (check_course_completion_and_award_completionist_badge
                   Examples.three_quests_db 0 1))).
Proof.
  assert (Hb : get_badge Examples.three_quests_db "Completionist"
               = Got (Badge.mk 1 "Completionist")) by reflexivity.
  assert (Hnd : NoDup (user_course_badges Examples.three_quests_db)) by apply NoDup_nil_2.
  split; [exact Hb|]. split; [exact Hnd|]. split.
  - destruct (completionist_exact Examples.three_quests_db 0 1 (Badge.mk 1 "Completionist")
                Hb Hnd (UserCourseGroupEnrollment.mk 1 1 1 None))
      as (_ & _ & _ & _ & Hno & _); [simpl; tauto|].
    apply Hno; vm_compute; reflexivity.
  - destruct (completionist_exact Examples.three_quests_db 0 1 (Badge.mk 1 "Completionist")
                Hb Hnd (UserCourseGroupEnrollment.mk 2 2 1 None))
      as (_ & _ & _ & Hrec & _ & Hyes); [simpl; tauto|].
    apply Hrec. apply Hyes; vm_compute; reflexivity.
Defined.




(** * Further properties of the code *)

(** ** Elapsed time *)


(** ** Bounds on the scores *)



Lemma of_nat_le n m : (n <= m)%nat -> of_nat n <= of_nat m.
Proof. intros H. unfold of_nat. rewrite <- Zle_Qle. lia. Qed.





(** ** The scoring job and the lifetime totals *)

Lemma total_points_of_other db sid p s :
  s <> sid -> total_points_of (save_total_points sid p db) s = total_points_of db s.
Proof.
  intros Hne. unfold total_points_of, save_total_points. cbn [users set_users].
  unfold objects_get. rewrite filter_map_untouched; [reflexivity| |].
  - intros u. destruct (Z.eqb (EduquestUser.id u) sid); destruct u; reflexivity.
  - intros u Hu. apply Z.eqb_eq in Hu.
    destruct (Z.eqb_spec (EduquestUser.id u) sid); [congruence | reflexivity].
Qed.

(** The store the job leaves, whatever its outcome. *)
Lemma points_job_cases db attempt_id :
  let db' := fst (fst (calculate_score_and_issue_points db attempt_id)) in
  db' = db
  \/ exists instance quest student,
       get_attempt db attempt_id = Got instance
       /\ get_quest db (UserQuestAttempt.quest instance) = Got quest
       /\ objects_get (fun u => Z.eqb (EduquestUser.id u) (UserQuestAttempt.student instance))
                      (users db) = Got student.
Proof.
  cbv zeta. unfold calculate_score_and_issue_points.
  change (objects_get (fun a => Z.eqb (UserQuestAttempt.id a) attempt_id)
                      (user_quest_attempts db)) with (get_attempt db attempt_id).
  destruct (get_attempt db attempt_id) as [instance| |] eqn:Ea; [|now left|now left].
  change (objects_get (fun q => Z.eqb (Quest.id q) (UserQuestAttempt.quest instance))
                      (quests db)) with (get_quest db (UserQuestAttempt.quest instance)).
  destruct (get_quest db (UserQuestAttempt.quest instance)) as [quest| |] eqn:Eq;
    [|now left|now left].
  destruct (calculate_total_score_achieved db instance) as [t db1] eqn:Ec.
  assert (Hu : users (save_total_score_achieved (UserQuestAttempt.id instance) t db1) = users db).
  { unfold calculate_total_score_achieved in Ec.
    destruct (fold_left _ _ _) in Ec. injection Ec as _ <-. reflexivity. }
  rewrite Hu.
  destruct (objects_get _ (users db)) as [student| |] eqn:Es; [|now left|now left].
  right. exists instance, quest, student. auto.
Qed.

Lemma users_after_scores db instance new_score :
  users (save_total_score_achieved (UserQuestAttempt.id instance) new_score
           (snd (calculate_total_score_achieved db instance))) = users db.
Proof.
  destruct (calculate_snd_shape db instance) as (objs & ->). reflexivity.
Qed.

(** X4.  The scoring job never lowers a lifetime total and touches no
    student but the one of the attempt; on an attempt that cannot be fetched
    it leaves the store as it is. *)
Theorem points_job_only_raises_own_total db attempt_id :
  let db' := fst (fst (calculate_score_and_issue_points db attempt_id)) in
  (forall s p, total_points_of db s = Some p ->
     exists p', total_points_of db' s = Some p' /\ p <= p')
  /\ (forall instance s,
        get_attempt db attempt_id = Got instance ->
        s <> UserQuestAttempt.student instance ->
        total_points_of db' s = total_points_of db s)
  /\ ((forall instance, get_attempt db attempt_id <> Got instance) -> db' = db).
Proof.
  cbv zeta. destruct (points_job_cases db attempt_id) as [E|(instance & quest & student & Ha & Hq & Hs)].
  - cbv zeta in E. rewrite E. split; [|split]; auto.
    intros s p Hp. exists p. split; [assumption | lra].
  - rewrite (points_job_unfold db attempt_id instance quest student Ha Hq Hs).
    set (new_score := fst (calculate_total_score_achieved db instance)).
    set (db2 := save_total_score_achieved _ _ _).
    assert (Hu2 : users db2 = users db) by apply users_after_scores.
    assert (Ht2 : forall s, total_points_of db2 s = total_points_of db s).
    { intros s. unfold total_points_of. now rewrite Hu2. }
    destruct (objects_get_Got_In _ _ _ Hs) as [_ Hid]. apply Z.eqb_eq in Hid.
    destruct (py_gt new_score (highest_score_achieved db instance)
              && negb (String.eqb (Quest.type quest) "Private")) eqn:Ec.
    + apply andb_prop in Ec as [Egt _]. apply py_gt_true in Egt.
      split; [|split].
      * intros s p Hp. destruct (Z.eq_dec s (UserQuestAttempt.student instance)) as [->|Hne].
        -- eexists. split.
           ++ apply total_points_after_save. rewrite Hu2. exact Hs.
           ++ unfold total_points_of in Hp. rewrite Hs in Hp. injection Hp as <-. lra.
        -- exists p. split; [|lra].
           rewrite total_points_of_other by congruence. now rewrite Ht2.
      * intros i s Hi Hne. unfold get_attempt in *. rewrite Ha in Hi. injection Hi as <-.
        rewrite total_points_of_other by congruence. apply Ht2.
      * intros Hno. exfalso. apply (Hno instance). exact Ha.
    + split; [|split].
      * intros s p Hp. exists p. split; [now rewrite Ht2 | lra].
      * intros i s _ _. apply Ht2.
      * intros Hno. exfalso. apply (Hno instance). exact Ha.
Qed.




(** ** The quest-scoped badge jobs *)

Lemma get_or_create_present {A} (same : A -> bool) (new_row : A) table :
  (forall r, same r = true <-> r = new_row) ->
  NoDup table -> In new_row table ->
  get_or_create same new_row table = Some (table, false).
Proof.
  intros Hsame Hnd Hin.
  destruct (get_or_create_spec same new_row table Hsame Hnd)
    as (table' & created & E & _ & Hnd' & _ & _).
  unfold get_or_create, objects_get in *.
  destruct (List.filter same table) as [|r [|r' rest]] eqn:Ef.
  - exfalso.
    assert (H : In new_row (List.filter same table))
      by (apply List.filter_In; split; [assumption | now apply Hsame]).
    rewrite Ef in H. destruct H.
  - reflexivity.
  - discriminate.
Qed.

Lemma get_or_create_absent {A} (same : A -> bool) (new_row : A) table :
  (forall r, same r = true <-> r = new_row) ->
  ~ In new_row table ->
  get_or_create same new_row table = Some (table ++ [new_row], true).
Proof.
  intros Hsame Hout. unfold get_or_create, objects_get.
  destruct (List.filter same table) as [|r l] eqn:Ef; [reflexivity|].
  exfalso. assert (H : In r (List.filter same table)) by (rewrite Ef; now left).
  apply List.filter_In in H as [Hin Hr]. apply Hsame in Hr. subst r. contradiction.
Qed.

Lemma same_quest_badge_eq badge_id attempt_id r :
  same_quest_badge badge_id attempt_id r = true <-> r = UserQuestBadge.mk badge_id attempt_id.
Proof.
  destruct r as [b u]. unfold same_quest_badge. simpl.
  rewrite andb_true_iff, !Z.eqb_eq. split; [intros [-> ->]; reflexivity|].
  intros E. injection E as -> ->. auto.
Qed.

Lemma get_or_create_grows {A} (same : A -> bool) (new_row : A) table table' created :
  get_or_create same new_row table = Some (table', created) ->
  forall r, In r table -> In r table'.
Proof.
  unfold get_or_create. destruct (objects_get same table); intros [= <- <-] r Hr;
    [assumption | apply List.in_or_app; now left].
Qed.

Lemma set_user_quest_badges_same db : set_user_quest_badges (user_quest_badges db) db = db.
Proof. destruct db; reflexivity. Qed.

(** The Perfectionist job on an attempt whose quest and badge can be
    fetched: its four tests in one, and the write behind them. *)
Lemma award_perfectionist_unfold db attempt_id attempt quest badge :
  get_attempt db attempt_id = Got attempt ->
  get_quest db (UserQuestAttempt.quest attempt) = Got quest ->
  get_badge db "Perfectionist" = Got badge ->
  fst (award_perfectionist_badge db attempt_id)
  = if negb (String.eqb (Quest.type quest) "Private")
       && negb (py_eq (total_max_score db quest) 0)
       && UserQuestAttempt.submitted attempt
       && py_eq (UserQuestAttempt.total_score_achieved attempt) (total_max_score db quest)
    then match get_or_create (same_quest_badge (Badge.id badge) attempt_id)
                             (UserQuestBadge.mk (Badge.id badge) attempt_id)
                             (user_quest_badges db) with
         | Some (table, _) => set_user_quest_badges table db
         | None => db
         end
    else db.
Proof.
  intros Ha Hq Hb. pose proof (get_attempt_id _ _ _ Ha) as Hid.
  unfold award_perfectionist_badge. rewrite Ha, Hq.
  destruct (String.eqb (Quest.type quest) "Private"); [reflexivity|].
  destruct (py_eq (total_max_score db quest) 0); [reflexivity|].
  destruct (UserQuestAttempt.submitted attempt); [|reflexivity].
  cbn [negb andb].
  destruct (py_eq (UserQuestAttempt.total_score_achieved attempt) (total_max_score db quest));
    [|reflexivity].
  rewrite Hb, Hid. destruct (get_or_create _ _ _) as [[table created]|]; reflexivity.
Qed.

Lemma perfectionist_tests (quest : Quest.t) (attempt : UserQuestAttempt.t) (max_score : Q) :
  negb (String.eqb (Quest.type quest) "Private")
  && negb (py_eq max_score 0)
  && UserQuestAttempt.submitted attempt
  && py_eq (UserQuestAttempt.total_score_achieved attempt) max_score = true
  <-> Quest.type quest <> "Private"%string
      /\ ~ max_score == 0
      /\ UserQuestAttempt.submitted attempt = true
      /\ UserQuestAttempt.total_score_achieved attempt == max_score.
Proof.
  rewrite !andb_true_iff, !negb_true_iff, String.eqb_neq, py_eq_true.
  assert (Hz : py_eq max_score 0 = false <-> ~ max_score == 0).
  { rewrite <- py_eq_true. destruct (py_eq max_score 0); split; congruence. }
  rewrite Hz. tauto.
Qed.

(** X6.  With the attempt, its quest and the "Perfectionist" badge on record
    and no duplicate award: after the job the attempt holds the
    "Perfectionist" record if and only if it held it before or the quest is
    not "Private", has a nonzero total max score, the attempt is submitted
    and its stored score equals the total max score; no other record and no
    other table changes. *)
Theorem perfectionist_on_full_marks db attempt_id attempt quest badge :
  get_attempt db attempt_id = Got attempt ->
  get_quest db (UserQuestAttempt.quest attempt) = Got quest ->
  get_badge db "Perfectionist" = Got badge ->
  NoDup (user_quest_badges db) ->
  let db' := fst (award_perfectionist_badge db attempt_id) in
  let record := UserQuestBadge.mk (Badge.id badge) attempt_id in
  (In record (user_quest_badges db')
   <-> In record (user_quest_badges db)
       \/ (Quest.type quest <> "Private"%string
           /\ ~ total_max_score db quest == 0
           /\ UserQuestAttempt.submitted attempt = true
           /\ UserQuestAttempt.total_score_achieved attempt == total_max_score db quest))
  /\ (forall r, r <> record -> (In r (user_quest_badges db') <-> In r (user_quest_badges db)))
  /\ db' = set_user_quest_badges (user_quest_badges db') db.
Proof.
  intros Ha Hq Hb Hnd. cbv zeta.
  set (record := UserQuestBadge.mk (Badge.id badge) attempt_id).
  rewrite (award_perfectionist_unfold db attempt_id attempt quest badge Ha Hq Hb).
  pose proof (perfectionist_tests quest attempt (total_max_score db quest)) as Htests.
  destruct (_ && _) eqn:Etests.
  - fold record.
    destruct (get_or_create_spec (same_quest_badge (Badge.id badge) attempt_id) record
                (user_quest_badges db) (same_quest_badge_eq _ _) Hnd)
      as (table' & created & -> & Hin & _ & Hkeep & Honly).
    cbn [user_quest_badges set_user_quest_badges]. split; [|split].
    + split; [intros _; right; now apply Htests | intros _; exact Hin].
    + intros r Hr. split; [|apply Hkeep].
      intros H. destruct (Honly r H); [assumption | contradiction].
    + reflexivity.
  - rewrite set_user_quest_badges_same. split; [|split]; try tauto.
    split; [tauto|]. intros [H|H]; [exact H|]. apply Htests in H. discriminate.
Qed.


Lemma exists__In {A} (x : A) l : In x l -> exists_ l = true.
Proof. destruct l; [intros [] | reflexivity]. Qed.

Lemma exists__false {A} (l : list A) : exists_ l = false -> l = [].
Proof. destruct l; [reflexivity | discriminate]. Qed.

(** A record of an attempt of the student for a badge of that name makes the
    student a holder of the badge. *)
Lemma student_has_badge_of_record db attempt badge record :
  In record (user_quest_badges db) ->
  In attempt (user_quest_attempts db) ->
  In badge (badges db) ->
  UserQuestBadge.user_quest_attempt record = UserQuestAttempt.id attempt ->
  UserQuestBadge.badge record = Badge.id badge ->
  student_has_badge db (UserQuestAttempt.student attempt) (Badge.name badge) = true.
Proof.
  intros Hr Ha Hb Ea Eb. unfold student_has_badge.
  apply exists__In with (x := record). apply List.filter_In. split; [assumption|].
  apply andb_true_iff. split; apply List.existsb_exists.
  - exists attempt. split; [assumption|]. rewrite Ea, !Z.eqb_refl. reflexivity.
  - exists badge. split; [assumption|]. rewrite Eb, Z.eqb_refl, String.eqb_refl. reflexivity.
Qed.

(** X7.  On a submitted attempt of a quest that is not "Private", with the
    student and the "First Attempt" badge on record: after the job the
    student holds the badge; a student who held it before gets nothing; one
    who did not gets exactly one record, for this attempt; and the job run
    afterwards on any attempt of the same student changes nothing. *)
Theorem first_attempt_badge_once_per_student db attempt_id attempt quest user badge :
  get_attempt db attempt_id = Got attempt ->
  get_quest db (UserQuestAttempt.quest attempt) = Got quest ->
  Quest.type quest <> "Private"%string ->
  UserQuestAttempt.submitted attempt = true ->
  objects_get (fun u => Z.eqb (EduquestUser.id u) (UserQuestAttempt.student attempt))
              (users db) = Got user ->
  get_badge db "First Attempt" = Got badge ->
  let db' := fst (award_first_attempt_badge db attempt_id) in
  let student_id := UserQuestAttempt.student attempt in
  student_has_badge db' student_id "First Attempt" = true
  /\ (student_has_badge db student_id "First Attempt" = true -> db' = db)
  /\ (student_has_badge db student_id "First Attempt" = false ->
      db' = set_user_quest_badges
              (user_quest_badges db ++ [UserQuestBadge.mk (Badge.id badge) attempt_id]) db)
  /\ (forall other_id other,
        get_attempt db' other_id = Got other ->
        UserQuestAttempt.student other = student_id ->
        fst (award_first_attempt_badge db' other_id) = db').
Proof.
  intros Ha Hq Hpub Hsub Hu Hb. cbv zeta.
  pose proof (get_attempt_id _ _ _ Ha) as Hid.
  destruct (objects_get_Got_In _ _ _ Ha) as [Hain _].
  destruct (objects_get_Got_In _ _ _ Hb) as [Hbin Hbname]. apply String.eqb_eq in Hbname.
  destruct (objects_get_Got_In _ _ _ Hu) as [_ Huid]. apply Z.eqb_eq in Huid.
  set (record := UserQuestBadge.mk (Badge.id badge) attempt_id).
  assert (Hshape :
    fst (award_first_attempt_badge db attempt_id)
    = if student_has_badge db (UserQuestAttempt.student attempt) "First Attempt" then db
      else set_user_quest_badges (user_quest_badges db ++ [record]) db).
  { unfold award_first_attempt_badge. rewrite Ha, Hq.
    destruct (String.eqb_spec (Quest.type quest) "Private") as [E|_]; [contradiction|].
    rewrite Hsub. cbn [negb]. rewrite Hu. cbv zeta. rewrite Huid.
    destruct (student_has_badge db (UserQuestAttempt.student attempt) "First Attempt") eqn:Ehas;
      cbn [negb]; [reflexivity|].
    rewrite Hb, Hid. fold record.
    rewrite get_or_create_absent; [reflexivity | apply same_quest_badge_eq |].
    intros Hin. rewrite <- Hbname in Ehas.
    rewrite (student_has_badge_of_record db attempt badge record) in Ehas;
      [discriminate | assumption | assumption | assumption | | reflexivity].
    symmetry. exact Hid. }
  assert (Hhas : student_has_badge (fst (award_first_attempt_badge db attempt_id))
                   (UserQuestAttempt.student attempt) "First Attempt" = true).
  { rewrite Hshape.
    destruct (student_has_badge db (UserQuestAttempt.student attempt) "First Attempt") eqn:Ehas;
      [exact Ehas|].
    rewrite <- Hbname.
    apply (student_has_badge_of_record _ attempt badge record).
    - cbn. apply List.in_or_app. right. now left.
    - exact Hain.
    - exact Hbin.
    - symmetry. exact Hid.
    - reflexivity. }
  split; [exact Hhas|]. split; [|split].
  - intros E. rewrite Hshape, E. reflexivity.
  - intros E. rewrite Hshape, E. reflexivity.
  - intros other_id other Ho Hstudent.
    set (db' := fst (award_first_attempt_badge db attempt_id)) in *.
    unfold award_first_attempt_badge. rewrite Ho.
    destruct (get_quest db' (UserQuestAttempt.quest other)) as [quest'| |]; try reflexivity.
    destruct (String.eqb (Quest.type quest') "Private"); [reflexivity|].
    destruct (negb (UserQuestAttempt.submitted other)); [reflexivity|].
    destruct (objects_get _ (users db')) as [user'| |] eqn:Eu; try reflexivity.
    cbv zeta.
    destruct (objects_get_Got_In _ _ _ Eu) as [_ Eid]. apply Z.eqb_eq in Eid.
    rewrite Eid, Hstudent, Hhas. reflexivity.
Qed.

(** The [for attempt in top_attempts] loop never removes a record. *)
Lemma award_each_grows badge_id attempts :
  forall table r, In r table -> In r (fst (award_each badge_id attempts table)).
Proof.
  induction attempts as [|a rest IH]; intros table r Hr; cbn; [assumption|].
  destruct (get_or_create _ _ table) as [[table' created]|] eqn:E; [|assumption].
  apply IH. eapply get_or_create_grows; eassumption.
Qed.

Lemma only_adds_refl db : only_adds_quest_badges db db.
Proof. split; [symmetry; apply set_user_quest_badges_same | auto]. Qed.

Lemma only_adds_set db table :
  (forall r, In r (user_quest_badges db) -> In r table) ->
  only_adds_quest_badges db (set_user_quest_badges table db).
Proof. intros H. split; [reflexivity | exact H]. Qed.

Ltac badge_job_branches :=
  repeat (match goal with
          | |- only_adds_quest_badges ?db ?db => apply only_adds_refl
          | |- only_adds_quest_badges _ (set_user_quest_badges _ _) => apply only_adds_set
          | |- context [match get_or_create ?s ?n ?t with _ => _ end] =>
              destruct (get_or_create s n t) as [[? ?]|] eqn:?
          | |- context [award_each ?b ?l ?t] =>
              pose proof (award_each_grows b l t); destruct (award_each b l t) as [? ?]
          | |- context [match ?x with _ => _ end] => destruct x
          | |- context [if ?x then _ else _] => destruct x
          end; cbn [fst] in *).

(** X8.  Whatever their argument and whatever the store holds, the four jobs
    that award badges to quest attempts (First Attempt, Perfectionist,
    Speedster, Expert) never remove or alter an award record and leave every
    other table as it is. *)
Theorem quest_badge_jobs_only_add_awards db (id : Z) :
  only_adds_quest_badges db (fst (award_first_attempt_badge db id))
  /\ only_adds_quest_badges db (fst (award_perfectionist_badge db id))
  /\ only_adds_quest_badges db (fst (award_speedster_badge db id))
  /\ only_adds_quest_badges db (fst (award_expert_badge db id)).
Proof.
  split; [|split; [|split]].
  - unfold award_first_attempt_badge. badge_job_branches.
    eapply get_or_create_grows; eassumption.
  - unfold award_perfectionist_badge. badge_job_branches.
    eapply get_or_create_grows; eassumption.
  - unfold award_speedster_badge. badge_job_branches.
    eapply get_or_create_grows; eassumption.
  - unfold award_expert_badge. badge_job_branches. assumption.
Qed.

(** ** Running a badge job again *)

Lemma award_each_present badge_id attempts :
  forall table,
    NoDup table ->
    (forall a, In a attempts -> In (UserQuestBadge.mk badge_id (UserQuestAttempt.id a)) table) ->
    award_each badge_id attempts table = (table, true).
Proof.
  induction attempts as [|a rest IH]; intros table Hnd Hall; cbn; [reflexivity|].
  rewrite get_or_create_present;
    [| apply same_quest_badge_eq | assumption | apply Hall; now left].
  apply IH; [assumption|]. intros b Hb. apply Hall. now right.
Qed.

Lemma award_each_again badge_id attempts table :
  NoDup table ->
  NoDup (fst (award_each badge_id attempts table))
  /\ fst (award_each badge_id attempts (fst (award_each badge_id attempts table)))
     = fst (award_each badge_id attempts table).
Proof.
  intros Hnd.
  destruct (award_each_spec badge_id attempts table Hnd) as (table' & E & Hnd' & Hall & _).
  rewrite E. cbn [fst]. split; [assumption|].
  rewrite award_each_present; auto.
Qed.

Lemma awards_through_none (job : DB -> Z -> DB) db id :
  (forall table, job (set_user_quest_badges table db) id = set_user_quest_badges table db) ->
  awards_through job db id.
Proof. intros H. exists 0%Z, []. exact H. Qed.

Lemma awards_through_one (job : DB -> Z -> DB) db id badge_id attempt :
  (forall table,
     job (set_user_quest_badges table db) id
     = match get_or_create (same_quest_badge badge_id (UserQuestAttempt.id attempt))
                           (UserQuestBadge.mk badge_id (UserQuestAttempt.id attempt)) table with
       | Some (table', _) => set_user_quest_badges table' db
       | None => set_user_quest_badges table db
       end) ->
  awards_through job db id.
Proof.
  intros H. exists badge_id, [attempt]. intros table. rewrite H. cbn.
  destruct (get_or_create _ _ table) as [[table' created]|]; reflexivity.
Qed.

Lemma awards_through_again (job : DB -> Z -> DB) db id :
  awards_through job db id ->
  NoDup (user_quest_badges db) ->
  NoDup (user_quest_badges (job db id)) /\ job (job db id) id = job db id.
Proof.
  intros (badge_id & attempts & H) Hnd.
  destruct (award_each_again badge_id attempts (user_quest_badges db) Hnd) as [Hnd' Hagain].
  assert (E : job db id
              = set_user_quest_badges
                  (fst (award_each badge_id attempts (user_quest_badges db))) db).
  { rewrite <- H. rewrite set_user_quest_badges_same. reflexivity. }
  rewrite E. cbn [user_quest_badges set_user_quest_badges]. split; [assumption|].
  rewrite H, Hagain. reflexivity.
Qed.

Ltac other_tables table db :=
  cbn beta;
  try change (get_attempt (set_user_quest_badges table db)) with (get_attempt db);
  try change (get_quest (set_user_quest_badges table db)) with (get_quest db);
  try change (get_badge (set_user_quest_badges table db)) with (get_badge db);
  try change (total_max_score (set_user_quest_badges table db)) with (total_max_score db);
  try change (speedster_attempts (set_user_quest_badges table db))
        with (speedster_attempts db);
  try change (filtered_attempts (set_user_quest_badges table db))
        with (filtered_attempts db);
  try change (quest_attempts (set_user_quest_badges table db)) with (quest_attempts db);
  cbn [user_quest_badges set_user_quest_badges].

Ltac use_tests :=
  repeat match goal with
         | H : ?x = _ |- context [?x] => rewrite H; cbv zeta
         end.

Ltac no_award db :=
  apply awards_through_none;
  let table := fresh "table" in
  intros table; other_tables table db; use_tests; reflexivity.

Lemma perfectionist_awards_through db id :
  awards_through (fun db id => fst (award_perfectionist_badge db id)) db id.
Proof.
  unfold award_perfectionist_badge.
  destruct (get_attempt db id) as [attempt| |] eqn:Ea; [| no_award db ..].
  destruct (get_quest db (UserQuestAttempt.quest attempt)) as [quest| |] eqn:Eq;
    [| no_award db ..].
  destruct (String.eqb (Quest.type quest) "Private") eqn:Ep; [no_award db|].
  destruct (py_eq (total_max_score db quest) 0) eqn:Ez; [no_award db|].
  destruct (negb (UserQuestAttempt.submitted attempt)) eqn:Es; [no_award db|].
  destruct (py_eq (UserQuestAttempt.total_score_achieved attempt) (total_max_score db quest))
    eqn:Ef; [| no_award db].
  destruct (get_badge db "Perfectionist") as [badge| |] eqn:Eb; [| no_award db ..].
  apply awards_through_one with (badge_id := Badge.id badge) (attempt := attempt).
  intros table. other_tables table db. use_tests.
  destruct (get_or_create _ _ table) as [[table' created]|]; reflexivity.
Qed.

Lemma speedster_awards_through db id :
  awards_through (fun db id => fst (award_speedster_badge db id)) db id.
Proof.
  unfold award_speedster_badge.
  destruct (get_quest db id) as [quest| |] eqn:Eq; [| no_award db ..].
  destruct (String.eqb (Quest.type quest) "Private") eqn:Ep; [no_award db|].
  destruct (py_eq (total_max_score db quest) 0) eqn:Ez; [no_award db|].
  destruct (negb (exists_ (speedster_attempts db quest))) eqn:Ex; [no_award db|].
  destruct (filtered_attempts db quest) as [|first rest] eqn:Ef; [no_award db|].
  destruct (py_in (UserQuestAttempt.total_score_achieved (min_by_time_taken first rest))
                  (top_three_scores (speedster_attempts db quest))) eqn:Et; [| no_award db].
  destruct (get_badge db "Speedster") as [badge| |] eqn:Eb; [| no_award db ..].
  apply awards_through_one
    with (badge_id := Badge.id badge) (attempt := min_by_time_taken first rest).
  intros table. other_tables table db. use_tests.
  destruct (get_or_create _ _ table) as [[table' created]|]; reflexivity.
Qed.

Lemma expert_awards_through db id :
  awards_through (fun db id => fst (award_expert_badge db id)) db id.
Proof.
  unfold award_expert_badge.
  destruct (get_quest db id) as [quest| |] eqn:Eq; [| no_award db ..].
  destruct (String.eqb (Quest.type quest) "Private") eqn:Ep; [no_award db|].
  destruct (py_eq (total_max_score db quest) 0) eqn:Ez; [no_award db|].
  destruct (negb (String.eqb (Quest.status quest) "Expired")) eqn:Es; [no_award db|].
  destruct (negb (exists_ (quest_attempts db quest))) eqn:Ex; [no_award db|].
  set (highest_score :=
         or_zero (aggregate_max (List.map UserQuestAttempt.total_score_achieved
                                          (quest_attempts db quest)))).
  destruct (negb (py_gt highest_score 0)) eqn:Eh; [unfold highest_score in Eh; no_award db|].
  destruct (get_badge db "Expert") as [badge| |] eqn:Eb;
    [| unfold highest_score in Eh; no_award db ..].
  set (top_attempts :=
         List.filter (fun a => py_eq (UserQuestAttempt.total_score_achieved a) highest_score)
                     (quest_attempts db quest)).
  destruct (Nat.eqb (length top_attempts) 0) eqn:El;
    [unfold top_attempts, highest_score in *; no_award db|].
  exists (Badge.id badge), top_attempts. intros table.
  unfold top_attempts, highest_score in *.
  other_tables table db. use_tests.
  destruct (award_each _ _ table) as [table' ok]. reflexivity.
Qed.

(** X9.  On a store without duplicate award records, the Perfectionist, the
    Speedster and the Expert job can be run again with the same argument: the
    second run changes nothing, and no duplicate record arises. *)
Theorem quest_badge_jobs_run_again db (id : Z) :
  NoDup (user_quest_badges db) ->
  (NoDup (user_quest_badges (fst (award_perfectionist_badge db id)))
   /\ fst (award_perfectionist_badge (fst (award_perfectionist_badge db id)) id)
      = fst (award_perfectionist_badge db id))
  /\ (NoDup (user_quest_badges (fst (award_speedster_badge db id)))
      /\ fst (award_speedster_badge (fst (award_speedster_badge db id)) id)
         = fst (award_speedster_badge db id))
  /\ (NoDup (user_quest_badges (fst (award_expert_badge db id)))
      /\ fst (award_expert_badge (fst (award_expert_badge db id)) id)
         = fst (award_expert_badge db id)).
Proof.
  intros Hnd. split; [|split].
  - apply (awards_through_again (fun db id => fst (award_perfectionist_badge db id)));
      [apply perfectionist_awards_through | assumption].
  - apply (awards_through_again (fun db id => fst (award_speedster_badge db id)));
      [apply speedster_awards_through | assumption].
  - apply (awards_through_again (fun db id => fst (award_expert_badge db id)));
      [apply expert_awards_through | assumption].
Qed.

(** ** The expiry cascade *)

Lemma objects_get_unique_key {A} (key : A -> Z) (table : list A) (row : A) :
  NoDup (List.map key table) -> In row table ->
  objects_get (fun r => Z.eqb (key r) (key row)) table = Got row.
Proof.
  intros Hnd Hin. unfold objects_get.
  assert (Hf : List.filter (fun r => Z.eqb (key r) (key row)) table = [row]).
  { induction table as [|a l IH]; [destruct Hin|].
    cbn in Hnd. apply NoDup_cons in Hnd as [Hna Hnd]. cbn.
    destruct (Z.eqb_spec (key a) (key row)) as [E|E].
    - assert (a = row).
      { destruct Hin as [?|Hin]; [assumption|]. exfalso. apply Hna. rewrite E.
        apply list_elem_of_In. now apply List.in_map. }
      subst a. f_equal.
      assert (Hnone : forall r, In r l -> Z.eqb (key r) (key row) = false).
      { intros r Hr. apply Z.eqb_neq. intros E'. apply Hna. rewrite <- E'.
        apply list_elem_of_In. now apply List.in_map. }
      clear - Hnone. induction l as [|b l IH]; [reflexivity|]. cbn.
      rewrite (Hnone b) by now left. apply IH. intros r Hr. apply Hnone. now right.
    - destruct Hin as [->|Hin]; [congruence|]. auto. }
  rewrite Hf. reflexivity.
Qed.

Lemma set_quests_same db : set_quests (quests db) db = db.
Proof. destruct db; reflexivity. Qed.

Lemma expire_where_id due row : Quest.id (expire_where due row) = Quest.id row.
Proof. unfold expire_where. destruct (due row); reflexivity. Qed.

Lemma expire_where_ids due table :
  List.map Quest.id (List.map (expire_where due) table) = List.map Quest.id table.
Proof.
  rewrite List.map_map. apply List.map_ext. intros r. apply expire_where_id.
Qed.

Lemma set_status_twice s q : Quest.set_status s (Quest.set_status s q) = Quest.set_status s q.
Proof. reflexivity. Qed.

(** One [quest.status = 'Expired'; quest.save()] of the loops, for an object
    that agrees with its stored row up to the status. *)
Lemma Quest_save_expire db (q row : Quest.t) :
  NoDup (List.map Quest.id (quests db)) ->
  In row (quests db) ->
  Quest.id row = Quest.id q ->
  Quest.set_status "Expired" row = Quest.set_status "Expired" q ->
  Quest_save (Quest.set_status "Expired" q) db
  = Some (set_quests
            (List.map (expire_where (fun r => Z.eqb (Quest.id q) (Quest.id r))) (quests db)) db,
          if String.eqb (Quest.status row) "Active"
          then [award_expert_badge_job (Quest.id q); award_speedster_badge_job (Quest.id q)]
          else []).
Proof.
  intros Hnd Hin Hid Hexp. unfold Quest_save.
  change (Quest.id (Quest.set_status "Expired" q)) with (Quest.id q).
  unfold get_quest. rewrite <- Hid.
  rewrite (objects_get_unique_key Quest.id (quests db) row Hnd Hin). cbv zeta.
  change (Quest.status (Quest.set_status "Expired" q)) with "Expired"%string.
  rewrite andb_true_r.
  assert (Hmap :
    List.map (fun r => if Z.eqb (Quest.id r) (Quest.id row)
                       then Quest.set_status "Expired" q else r) (quests db)
    = List.map (expire_where (fun r => Z.eqb (Quest.id row) (Quest.id r))) (quests db)).
  { apply List.map_ext_in. intros r Hr. unfold expire_where. rewrite (Z.eqb_sym (Quest.id row)).
    destruct (Z.eqb_spec (Quest.id r) (Quest.id row)) as [E|E]; [|reflexivity].
    rewrite (NoDup_map_inj Quest.id (quests db) r row Hnd Hr Hin E). symmetry. exact Hexp. }
  rewrite Hmap. destruct (String.eqb (Quest.status row) "Active"); reflexivity.
Qed.

Lemma expire_quests_spec (todo : list Quest.t) :
  forall (db : DB) (enqueued : list Task),
    NoDup (List.map Quest.id (quests db)) ->
    (forall q, In q todo ->
       exists row, In row (quests db) /\ Quest.id row = Quest.id q
                   /\ Quest.set_status "Expired" row = Quest.set_status "Expired" q) ->
    exists jobs,
      expire_quests todo db enqueued
      = Some (set_quests
                (List.map
                   (expire_where
                      (fun row => existsb (fun q => Z.eqb (Quest.id q) (Quest.id row)) todo))
                   (quests db)) db,
              enqueued ++ jobs)
      /\ NoDup jobs
      /\ (forall job,
            In job jobs
            <-> exists row,
                  In row (quests db)
                  /\ existsb (fun q => Z.eqb (Quest.id q) (Quest.id row)) todo = true
                  /\ Quest.status row = "Active"%string
                  /\ quest_expiry_job (Quest.id row) job).
Proof.
  induction todo as [|q0 rest IH]; intros db enqueued Hnd Hrows.
  - exists []. cbn [expire_quests existsb]. split; [|split].
    + rewrite List.app_nil_r. f_equal. f_equal.
      rewrite <- (set_quests_same db) at 1. f_equal.
      symmetry. rewrite <- (List.map_id (quests db)) at 2. apply List.map_ext. reflexivity.
    + apply NoDup_nil_2.
    + intros job. split; [intros [] | intros (row & _ & H & _); discriminate].
  - destruct (Hrows q0 (or_introl eq_refl)) as (row0 & Hin0 & Hid0 & Hexp0).
    cbn [expire_quests]. rewrite (Quest_save_expire db q0 row0 Hnd Hin0 Hid0 Hexp0).
    set (E0 := expire_where (fun r => Z.eqb (Quest.id q0) (Quest.id r))).
    set (db1 := set_quests (List.map E0 (quests db)) db).
    set (jobs0 := if String.eqb (Quest.status row0) "Active"
                  then [award_expert_badge_job (Quest.id q0);
                        award_speedster_badge_job (Quest.id q0)]
                  else []).
    assert (Hnd1 : NoDup (List.map Quest.id (quests db1))).
    { unfold db1. cbn [quests set_quests]. unfold E0. rewrite expire_where_ids. exact Hnd. }
    assert (Hrows1 : forall q, In q rest ->
              exists row, In row (quests db1) /\ Quest.id row = Quest.id q
                          /\ Quest.set_status "Expired" row = Quest.set_status "Expired" q).
    { intros q Hq. destruct (Hrows q (or_intror Hq)) as (row & Hin & Hid & Hexp).
      exists (E0 row). split; [|split].
      - unfold db1. cbn [quests set_quests]. now apply List.in_map.
      - unfold E0. rewrite expire_where_id. exact Hid.
      - unfold E0, expire_where. destruct (Z.eqb _ _); [|exact Hexp].
        rewrite set_status_twice. exact Hexp. }
    destruct (IH db1 (enqueued ++ jobs0) Hnd1 Hrows1) as (jobs1 & Erun & Hndj & Hjobs).
    assert (Hexpired : forall r, In r (quests db) -> Quest.id q0 = Quest.id r ->
                                 Quest.status (E0 r) = "Expired"%string).
    { intros r _ E. unfold E0, expire_where. rewrite E, Z.eqb_refl. reflexivity. }
    assert (Hkept : forall r, Quest.id q0 <> Quest.id r -> E0 r = r).
    { intros r E. unfold E0, expire_where.
      destruct (Z.eqb_spec (Quest.id q0) (Quest.id r)); [contradiction | reflexivity]. }
    assert (Hjobs0 : forall job, In job jobs0 <->
              Quest.status row0 = "Active"%string /\ quest_expiry_job (Quest.id q0) job).
    { intros job. unfold jobs0, quest_expiry_job.
      destruct (String.eqb_spec (Quest.status row0) "Active") as [E|E].
      - cbn. split; [intros [<-|[<-|[]]]; auto | intros [_ [->| ->]]; auto].
      - split; [intros [] | intros [? _]; contradiction]. }
    assert (Hjobs1 : forall job, In job jobs1 ->
              exists row, In row (quests db) /\ Quest.id q0 <> Quest.id row
                          /\ existsb (fun q => Z.eqb (Quest.id q) (Quest.id row)) rest = true
                          /\ Quest.status row = "Active"%string
                          /\ quest_expiry_job (Quest.id row) job).
    { intros job Hjob. apply Hjobs in Hjob as (row' & Hin' & Hex & Hact & Hjob).
      unfold db1 in Hin'. cbn [quests set_quests] in Hin'.
      apply List.in_map_iff in Hin' as (r & <- & Hr).
      destruct (Z.eq_dec (Quest.id q0) (Quest.id r)) as [E|E].
      - rewrite (Hexpired r Hr E) in Hact. discriminate.
      - rewrite (Hkept r E) in *. exists r. auto. }
    exists (jobs0 ++ jobs1). split; [|split].
    + rewrite Erun. f_equal. f_equal; [|symmetry; apply List.app_assoc].
      unfold db1. change (set_quests ?t (set_quests ?t' db)) with (set_quests t db).
      f_equal. cbn [quests set_quests]. rewrite List.map_map. apply List.map_ext.
      intros r. cbn [existsb]. unfold E0. unfold expire_where at 1.
      rewrite expire_where_id. unfold expire_where.
      destruct (Z.eqb (Quest.id q0) (Quest.id r)); cbn [orb];
        destruct (existsb _ rest); reflexivity.
    + apply NoDup_app. split; [|split; [|exact Hndj]].
      * unfold jobs0. destruct (String.eqb _ _); [|apply NoDup_nil_2].
        apply NoDup_cons. split; [|apply NoDup_cons; split; [|apply NoDup_nil_2]].
        -- intros H. apply list_elem_of_In in H. destruct H as [H|[]]. discriminate.
        -- intros H. apply list_elem_of_In in H. destruct H.
      * intros job Hj0 Hj1. apply list_elem_of_In in Hj0, Hj1.
        apply Hjobs0 in Hj0 as [_ Hj0].
        apply Hjobs1 in Hj1 as (row & _ & Hne & _ & _ & Hj1).
        unfold quest_expiry_job in *.
        destruct Hj0 as [-> | ->], Hj1 as [H|H]; try discriminate;
          injection H as H; contradiction.
    + intros job. rewrite List.in_app_iff, Hjobs0. split.
      * intros [[Hact Hjob] | Hjob].
        -- exists row0. cbn [existsb]. rewrite <- Hid0, Z.eqb_refl. rewrite Hid0. auto.
        -- apply Hjobs1 in Hjob as (row & Hin & _ & Hex & Hact & Hjob).
           exists row. cbn [existsb]. rewrite Hex, orb_true_r. auto.
      * intros (row & Hin & Hex & Hact & Hjob). cbn [existsb] in Hex.
        destruct (Z.eqb_spec (Quest.id q0) (Quest.id row)) as [E|E].
        -- left. assert (row = row0).
           { apply (NoDup_map_inj Quest.id (quests db)); auto. congruence. }
           subst row. rewrite E. auto.
        -- right. apply Hjobs. exists row. cbn [orb] in Hex. repeat split; auto.
           unfold db1. cbn [quests set_quests]. rewrite <- (Hkept row E).
           now apply List.in_map.
Qed.


(** Membership of a row's id in a list of rows of the table, under unique ids. *)
Lemma existsb_same_id db (todo : list Quest.t) (member : Quest.t -> bool) row :
  NoDup (List.map Quest.id (quests db)) ->
  (forall q, In q todo <-> In q (quests db) /\ member q = true) ->
  In row (quests db) ->
  existsb (fun q => Z.eqb (Quest.id q) (Quest.id row)) todo = member row.
Proof.
  intros Hnd Htodo Hrow. destruct (member row) eqn:E.
  - apply List.existsb_exists. exists row. split; [apply Htodo; auto | apply Z.eqb_refl].
  - destruct (existsb _ todo) eqn:Ex; [|reflexivity].
    apply List.existsb_exists in Ex as (q & Hq & Hid). apply Z.eqb_eq in Hid.
    apply Htodo in Hq as [Hq Hm].
    rewrite (NoDup_map_inj Quest.id (quests db) q row Hnd Hq Hrow Hid) in Hm. congruence.
Qed.

Lemma replace_row_twice {A} (key : A -> Z) (self : A) (table : list A) :
  let replace := fun row => if Z.eqb (key row) (key self) then self else row in
  List.map replace (List.map replace table) = List.map replace table.
Proof.
  cbv zeta. rewrite List.map_map. apply List.map_ext. intros r.
  destruct (Z.eqb (key r) (key self)) eqn:E; [rewrite Z.eqb_refl | rewrite E]; reflexivity.
Qed.

Lemma objects_get_replaced {A} (key : A -> Z) (self previous : A) (table : list A) :
  objects_get (fun r => Z.eqb (key r) (key self)) table = Got previous ->
  objects_get (fun r => Z.eqb (key r) (key self))
              (List.map (fun row => if Z.eqb (key row) (key self) then self else row) table)
  = Got self.
Proof.
  intros H. rewrite objects_get_map.
  - rewrite H. destruct (objects_get_Got_In _ _ _ H) as [_ ->]. reflexivity.
  - intros a. destruct (Z.eqb (key a) (key self)) eqn:E; [apply Z.eqb_refl | exact E].
Qed.

(** X10.  [Quest.save] enqueues nothing but the two expiry jobs of the saved
    quest, and only when the stored status was "Active" and the saved one is
    "Expired"; saving the same object once more changes nothing and enqueues
    nothing. *)
Theorem quest_save_fires_once (self : Quest.t) db db' jobs :
  Quest_save self db = Some (db', jobs) ->
  (forall job, In job jobs ->
     quest_expiry_job (Quest.id self) job
     /\ Quest.status self = "Expired"%string
     /\ exists previous, get_quest db (Quest.id self) = Got previous
                         /\ Quest.status previous = "Active"%string)
  /\ (Quest.status self <> "Expired"%string -> jobs = [])
  /\ Quest_save self db' = Some (db', []).
Proof.
  unfold Quest_save. destruct (get_quest db (Quest.id self)) as [previous| |] eqn:Eq;
    try discriminate.
  cbv zeta. intros H.
  set (table := List.map (fun row => if Z.eqb (Quest.id row) (Quest.id self) then self else row)
                         (quests db)) in *.
  assert (Hdb : db' = set_quests table db)
    by (destruct (_ && _) in H; injection H as <- _; reflexivity).
  split; [|split].
  - intros job Hjob.
    destruct (String.eqb_spec (Quest.status previous) "Active") as [Ea|Ea];
      destruct (String.eqb_spec (Quest.status self) "Expired") as [Ee|Ee];
      cbn [andb] in H; injection H as _ <-; try (destruct Hjob; fail).
    split; [|split; [assumption | exists previous; auto]].
    unfold quest_expiry_job. cbn in Hjob. destruct Hjob as [<-|[<-|[]]]; auto.
  - intros Hne. destruct (String.eqb_spec (Quest.status self) "Expired") as [Ee|Ee];
      [contradiction|]. rewrite andb_false_r in H. injection H as _ <-. reflexivity.
  - subst db'. unfold get_quest. cbn [quests set_quests]. unfold table.
    rewrite (objects_get_replaced Quest.id self previous (quests db) Eq).
    rewrite (replace_row_twice Quest.id self (quests db)).
    change (set_quests ?t (set_quests ?t' db)) with (set_quests t db).
    destruct (String.eqb_spec (Quest.status self) "Active") as [Ea|Ea]; [|reflexivity].
    rewrite Ea. reflexivity.
Qed.


Lemma filter_none {A} (p : A -> bool) (l : list A) :
  (forall a, In a l -> p a = false) -> List.filter p l = [].
Proof.
  induction l as [|a l IH]; intros H; [reflexivity|]. cbn.
  rewrite (H a) by now left. apply IH. intros b Hb. apply H. now right.
Qed.

Lemma in_expired_quests expiration_date now db q :
  In q (expired_quests expiration_date now db)
  <-> In q (quests db) /\ due_for_expiry expiration_date now q = true.
Proof. apply List.filter_In. Qed.

(** X12.  With unique quest ids the expiry check succeeds; it sets to
    "Expired" exactly the "Active" quests whose expiration date lies before
    [now], and enqueues the two expiry jobs for each of them, once.  Run
    again, with dates that are unchanged for the quests it left alone, it
    finds nothing. *)
Theorem expiry_check_expires_due_quests (expiration_date : Z -> option Z) (now : Z) db :
  NoDup (List.map Quest.id (quests db)) ->
  let db' :=
    set_quests (List.map (expire_where (due_for_expiry expiration_date now)) (quests db)) db in
  exists jobs,
    check_expired_quest expiration_date now db = Some (db', jobs)
    /\ NoDup jobs
    /\ (forall job,
          In job jobs
          <-> exists row,
                In row (quests db)
                /\ due_for_expiry expiration_date now row = true
                /\ quest_expiry_job (Quest.id row) job)
    /\ (forall expiration_date',
          (forall row, In row (quests db) ->
             due_for_expiry expiration_date now row = false ->
             expiration_date' (Quest.id row) = expiration_date (Quest.id row)) ->
          check_expired_quest expiration_date' now db' = Some (db', [])).
Proof.
  intros Hnd. cbv zeta.
  destruct (expire_quests_spec (expired_quests expiration_date now db) db [])
    as (jobs & Erun & Hndj & Hjobs).
  { exact Hnd. }
  { intros q Hq. apply in_expired_quests in Hq as [Hq _]. exists q. auto. }
  assert (Hmember : forall row, In row (quests db) ->
            existsb (fun q => Z.eqb (Quest.id q) (Quest.id row))
                    (expired_quests expiration_date now db)
            = due_for_expiry expiration_date now row).
  { intros row Hrow. apply (existsb_same_id db); [assumption | | assumption].
    intros q. apply in_expired_quests. }
  exists jobs. split; [|split; [exact Hndj|split]].
  - unfold check_expired_quest. rewrite Erun. cbn [app]. f_equal. f_equal. f_equal.
    apply List.map_ext_in. intros row Hrow. unfold expire_where.
    rewrite (Hmember row Hrow). reflexivity.
  - intros job. rewrite Hjobs. split.
    + intros (row & Hrow & Hm & Hact & Hjob). exists row.
      rewrite (Hmember row Hrow) in Hm. auto.
    + intros (row & Hrow & Hm & Hjob). exists row. rewrite (Hmember row Hrow).
      repeat split; auto.
      unfold due_for_expiry in Hm. apply andb_true_iff in Hm as [_ Hm].
      now apply String.eqb_eq.
  - intros expiration_date' Hsame. unfold check_expired_quest.
    assert (Hnone : expired_quests expiration_date' now
                      (set_quests (List.map (expire_where (due_for_expiry expiration_date now))
                                            (quests db)) db) = []).
    { unfold expired_quests. cbn [quests set_quests].
      apply filter_none. intros row' Hrow'.
      apply List.in_map_iff in Hrow' as (row & <- & Hrow). unfold expire_where.
      destruct (due_for_expiry expiration_date now row) eqn:Edue.
      - cbn. apply andb_false_r.
      - fold (due_for_expiry expiration_date' now row). unfold due_for_expiry in *.
        rewrite (Hsame row Hrow Edue). exact Edue. }
    rewrite Hnone. reflexivity.
Qed.

(** ** The completion check: timestamps and the missing badge *)

Lemma stamp_completed_id now awarded row :
  UserCourseGroupEnrollment.id (stamp_completed now awarded row)
  = UserCourseGroupEnrollment.id row.
Proof. unfold stamp_completed. destruct (existsb _ awarded); reflexivity. Qed.

(** The loop with the badge on record: what it leaves in the enrollment
    table, and which tables it touches. *)
Lemma completion_loop_enrollments now badge db0 :
  get_badge db0 "Completionist" = Got badge ->
  forall todo db acc,
    quests db = quests db0 -> user_quest_attempts db = user_quest_attempts db0 ->
    badges db = badges db0 -> NoDup (user_course_badges db) ->
    exists table,
      fst (completion_loop now todo db acc)
      = set_user_course_badges table
          (set_enrollments
             (List.map (stamp_completed now (List.filter (completed_all_quests db0) todo))
                       (enrollments db))
             db).
Proof.
  intros Hb. induction todo as [|e todo IH]; intros db acc Hq Ha Hbd Hnd; simpl.
  - exists (user_course_badges db). unfold stamp_completed. cbn [existsb].
    rewrite List.map_id. destruct db; reflexivity.
  - rewrite (completed_all_quests_static db0 db e Hq Ha).
    destruct (completed_all_quests db0 e) eqn:Ec.
    + set (db1 := save_completed_on (UserCourseGroupEnrollment.id e) now db).
      assert (Hb1 : get_badge db1 "Completionist" = Got badge).
      { unfold get_badge in *. unfold db1, save_completed_on. cbn [badges set_enrollments].
        now rewrite Hbd. }
      rewrite Hb1.
      destruct (get_or_create_course_badge (Badge.id badge) (UserCourseGroupEnrollment.id e)
                  (user_course_badges db)) as (t1 & created & E1 & _ & Hnd1 & _ & _).
      { exact Hnd. }
      change (user_course_badges db1) with (user_course_badges db). rewrite E1.
      destruct (IH (set_user_course_badges t1 db1) (acc ++ [e]) Hq Ha Hbd Hnd1)
        as (table & ->).
      exists table. unfold db1, save_completed_on.
      cbn [enrollments set_enrollments set_user_course_badges].
      rewrite List.map_map.
      replace (List.map _ (enrollments db))
        with (List.map (stamp_completed now (e :: List.filter (completed_all_quests db0) todo))
                       (enrollments db)).
      * destruct db; reflexivity.
      * apply List.map_ext. intros row. unfold stamp_completed. cbn [existsb].
        rewrite (Z.eqb_sym (UserCourseGroupEnrollment.id e)).
        destruct (Z.eqb (UserCourseGroupEnrollment.id row) (UserCourseGroupEnrollment.id e));
          cbn [orb UserCourseGroupEnrollment.id UserCourseGroupEnrollment.set_completed_on];
          destruct (existsb _ (List.filter (completed_all_quests db0) todo)); reflexivity.
    + apply IH; assumption.
Qed.

(** X13.  With the "Completionist" badge on record and no duplicate award,
    the completion check stamps [completed_on] with the time of the run on
    exactly the enrollment rows of the awarded enrollments (replacing an
    earlier date), leaves the other rows as they are, and touches no table
    other than the enrollments and the course badges. *)
Theorem completion_check_stamps_awarded db now course_id badge :
  get_badge db "Completionist" = Got badge ->
  NoDup (user_course_badges db) ->
  let result := check_course_completion_and_award_completionist_badge db now course_id in
  let awarded := List.filter (completed_all_quests db) (course_enrollments db course_id) in
  awarded_enrollments (snd result) = awarded
  /\ enrollments (fst result) = List.map (stamp_completed now awarded) (enrollments db)
  /\ fst result
     = set_user_course_badges (user_course_badges (fst result))
         (set_enrollments (enrollments (fst result)) db)
  /\ (forall row, In row (enrollments (fst result)) ->
        UserCourseGroupEnrollment.completed_on row = Some now
        \/ In row (enrollments db)).
Proof.
  intros Hb Hnd. cbv zeta.
  unfold check_course_completion_and_award_completionist_badge.
  destruct (course_enrollments db course_id) as [|e0 todo] eqn:Ece.
  - cbn. unfold stamp_completed. cbn [existsb]. rewrite List.map_id.
    repeat split; [destruct db; reflexivity | auto].
  - cbn [exists_ negb]. rewrite <- Ece.
    destruct (completion_loop_spec now badge db Hb (course_enrollments db course_id) db [])
      as (db1 & Eloop & _); auto.
    destruct (completion_loop_enrollments now badge db Hb (course_enrollments db course_id) db [])
      as (table & Efst); auto.
    rewrite Eloop in *. cbn [fst snd awarded_enrollments app] in *. subst db1.
    cbn [enrollments set_enrollments set_user_course_badges user_course_badges].
    repeat split.
    intros row Hrow. apply List.in_map_iff in Hrow as (row0 & <- & Hrow0).
    unfold stamp_completed. destruct (existsb _ _); [left; reflexivity | right; exact Hrow0].
Qed.

(** The loop without a usable badge: it stops at the first enrollment that
    completed its group, after having written the date. *)
Lemma completion_loop_without_badge now db0 :
  (forall badge, get_badge db0 "Completionist" <> Got badge) ->
  forall todo db acc,
    quests db = quests db0 -> user_quest_attempts db = user_quest_attempts db0 ->
    badges db = badges db0 ->
    completion_loop now todo db acc
    = match List.filter (completed_all_quests db0) todo with
      | [] => (db, CompletionChecked acc)
      | e :: _ => (save_completed_on (UserCourseGroupEnrollment.id e) now db, CompletionRaised)
      end.
Proof.
  intros Hb. induction todo as [|e todo IH]; intros db acc Hq Ha Hbd; simpl; [reflexivity|].
  rewrite (completed_all_quests_static db0 db e Hq Ha).
  destruct (completed_all_quests db0 e) eqn:Ec; [|apply IH; assumption].
  assert (Hb1 : get_badge (save_completed_on (UserCourseGroupEnrollment.id e) now db)
                          "Completionist" = get_badge db0 "Completionist").
  { unfold get_badge, save_completed_on. cbn [badges set_enrollments]. now rewrite Hbd. }
  rewrite Hb1. destruct (get_badge db0 "Completionist") as [badge| |] eqn:E;
    [exfalso; now apply (Hb badge) | reflexivity | reflexivity].
Qed.

(** X14.  Without a "Completionist" badge on record (the lookup is not
    caught by the job), the completion check fails at the first enrollment
    that completed its group: that enrollment's [completed_on] has been
    written, no award record is added and no later enrollment is looked at.
    When no enrollment completed its group the missing badge goes unnoticed. *)
Theorem completion_check_without_badge db now course_id :
  (forall badge, get_badge db "Completionist" <> Got badge) ->
  check_course_completion_and_award_completionist_badge db now course_id
  = match List.filter (completed_all_quests db) (course_enrollments db course_id) with
    | e :: _ => (save_completed_on (UserCourseGroupEnrollment.id e) now db, CompletionRaised)
    | [] => (db, if exists_ (course_enrollments db course_id)
                 then CompletionChecked [] else CompletionNoEnrollments)
    end.
Proof.
  intros Hb. unfold check_course_completion_and_award_completionist_badge.
  destruct (course_enrollments db course_id) as [|e0 todo] eqn:Ece; [reflexivity|].
  cbn [exists_ negb]. rewrite (completion_loop_without_badge now db Hb); reflexivity.
Qed.

(** ** The cognitive profile *)

Lemma level_correct_le (k : option string) (uas : list UserAnswerAttempt.t) :
  (level_correct k uas <= level_observations k uas)%nat.
Proof.
  unfold level_correct, level_observations.
  induction uas as [|ua uas IH]; simpl; [lia|].
  case_bool_decide; simpl; [|exact IH].
  destruct (UserAnswerAttempt.is_correct ua); simpl; lia.
Qed.

Lemma level_stats_fold (uas : list UserAnswerAttempt.t) :
  forall (d : gmap (option string) stats) (k : option string),
    fold_left
      (fun d ua => bump (level_of (UserAnswerAttempt.question ua))
                        (UserAnswerAttempt.is_correct ua) d)
      uas d !! k
    = match level_observations k uas with
      | O => d !! k
      | S _ =>
          Some (mk_stats (total (default (mk_stats 0 0) (d !! k)) + level_observations k uas)
                         (correct (default (mk_stats 0 0) (d !! k)) + level_correct k uas))
      end.
Proof.
  induction uas as [|ua uas IH]; intros d k; [reflexivity|].
  cbn [fold_left]. rewrite IH, bump_lookup.
  unfold level_observations, level_correct. cbn [List.filter].
  case_bool_decide as E; cbn [andb length].
  - pose proof (level_correct_le k uas) as Hle.
    unfold level_observations, level_correct in Hle.
    destruct (UserAnswerAttempt.is_correct ua); simpl;
      destruct (length (List.filter
                          (fun ua0 => bool_decide (level_of (UserAnswerAttempt.question ua0) = k))
                          uas)) eqn:En;
      f_equal; f_equal; lia.
  - reflexivity.
Qed.

Lemma level_stats_lookup (uas : list UserAnswerAttempt.t) (k : option string) :
  level_stats_of uas !! k
  = match level_observations k uas with
    | O => None
    | S _ => Some (mk_stats (level_observations k uas) (level_correct k uas))
    end.
Proof.
  unfold level_stats_of. rewrite level_stats_fold, lookup_empty. reflexivity.
Qed.

Lemma level_accuracy_value (uas : list UserAnswerAttempt.t) (level : string) :
  level_accuracy (level_stats_of uas) level
  = (of_nat (level_correct (Some level) uas)
     / of_nat (Nat.max (level_observations (Some level) uas) 1)) * 100.
Proof.
  unfold level_accuracy. rewrite level_stats_lookup.
  pose proof (level_correct_le (Some level) uas) as Hle.
  destruct (level_observations (Some level) uas) as [|n] eqn:En; cbn [total correct].
  - assert (level_correct (Some level) uas = 0%nat) as -> by lia. reflexivity.
  - reflexivity.
Qed.

Lemma of_nat_0 : of_nat 0 == 0.
Proof. reflexivity. Qed.





(** An accuracy is at most 100, and 0 when the level has no correct
    observation. *)
Lemma level_accuracy_cap (uas : list UserAnswerAttempt.t) (level : string) :
  level_accuracy (level_stats_of uas) level
  <= if Nat.ltb 0 (level_correct (Some level) uas) then 100 else 0.
Proof.
  rewrite level_accuracy_value.
  pose proof (level_correct_le (Some level) uas) as Hle.
  destruct (Nat.ltb_spec 0 (level_correct (Some level) uas)) as [Hpos|Hzero].
  - replace (Nat.max (level_observations (Some level) uas) 1)
      with (level_observations (Some level) uas) by lia.
    assert (Hn : 0 < of_nat (level_observations (Some level) uas))
      by (apply of_nat_pos; lia).
    pose proof (of_nat_le _ _ Hle) as Hc.
    assert (E : of_nat (level_correct (Some level) uas)
                / of_nat (level_observations (Some level) uas) * 100
                == (100 * of_nat (level_correct (Some level) uas))
                   / of_nat (level_observations (Some level) uas)) by (field; lra).
    rewrite E. apply Qle_shift_div_r; [exact Hn | lra].
  - assert (level_correct (Some level) uas = 0%nat) as -> by lia.
    unfold Qdiv. rewrite of_nat_0. lra.
Qed.

(** X17.  The mean is taken over all six levels, whether observed or not:
    when the aggregator rates a student "Advanced", the student has a correct
    observation at five or more of the six levels, and when it rates the
    student "Intermediate", at four or more. *)
Theorem competency_needs_breadth db student_id competency_level :
  snd (update_cognitive_profile db student_id) = ProfileUpdated competency_level ->
  let observed := observed_answer_attempts db student_id in
  (competency_level = "Advanced"%string -> (5 <= levels_with_correct_answer observed)%nat)
  /\ (competency_level = "Intermediate"%string ->
      (4 <= levels_with_correct_answer observed)%nat).
Proof.
  unfold update_cognitive_profile.
  destruct (objects_get _ (users db)) as [student| |] eqn:Hu; try discriminate.
  destruct (objects_get_Got_In _ _ _ Hu) as [_ Hid]. apply Z.eqb_eq in Hid. rewrite Hid.
  destruct (get_or_create _ _ (cognitive_profiles db)) as [[table created]|]; try discriminate.
  cbv zeta.
  set (uas := observed_answer_attempts db student_id).
  pose proof (level_accuracy_cap uas "Remember") as H1.
  pose proof (level_accuracy_cap uas "Understand") as H2.
  pose proof (level_accuracy_cap uas "Apply") as H3.
  pose proof (level_accuracy_cap uas "Analyze") as H4.
  pose proof (level_accuracy_cap uas "Evaluate") as H5.
  pose proof (level_accuracy_cap uas "Create") as H6.
  unfold levels_with_correct_answer, cognitive_levels. cbn [List.filter].
  set (a1 := level_accuracy (level_stats_of uas) "Remember") in *.
  set (a2 := level_accuracy (level_stats_of uas) "Understand") in *.
  set (a3 := level_accuracy (level_stats_of uas) "Apply") in *.
  set (a4 := level_accuracy (level_stats_of uas) "Analyze") in *.
  set (a5 := level_accuracy (level_stats_of uas) "Evaluate") in *.
  set (a6 := level_accuracy (level_stats_of uas) "Create") in *.
  assert (Hsum : Qsum [a1; a2; a3; a4; a5; a6] / 6 == (a1 + a2 + a3 + a4 + a5 + a6) * (1 # 6))
    by (unfold Qsum; cbn [fold_right]; field).
  destruct (py_ge (Qsum [a1; a2; a3; a4; a5; a6] / 6) 80) eqn:E80.
  - apply py_ge_true in E80. rewrite Hsum in E80.
    cbn [snd]. intros [= <-]. split; [intros _ | discriminate].
    revert H1 H2 H3 H4 H5 H6.
    destruct (Nat.ltb 0 (level_correct (Some "Remember"%string) uas));
      destruct (Nat.ltb 0 (level_correct (Some "Understand"%string) uas));
      destruct (Nat.ltb 0 (level_correct (Some "Apply"%string) uas));
      destruct (Nat.ltb 0 (level_correct (Some "Analyze"%string) uas));
      destruct (Nat.ltb 0 (level_correct (Some "Evaluate"%string) uas));
      destruct (Nat.ltb 0 (level_correct (Some "Create"%string) uas));
      cbn [length]; intros; try lia; exfalso; lra.
  - destruct (py_ge (Qsum [a1; a2; a3; a4; a5; a6] / 6) 60) eqn:E60.
    + apply py_ge_true in E60. rewrite Hsum in E60.
      cbn [snd]. intros [= <-]. split; [discriminate | intros _].
      revert H1 H2 H3 H4 H5 H6.
      destruct (Nat.ltb 0 (level_correct (Some "Remember"%string) uas));
        destruct (Nat.ltb 0 (level_correct (Some "Understand"%string) uas));
        destruct (Nat.ltb 0 (level_correct (Some "Apply"%string) uas));
        destruct (Nat.ltb 0 (level_correct (Some "Analyze"%string) uas));
        destruct (Nat.ltb 0 (level_correct (Some "Evaluate"%string) uas));
        destruct (Nat.ltb 0 (level_correct (Some "Create"%string) uas));
        cbn [length]; intros; try lia; exfalso; lra.
    + cbn [snd]. intros [= <-]. split; discriminate.
Qed.

Lemma in_replace_other {A} (key : A -> Z) (self p : A) (table : list A) :
  key p <> key self ->
  In p (List.map (fun row => if Z.eqb (key row) (key self) then self else row) table)
  <-> In p table.
Proof.
  intros Hne. rewrite List.in_map_iff. split.
  - intros (row & E & Hrow). destruct (Z.eqb_spec (key row) (key self)); congruence.
  - intros Hp. exists p. split; [|exact Hp].
    destruct (Z.eqb_spec (key p) (key self)); [contradiction | reflexivity].
Qed.

(** The aggregator touches the profile of the user id it is given and no
    other. *)
Lemma profile_job_other_profiles db (id : Z) (p : StudentCognitiveProfile.t) :
  StudentCognitiveProfile.student p <> id ->
  In p (cognitive_profiles (fst (update_cognitive_profile db id)))
  <-> In p (cognitive_profiles db).
Proof.
  intros Hne. unfold update_cognitive_profile.
  destruct (objects_get _ (users db)) as [student| |] eqn:Hu; try reflexivity.
  destruct (objects_get_Got_In _ _ _ Hu) as [_ Hid]. apply Z.eqb_eq in Hid. rewrite Hid.
  unfold get_or_create.
  destruct (objects_get _ (cognitive_profiles db)) as [p0| |]; cbv zeta; try reflexivity;
    destruct (if py_ge _ 80 then _ else _) as [competency_level recommend_difficulty];
    cbn [fst cognitive_profiles set_cognitive_profiles]; unfold save_profile;
    match goal with
    | |- In p (List.map _ ?table) <-> _ =>
        rewrite (in_replace_other StudentCognitiveProfile.student _ p table) by exact Hne
    end; [reflexivity|].
  rewrite List.in_app_iff. split; [|auto].
  intros [H|[H|[]]]; [exact H|]. subst p. contradiction Hne. reflexivity.
Qed.

(** X18.  On the submission of an attempt (its stored [submitted] was false,
    the saved one is true) [UserQuestAttempt.save] enqueues exactly one
    profile job, and hands it the id of the attempt; run with that argument,
    the aggregator changes no profile of a student whose id differs from the
    attempt's id. *)
Theorem submission_profile_job_keyed_by_attempt_id (self : UserQuestAttempt.t) db :
  UserQuestAttempt.submitted self = true ->
  (forall id, In (update_cognitive_profile_job id) (UserQuestAttempt_save_jobs false self db)
              <-> id = UserQuestAttempt.id self)
  /\ (forall p, StudentCognitiveProfile.student p <> UserQuestAttempt.id self ->
        In p (cognitive_profiles
                (fst (update_cognitive_profile db (UserQuestAttempt.id self))))
        <-> In p (cognitive_profiles db)).
Proof.
  intros Hsub. split.
  - intros id. unfold UserQuestAttempt_save_jobs. rewrite Hsub. cbn. split.
    + intros [H|[H|[H|[H|[]]]]]; try discriminate. now injection H.
    + intros ->. auto.
  - intros p Hne. now apply profile_job_other_profiles.
Qed.

(** ** The feedback record and the fallback dispatch *)

Lemma filter_nil_none {A} (p : A -> bool) (l : list A) :
  List.filter p l = [] -> forall a, In a l -> p a = false.
Proof.
  intros E a Ha. destruct (p a) eqn:Ep; [|reflexivity].
  assert (H : In a (List.filter p l)) by (apply List.filter_In; auto).
  rewrite E in H. destruct H.
Qed.

Lemma update_or_create_again record table table' :
  update_or_create record table = Some table' ->
  update_or_create record table' = Some table'
  /\ exists_ (List.filter
                (fun r => Z.eqb (StudentFeedback.user_quest_attempt r)
                                (StudentFeedback.user_quest_attempt record)) table') = true
  /\ (length table' <= S (length table))%nat
  /\ (NoDup (List.map StudentFeedback.user_quest_attempt table) ->
      NoDup (List.map StudentFeedback.user_quest_attempt table')).
Proof.
  unfold update_or_create.
  set (same := fun r => Z.eqb (StudentFeedback.user_quest_attempt r)
                              (StudentFeedback.user_quest_attempt record)).
  assert (Hrec : same record = true) by apply Z.eqb_refl.
  destruct (objects_get same table) as [p| |] eqn:Eg; [| |discriminate]; intros [= <-].
  - pose proof (objects_get_replaced StudentFeedback.user_quest_attempt record p table Eg)
      as Hgot.
    fold same in Hgot. rewrite Hgot. split; [|split; [|split]].
    + f_equal. apply (replace_row_twice StudentFeedback.user_quest_attempt record table).
    + apply objects_get_Got in Hgot. rewrite Hgot. reflexivity.
    + rewrite List.length_map. lia.
    + intros Hnd. rewrite List.map_map.
      erewrite List.map_ext; [exact Hnd|]. intros r. cbv beta. unfold same.
      destruct (Z.eqb_spec (StudentFeedback.user_quest_attempt r)
                           (StudentFeedback.user_quest_attempt record)); congruence.
  - assert (Hnone : List.filter same table = []).
    { unfold objects_get in Eg. destruct (List.filter same table) as [|a [|b l]];
        [reflexivity | discriminate | discriminate]. }
    assert (Hf : List.filter same (table ++ [record]) = [record]).
    { rewrite List.filter_app, Hnone. cbn [List.filter app]. rewrite Hrec. reflexivity. }
    unfold objects_get. rewrite Hf. split; [|split; [|split]].
    + f_equal. rewrite List.map_app. cbn [List.map]. rewrite Z.eqb_refl. f_equal.
      rewrite <- (List.map_id table) at 2. apply List.map_ext_in. intros r Hr.
      pose proof (filter_nil_none same table Hnone r Hr) as Hs. unfold same in Hs.
      rewrite Hs. reflexivity.
    + reflexivity.
    + rewrite List.length_app. cbn. lia.
    + intros Hnd. rewrite List.map_app. cbn. apply NoDup_app. split; [exact Hnd|]. split.
      * intros k Hk Hk'. apply list_elem_of_In in Hk, Hk'. destruct Hk' as [<-|[]].
        apply List.in_map_iff in Hk as (r & Hkey & Hr).
        pose proof (filter_nil_none same table Hnone r Hr) as Hs.
        unfold same in Hs. rewrite Hkey, Z.eqb_refl in Hs. discriminate.
      * apply NoDup_cons. split; [|apply NoDup_nil_2]. intros H.
        apply list_elem_of_In in H. destruct H.
Qed.

(** X19.  Once the feedback job has reported success for an attempt: a
    later save of the (already submitted) attempt no longer enqueues the
    fallback feedback job; the feedback table grew by at most one record and
    still holds at most one record per attempt if it did before; and the job
    run again, the service answering as before, leaves the store as it is. *)
Theorem feedback_job_settles post db attempt_id :
  snd (generate_personalised_feedback post db attempt_id) = FeedbackGenerated ->
  let db' := fst (generate_personalised_feedback post db attempt_id) in
  (forall self, UserQuestAttempt.id self = attempt_id ->
     UserQuestAttempt_save_jobs true self db' = [])
  /\ (length (student_feedbacks db') <= S (length (student_feedbacks db)))%nat
  /\ (NoDup (List.map StudentFeedback.user_quest_attempt (student_feedbacks db)) ->
      NoDup (List.map StudentFeedback.user_quest_attempt (student_feedbacks db')))
  /\ generate_personalised_feedback post db' attempt_id = (db', FeedbackGenerated).
Proof.
  cbv zeta.
  destruct (generate_personalised_feedback post db attempt_id) as [db1 outcome] eqn:Erun.
  cbn [fst snd]. intros ->. unfold generate_personalised_feedback in Erun.
  destruct (objects_get _ (user_quest_attempts db)) as [attempt| |] eqn:Ea; try discriminate.
  destruct (objects_get _ (users db)) as [student| |] eqn:Eu; try discriminate.
  destruct (get_quest db (UserQuestAttempt.quest attempt)) as [quest| |] eqn:Eq;
    try discriminate.
  destruct (post (build_attempt_data db attempt student quest)) as [|status decoded] eqn:Ep;
    try discriminate.
  destruct (Z.eqb status 200) eqn:Es; try discriminate.
  destruct decoded as [[| | | | |feedback_data]|]; try discriminate.
  destruct (update_or_create _ (student_feedbacks db)) as [table'|] eqn:Eupd;
    try discriminate.
  injection Erun as <-. cbn [fst student_feedbacks set_student_feedbacks].
  pose proof (get_attempt_id db attempt_id attempt Ea) as Hid.
  destruct (update_or_create_again _ _ _ Eupd) as (Hagain & Hex & Hlen & Hnd).
  cbn [StudentFeedback.user_quest_attempt feedback_of] in Hex.
  split; [|split; [exact Hlen | split; [exact Hnd|]]].
  - intros self Hself. unfold UserQuestAttempt_save_jobs.
    cbn [negb andb student_feedbacks set_student_feedbacks].
    rewrite Hself, <- Hid, Hex. cbn [negb]. rewrite andb_false_r. reflexivity.
  - unfold generate_personalised_feedback.
    cbn [user_quest_attempts users set_student_feedbacks student_feedbacks].
    rewrite Ea, Eu.
    change (get_quest (set_student_feedbacks table' db)) with (get_quest db). rewrite Eq.
    change (build_attempt_data (set_student_feedbacks table' db))
      with (build_attempt_data db).
    rewrite Ep, Es. cbn [student_feedbacks set_student_feedbacks]. rewrite Hagain.
    reflexivity.
Qed.

(** ** Enrollment counts *)

Lemma list_sum_cons (x : nat) (l : list nat) : list_sum (x :: l) = (x + list_sum l)%nat.
Proof. reflexivity. Qed.

Lemma list_sum_split_head {A B} (p : B -> A -> bool) (a : A) (l : list A) (G : list B) :
  list_sum (List.map (fun g => length (List.filter (p g) (a :: l))) G)
  = (list_sum (List.map (fun g => if p g a then 1%nat else 0%nat) G)
     + list_sum (List.map (fun g => length (List.filter (p g) l)) G))%nat.
Proof.
  induction G as [|g G IH]; [reflexivity|]. cbn [List.map].
  rewrite !list_sum_cons, IH. cbn [List.filter]. destruct (p g a); cbn [length]; lia.
Qed.

Lemma groups_with_id (x course_id : Z) (G : list CourseGroup.t) :
  NoDup (List.map CourseGroup.id G) ->
  list_sum (List.map (fun g => if Z.eqb x (CourseGroup.id g) then 1%nat else 0%nat)
                     (List.filter (fun g => Z.eqb (CourseGroup.course g) course_id) G))
  = if existsb (fun g => Z.eqb (CourseGroup.id g) x && Z.eqb (CourseGroup.course g) course_id) G
    then 1%nat else 0%nat.
Proof.
  induction G as [|g G IH]; intros Hnd; [reflexivity|].
  cbn [List.map] in Hnd. apply NoDup_cons in Hnd as [Hout Hnd]. specialize (IH Hnd).
  cbn [List.filter existsb]. rewrite (Z.eqb_sym (CourseGroup.id g) x).
  destruct (Z.eqb_spec x (CourseGroup.id g)) as [Ex|Ex].
  - subst x.
    assert (Hnone : existsb (fun g0 => Z.eqb (CourseGroup.id g0) (CourseGroup.id g)
                                       && Z.eqb (CourseGroup.course g0) course_id) G = false).
    { destruct (existsb _ G) eqn:E; [|reflexivity]. exfalso.
      apply List.existsb_exists in E as (g' & Hg' & Hboth).
      apply andb_true_iff in Hboth as [Hid _]. apply Z.eqb_eq in Hid.
      apply Hout. apply list_elem_of_In. rewrite <- Hid. now apply List.in_map. }
    rewrite Hnone in IH |- *.
    destruct (Z.eqb (CourseGroup.course g) course_id); cbn [andb orb List.map].
    + rewrite list_sum_cons, Z.eqb_refl, IH. reflexivity.
    + exact IH.
  - cbn [andb orb].
    destruct (Z.eqb (CourseGroup.course g) course_id); cbn [List.map].
    + rewrite list_sum_cons.
      destruct (Z.eqb_spec x (CourseGroup.id g)); [contradiction|]. exact IH.
    + exact IH.
Qed.

(** X20.  With unique course-group ids, the number of students enrolled in
    a course is the sum of the numbers enrolled in its groups. *)
Theorem course_total_is_sum_of_group_totals db (course : Course.t) :
  NoDup (List.map CourseGroup.id (course_groups db)) ->
  Course_total_students_enrolled db course
  = list_sum (List.map (CourseGroup_total_students_enrolled db) (course_groups_of db course)).
Proof.
  intros Hnd.
  unfold Course_total_students_enrolled, course_enrollments, course_groups_of.
  unfold CourseGroup_total_students_enrolled.
  induction (enrollments db) as [|e E IH].
  - cbn [List.filter length]. induction (List.filter _ (course_groups db)) as [|g G IHG];
      [reflexivity | cbn; exact IHG].
  - rewrite (list_sum_split_head
               (fun g e => Z.eqb (UserCourseGroupEnrollment.course_group e) (CourseGroup.id g))).
    rewrite <- IH, (groups_with_id _ (Course.id course) (course_groups db) Hnd).
    cbn [List.filter]. destruct (existsb _ (course_groups db)); reflexivity.
Qed.

(** ** The feedback payload *)

(** [first()] gives the row of least primary key, and nothing only on an
    empty queryset. *)
Lemma first_answer_spec (rows : list Answer.t) :
  match first_answer rows with
  | None => rows = []
  | Some a => In a rows /\ forall b, In b rows -> (Answer.id a <= Answer.id b)%Z
  end.
Proof.
  induction rows as [|a rest IH]; [reflexivity|]. cbn [first_answer].
  destruct (first_answer rest) as [b|].
  - destruct IH as [Hb Hleast]. destruct (Z.ltb_spec (Answer.id b) (Answer.id a)) as [Hlt|Hge].
    + split; [now right|]. intros c [<-|Hc]; [lia | now apply Hleast].
    + split; [now left|]. intros c [<-|Hc]; [lia|]. specialize (Hleast c Hc). lia.
  - subst rest. split; [now left|]. intros c [<-|[]]. lia.
Qed.

(** X21.  In the request the feedback job sends there is one entry per
    answer attempt of the quest attempt, in their order.  An entry counts as
    correct exactly when the option was selected and is a correct one, and
    its [correct_answer] is the text of the correct option of the question
    with the least id, or the empty string when the question has no correct
    option. *)
Theorem feedback_payload_entries db (user_quest_attempt : UserQuestAttempt.t)
    (student : EduquestUser.t) (quest : Quest.t) :
  let data := build_attempt_data db user_quest_attempt student quest in
  let answer_attempts := answer_attempts db (UserQuestAttempt.id user_quest_attempt) in
  length (data_answers data) = length answer_attempts
  /\ forall i ua, nth_error answer_attempts i = Some ua ->
       exists entry,
         nth_error (data_answers data) i = Some entry
         /\ entry_question_id entry = Question.id (UserAnswerAttempt.question ua)
         /\ entry_is_correct entry
            = (entry_is_selected entry && entry_answer_is_correct entry)
         /\ let correct_options :=
              List.filter Answer.is_correct
                          (question_answers db (UserAnswerAttempt.question ua)) in
            (correct_options = [] -> entry_correct_answer entry = ""%string)
            /\ (correct_options <> [] ->
                exists a, In a correct_options
                          /\ entry_correct_answer entry = Answer.text a
                          /\ forall b, In b correct_options ->
                                       (Answer.id a <= Answer.id b)%Z).
Proof.
  cbv zeta. unfold build_attempt_data. cbn [data_answers].
  split; [apply List.length_map|].
  intros i ua Hi. exists (build_entry db ua). split; [|split; [reflexivity|split]].
  - rewrite List.nth_error_map, Hi. reflexivity.
  - reflexivity.
  - unfold build_entry. cbn [entry_correct_answer].
    pose proof (first_answer_spec
                  (List.filter Answer.is_correct
                               (question_answers db (UserAnswerAttempt.question ua)))) as Hf.
    destruct (first_answer _) as [a|].
    + destruct Hf as [Ha Hleast]. split.
      * intros E. rewrite E in Ha. destruct Ha.
      * intros _. exists a. auto.
    + split; [reflexivity | intros H; contradiction].
Qed.

(** ** Scoring followed by the Perfectionist job *)




(** ** The further properties at work on example stores *)





Lemma perfectionist_on_full_marks_witness :
  let db := Scenarios.full_marks_db in
  get_attempt db 1 = Got (Examples.timed_attempt 1 1 10 50)
  /\ get_badge db "Perfectionist" = Got (Badge.mk 1 "Perfectionist")
  /\ NoDup (user_quest_badges db)
  /\ In (UserQuestBadge.mk 1 1) (user_quest_badges (fst (award_perfectionist_badge db 1)))
  /\ ~ In (UserQuestBadge.mk 1 2) (user_quest_badges (fst (award_perfectionist_badge db 2))).
Proof.
  intros db.
  assert (Hnd : NoDup (user_quest_badges db)) by apply NoDup_nil_2.
  split; [reflexivity|]. split; [reflexivity|]. split; [exact Hnd|]. split.
  - destruct (perfectionist_on_full_marks db 1 (Examples.timed_attempt 1 1 10 50)
                Examples.quest_1 (Badge.mk 1 "Perfectionist") eq_refl eq_refl eq_refl Hnd)
      as [Hiff _].
    apply Hiff. right. split; [discriminate|].
    split; [apply quest_1_has_max_score; reflexivity|].
    split; [reflexivity | vm_compute; reflexivity].
  - destruct (perfectionist_on_full_marks db 2 (Examples.timed_attempt 2 1 5 30)
                Examples.quest_1 (Badge.mk 1 "Perfectionist") eq_refl eq_refl eq_refl Hnd)
      as [Hiff _].
    intros Hin. apply Hiff in Hin as [[]|(_ & _ & _ & Hfull)].
    vm_compute in Hfull. discriminate.
Defined.

Lemma first_attempt_badge_once_per_student_witness :
  let db := Scenarios.full_marks_db in
  let db' := fst (award_first_attempt_badge db 1) in
  get_attempt db 1 = Got (Examples.timed_attempt 1 1 10 50)
  /\ get_badge db "First Attempt" = Got (Badge.mk 2 "First Attempt")
  /\ student_has_badge db' 1 "First Attempt" = true
  /\ fst (award_first_attempt_badge db' 2) = db'.
Proof.
  intros db db'.
  split; [reflexivity|]. split; [reflexivity|].
  destruct (first_attempt_badge_once_per_student db 1 (Examples.timed_attempt 1 1 10 50)
              Examples.quest_1 (EduquestUser.mk 1 "student" 0) (Badge.mk 2 "First Attempt")
              eq_refl eq_refl ltac:(discriminate) eq_refl eq_refl eq_refl)
    as (Hhas & _ & _ & Hother).
  split; [exact Hhas|].
  apply (Hother 2%Z (Examples.timed_attempt 2 1 5 30)); reflexivity.
Defined.

Lemma quest_badge_jobs_run_again_witness :
  let db := Examples.tie_at_top_db in
  NoDup (user_quest_badges db)
  /\ user_quest_badges (fst (award_expert_badge db 1))
     = [UserQuestBadge.mk 1 1; UserQuestBadge.mk 1 2]
  /\ fst (award_expert_badge (fst (award_expert_badge db 1)) 1)
     = fst (award_expert_badge db 1).
Proof.
  intros db.
  assert (Hnd : NoDup (user_quest_badges db)) by apply NoDup_nil_2.
  split; [exact Hnd|]. split; [vm_compute; reflexivity|].
  exact (proj2 (proj2 (proj2 (quest_badge_jobs_run_again db 1 Hnd)))).
Defined.

Lemma quest_save_fires_once_witness :
  let db := Examples.three_quests_db in
  let self := Quest.mk 1 1 "Quest" "EduQuest MCQ" "Expired" in
  exists db',
    Quest_save self db
    = Some (db', [award_expert_badge_job 1; award_speedster_badge_job 1])
    /\ Quest_save self db' = Some (db', []).
Proof.
  intros db self.
  destruct (Quest_save self db) as [[db' jobs]|] eqn:E; [|vm_compute in E; discriminate].
  exists db'.
  assert (Hjobs : jobs = [award_expert_badge_job 1; award_speedster_badge_job 1])
    by (vm_compute in E; injection E as _ <-; reflexivity).
  split; [rewrite Hjobs; reflexivity|].
  exact (proj2 (proj2 (quest_save_fires_once self db db' jobs E))).
Defined.

Lemma three_quests_db_quest_ids : NoDup (List.map Quest.id (quests Examples.three_quests_db)).
Proof. apply (bool_decide_unpack _). vm_compute. exact I. Defined.


Lemma expiry_check_expires_due_quests_witness :
  let db := Examples.three_quests_db in
  NoDup (List.map Quest.id (quests db))
  /\ exists db' jobs,
       check_expired_quest Scenarios.expiration_dates 10 db = Some (db', jobs)
       /\ List.map Quest.status (quests db') = ["Expired"; "Active"; "Active"]%string
       /\ (forall job, In job jobs <-> quest_expiry_job 1 job)
       /\ check_expired_quest Scenarios.expiration_dates 10 db' = Some (db', []).
Proof.
  intros db.
  assert (Hnd : NoDup (List.map Quest.id (quests db))) by exact three_quests_db_quest_ids.
  split; [exact Hnd|].
  destruct (expiry_check_expires_due_quests Scenarios.expiration_dates 10 db Hnd)
    as (jobs & Erun & _ & Hjobs & Hagain).
  eexists _, _. split; [exact Erun|]. split; [vm_compute; reflexivity|]. split.
  - intros job. rewrite Hjobs. split.
    + intros (row & Hrow & Hdue & Hjob). simpl in Hrow.
      destruct Hrow as [<-|[<-|[<-|[]]]]; [exact Hjob | discriminate Hdue | discriminate Hdue].
    + intros Hjob. exists (Quest.mk 1 1 "Quest" "EduQuest MCQ" "Active").
      split; [simpl; tauto|]. split; [reflexivity | exact Hjob].
  - apply Hagain. reflexivity.
Defined.

Lemma completion_check_stamps_awarded_witness :
  let db := Examples.three_quests_db in
  get_badge db "Completionist" = Got (Badge.mk 1 "Completionist")
  /\ NoDup (user_course_badges db)
  /\ enrollments (fst (check_course_completion_and_award_completionist_badge db 42 1))
     = [UserCourseGroupEnrollment.mk 1 1 1 None;
        UserCourseGroupEnrollment.mk 2 2 1 (Some 42%Z)].
Proof.
  intros db.
  assert (Hnd : NoDup (user_course_badges db)) by apply NoDup_nil_2.
  split; [reflexivity|]. split; [exact Hnd|].
  destruct (completion_check_stamps_awarded db 42 1 (Badge.mk 1 "Completionist") eq_refl Hnd)
    as (_ & -> & _). vm_compute. reflexivity.
Defined.

Lemma completion_check_without_badge_witness :
  let db := Scenarios.no_badge_db in
  (forall badge, get_badge db "Completionist" <> Got badge)
  /\ check_course_completion_and_award_completionist_badge db 42 1
     = (save_completed_on 1 42 db, CompletionRaised).
Proof.
  intros db.
  assert (Hb : forall badge, get_badge db "Completionist" <> Got badge) by discriminate.
  split; [exact Hb|].
  rewrite (completion_check_without_badge db 42 1 Hb). reflexivity.
Defined.



Lemma competency_needs_breadth_witness :
  snd (update_cognitive_profile Scenarios.five_levels_db 1) = ProfileUpdated "Advanced"
  /\ (5 <= levels_with_correct_answer
             (observed_answer_attempts Scenarios.five_levels_db 1))%nat.
Proof.
  assert (H : snd (update_cognitive_profile Scenarios.five_levels_db 1)
              = ProfileUpdated "Advanced") by (vm_compute; reflexivity).
  split; [exact H|].
  exact (proj1 (competency_needs_breadth Scenarios.five_levels_db 1 "Advanced" H) eq_refl).
Defined.

Lemma submission_profile_job_keyed_by_attempt_id_witness :
  let self := Examples.attempt_7 in
  let db := Examples.scoring_db in
  UserQuestAttempt.submitted self = true
  /\ UserQuestAttempt.student self = 1%Z
  /\ In (update_cognitive_profile_job 7) (UserQuestAttempt_save_jobs false self db)
  /\ ~ In (update_cognitive_profile_job 1) (UserQuestAttempt_save_jobs false self db).
Proof.
  intros self db.
  assert (Hsub : UserQuestAttempt.submitted self = true) by reflexivity.
  split; [exact Hsub|]. split; [reflexivity|].
  destruct (submission_profile_job_keyed_by_attempt_id self db Hsub) as [Hjob _].
  split; [apply Hjob; reflexivity|].
  intros Hin. apply Hjob in Hin. discriminate Hin.
Defined.

Lemma feedback_job_settles_witness :
  let body := [("recommendations"%string, JString "Revise the primes")] in
  let post := fun _ : attempt_data => Response 200 (Some (JObject body)) in
  let db' := fst (generate_personalised_feedback post Examples.scoring_db 7) in
  snd (generate_personalised_feedback post Examples.scoring_db 7) = FeedbackGenerated
  /\ UserQuestAttempt_save_jobs true Examples.attempt_7 Examples.scoring_db
     = [generate_personalised_feedback_job 7]
  /\ UserQuestAttempt_save_jobs true Examples.attempt_7 db' = []
  /\ generate_personalised_feedback post db' 7 = (db', FeedbackGenerated).
Proof.
  intros body post db'.
  assert (H : snd (generate_personalised_feedback post Examples.scoring_db 7)
              = FeedbackGenerated) by (vm_compute; reflexivity).
  split; [exact H|]. split; [vm_compute; reflexivity|].
  destruct (feedback_job_settles post Examples.scoring_db 7 H) as (Hsave & _ & _ & Hagain).
  split; [apply Hsave; reflexivity | exact Hagain].
Defined.

Lemma course_total_is_sum_of_group_totals_witness :
  let db := Examples.three_quests_db in
  NoDup (List.map CourseGroup.id (course_groups db))
  /\ Course_total_students_enrolled db (Course.mk 1 "Expired")
     = list_sum (List.map (CourseGroup_total_students_enrolled db)
                          (course_groups_of db (Course.mk 1 "Expired"))).
Proof.
  intros db.
  assert (Hnd : NoDup (List.map CourseGroup.id (course_groups db)))
    by (apply (bool_decide_unpack _); vm_compute; exact I).
  split; [exact Hnd|].
  exact (course_total_is_sum_of_group_totals db (Course.mk 1 "Expired") Hnd).
Defined.

